(** * Session manager and embedding pipeline: a shallow embedding

    The development follows two source files of the backend:

    - [src/backend/src/services/embeddings.py]: [EmbeddingService], with
      [generate_embedding] and [generate_embeddings_batch];
    - [src/backend/db_cli.py]: [DatabaseCLI], with [connect], [disconnect],
      [execute_query], [run_interactive], and the entry point [main].

    Both talk to the outside world (the embedding provider, the asyncpg
    driver, the console, the logger).  The outside world is a parameter of
    the model: a state type and functions that step it and may raise.  The
    code itself is a computation in a small state-and-exception monad.

    The text the command line handles (addresses, queries, the lines typed
    at the prompt) is a sequence of code points, and [strip], [upper] and
    [lower] on it follow the Unicode character database. *)

From Stdlib Require Import ZArith NArith List String Ascii Bool Lia.
Import ListNotations.

Set Implicit Arguments.

(** ** Python exceptions and results *)

(** The three classes of exception the handlers of the source tell apart:
    [except KeyboardInterrupt], [except Exception], and whatever derives
    from [BaseException] only (cancellation, interpreter exit), which no
    handler of these files catches. *)
Inductive exn : Type :=
| KeyboardInterrupt
| Exception (msg : string)
| BaseException (msg : string).

Definition is_Exception (e : exn) : bool :=
  match e with
  | Exception _ => true
  | _ => false
  end.

Inductive result (A : Type) : Type :=
| Ok (a : A)
| Raise (e : exn).

Arguments Ok {A} a.
Arguments Raise {A} e.

(** ** A state-and-exception monad *)

Module Eff.

Definition M (S A : Type) : Type := S -> result A * S.

Definition ret {S A} (a : A) : M S A := fun s => (Ok a, s).

Definition raise {S A} (e : exn) : M S A := fun s => (Raise e, s).

Definition bind {S A B} (m : M S A) (k : A -> M S B) : M S B :=
  fun s =>
    match m s with
    | (Ok a, s') => k a s'
    | (Raise e, s') => (Raise e, s')
    end.

Definition lift {S A} (r : result A) : M S A := fun s => (r, s).

Definition modify {S} (f : S -> S) : M S unit := fun s => (Ok tt, f s).

(** [try: body  except Exception as e: handler e].  Exceptions outside the
    [Exception] class pass through. *)
Definition try_except {S A} (body : M S A) (handler : exn -> M S A) : M S A :=
  fun s =>
    match body s with
    | (Ok a, s') => (Ok a, s')
    | (Raise e, s') => if is_Exception e then handler e s' else (Raise e, s')
    end.

(** [try: body  finally: cleanup].  The cleanup runs on every way out of
    the body; an exception raised by the cleanup replaces the pending
    one. *)
Definition try_finally {S A} (body : M S A) (cleanup : M S unit) : M S A :=
  fun s =>
    match body s with
    | (r, s') =>
        match cleanup s' with
        | (Ok _, s'') => (r, s'')
        | (Raise e, s'') => (Raise e, s'')
        end
    end.

End Eff.

Declare Scope eff_scope.
Delimit Scope eff_scope with eff.
Notation "x <- m ;; k" := (Eff.bind m (fun x => k))
(at level 61, m at next level, right associativity) : eff_scope.
Notation "m ;; k" := (Eff.bind m (fun _ => k))
(at level 61, right associativity) : eff_scope.

(** ** Unicode case data

    The case mappings and the two character classes of the Unicode
    character database (version 14.0, the one of CPython 3.11) that
    [str.upper] and [str.lower] consult. *)

Module UnicodeData.

(** The characters [str.upper] changes, each with its full uppercase
    mapping. *)
Definition UPPER : list (N * list N) :=
 [
  (97, [65]); (98, [66]); (99, [67]); (100, [68]);
  (101, [69]); (102, [70]); (103, [71]); (104, [72]);
  (105, [73]); (106, [74]); (107, [75]); (108, [76]);
  (109, [77]); (110, [78]); (111, [79]); (112, [80]);
  (113, [81]); (114, [82]); (115, [83]); (116, [84]);
  (117, [85]); (118, [86]); (119, [87]); (120, [88]);
  (121, [89]); (122, [90]); (181, [924]); (223, [83; 83]);
  (224, [192]); (225, [193]); (226, [194]); (227, [195]);
  (228, [196]); (229, [197]); (230, [198]); (231, [199]);
  (232, [200]); (233, [201]); (234, [202]); (235, [203]);
  (236, [204]); (237, [205]); (238, [206]); (239, [207]);
  (240, [208]); (241, [209]); (242, [210]); (243, [211]);
  (244, [212]); (245, [213]); (246, [214]); (248, [216]);
  (249, [217]); (250, [218]); (251, [219]); (252, [220]);
  (253, [221]); (254, [222]); (255, [376]); (257, [256]);
  (259, [258]); (261, [260]); (263, [262]); (265, [264]);
  (267, [266]); (269, [268]); (271, [270]); (273, [272]);
  (275, [274]); (277, [276]); (279, [278]); (281, [280]);
  (283, [282]); (285, [284]); (287, [286]); (289, [288]);
  (291, [290]); (293, [292]); (295, [294]); (297, [296]);
  (299, [298]); (301, [300]); (303, [302]); (305, [73]);
  (307, [306]); (309, [308]); (311, [310]); (314, [313]);
  (316, [315]); (318, [317]); (320, [319]); (322, [321]);
  (324, [323]); (326, [325]); (328, [327]); (329, [700; 78]);
  (331, [330]); (333, [332]); (335, [334]); (337, [336]);
  (339, [338]); (341, [340]); (343, [342]); (345, [344]);
  (347, [346]); (349, [348]); (351, [350]); (353, [352]);
  (355, [354]); (357, [356]); (359, [358]); (361, [360]);
  (363, [362]); (365, [364]); (367, [366]); (369, [368]);
  (371, [370]); (373, [372]); (375, [374]); (378, [377]);
  (380, [379]); (382, [381]); (383, [83]); (384, [579]);
  (387, [386]); (389, [388]); (392, [391]); (396, [395]);
  (402, [401]); (405, [502]); (409, [408]); (410, [573]);
  (414, [544]); (417, [416]); (419, [418]); (421, [420]);
  (424, [423]); (429, [428]); (432, [431]); (436, [435]);
  (438, [437]); (441, [440]); (445, [444]); (447, [503]);
  (453, [452]); (454, [452]); (456, [455]); (457, [455]);
  (459, [458]); (460, [458]); (462, [461]); (464, [463]);
  (466, [465]); (468, [467]); (470, [469]); (472, [471]);
  (474, [473]); (476, [475]); (477, [398]); (479, [478]);
  (481, [480]); (483, [482]); (485, [484]); (487, [486]);
  (489, [488]); (491, [490]); (493, [492]); (495, [494]);
  (496, [74; 780]); (498, [497]); (499, [497]); (501, [500]);
  (505, [504]); (507, [506]); (509, [508]); (511, [510]);
  (513, [512]); (515, [514]); (517, [516]); (519, [518]);
  (521, [520]); (523, [522]); (525, [524]); (527, [526]);
  (529, [528]); (531, [530]); (533, [532]); (535, [534]);
  (537, [536]); (539, [538]); (541, [540]); (543, [542]);
  (547, [546]); (549, [548]); (551, [550]); (553, [552]);
  (555, [554]); (557, [556]); (559, [558]); (561, [560]);
  (563, [562]); (572, [571]); (575, [11390]); (576, [11391]);
  (578, [577]); (583, [582]); (585, [584]); (587, [586]);
  (589, [588]); (591, [590]); (592, [11375]); (593, [11373]);
  (594, [11376]); (595, [385]); (596, [390]); (598, [393]);
  (599, [394]); (601, [399]); (603, [400]); (604, [42923]);
  (608, [403]); (609, [42924]); (611, [404]); (613, [42893]);
  (614, [42922]); (616, [407]); (617, [406]); (618, [42926]);
  (619, [11362]); (620, [42925]); (623, [412]); (625, [11374]);
  (626, [413]); (629, [415]); (637, [11364]); (640, [422]);
  (642, [42949]); (643, [425]); (647, [42929]); (648, [430]);
  (649, [580]); (650, [433]); (651, [434]); (652, [581]);
  (658, [439]); (669, [42930]); (670, [42928]); (837, [921]);
  (881, [880]); (883, [882]); (887, [886]); (891, [1021]);
  (892, [1022]); (893, [1023]); (912, [921; 776; 769]); (940, [902]);
  (941, [904]); (942, [905]); (943, [906]); (944, [933; 776; 769]);
  (945, [913]); (946, [914]); (947, [915]); (948, [916]);
  (949, [917]); (950, [918]); (951, [919]); (952, [920]);
  (953, [921]); (954, [922]); (955, [923]); (956, [924]);
  (957, [925]); (958, [926]); (959, [927]); (960, [928]);
  (961, [929]); (962, [931]); (963, [931]); (964, [932]);
  (965, [933]); (966, [934]); (967, [935]); (968, [936]);
  (969, [937]); (970, [938]); (971, [939]); (972, [908]);
  (973, [910]); (974, [911]); (976, [914]); (977, [920]);
  (981, [934]); (982, [928]); (983, [975]); (985, [984]);
  (987, [986]); (989, [988]); (991, [990]); (993, [992]);
  (995, [994]); (997, [996]); (999, [998]); (1001, [1000]);
  (1003, [1002]); (1005, [1004]); (1007, [1006]); (1008, [922]);
  (1009, [929]); (1010, [1017]); (1011, [895]); (1013, [917]);
  (1016, [1015]); (1019, [1018]); (1072, [1040]); (1073, [1041]);
  (1074, [1042]); (1075, [1043]); (1076, [1044]); (1077, [1045]);
  (1078, [1046]); (1079, [1047]); (1080, [1048]); (1081, [1049]);
  (1082, [1050]); (1083, [1051]); (1084, [1052]); (1085, [1053]);
  (1086, [1054]); (1087, [1055]); (1088, [1056]); (1089, [1057]);
  (1090, [1058]); (1091, [1059]); (1092, [1060]); (1093, [1061]);
  (1094, [1062]); (1095, [1063]); (1096, [1064]); (1097, [1065]);
  (1098, [1066]); (1099, [1067]); (1100, [1068]); (1101, [1069]);
  (1102, [1070]); (1103, [1071]); (1104, [1024]); (1105, [1025]);
  (1106, [1026]); (1107, [1027]); (1108, [1028]); (1109, [1029]);
  (1110, [1030]); (1111, [1031]); (1112, [1032]); (1113, [1033]);
  (1114, [1034]); (1115, [1035]); (1116, [1036]); (1117, [1037]);
  (1118, [1038]); (1119, [1039]); (1121, [1120]); (1123, [1122]);
  (1125, [1124]); (1127, [1126]); (1129, [1128]); (1131, [1130]);
  (1133, [1132]); (1135, [1134]); (1137, [1136]); (1139, [1138]);
  (1141, [1140]); (1143, [1142]); (1145, [1144]); (1147, [1146]);
  (1149, [1148]); (1151, [1150]); (1153, [1152]); (1163, [1162]);
  (1165, [1164]); (1167, [1166]); (1169, [1168]); (1171, [1170]);
  (1173, [1172]); (1175, [1174]); (1177, [1176]); (1179, [1178]);
  (1181, [1180]); (1183, [1182]); (1185, [1184]); (1187, [1186]);
  (1189, [1188]); (1191, [1190]); (1193, [1192]); (1195, [1194]);
  (1197, [1196]); (1199, [1198]); (1201, [1200]); (1203, [1202]);
  (1205, [1204]); (1207, [1206]); (1209, [1208]); (1211, [1210]);
  (1213, [1212]); (1215, [1214]); (1218, [1217]); (1220, [1219]);
  (1222, [1221]); (1224, [1223]); (1226, [1225]); (1228, [1227]);
  (1230, [1229]); (1231, [1216]); (1233, [1232]); (1235, [1234]);
  (1237, [1236]); (1239, [1238]); (1241, [1240]); (1243, [1242]);
  (1245, [1244]); (1247, [1246]); (1249, [1248]); (1251, [1250]);
  (1253, [1252]); (1255, [1254]); (1257, [1256]); (1259, [1258]);
  (1261, [1260]); (1263, [1262]); (1265, [1264]); (1267, [1266]);
  (1269, [1268]); (1271, [1270]); (1273, [1272]); (1275, [1274]);
  (1277, [1276]); (1279, [1278]); (1281, [1280]); (1283, [1282]);
  (1285, [1284]); (1287, [1286]); (1289, [1288]); (1291, [1290]);
  (1293, [1292]); (1295, [1294]); (1297, [1296]); (1299, [1298]);
  (1301, [1300]); (1303, [1302]); (1305, [1304]); (1307, [1306]);
  (1309, [1308]); (1311, [1310]); (1313, [1312]); (1315, [1314]);
  (1317, [1316]); (1319, [1318]); (1321, [1320]); (1323, [1322]);
  (1325, [1324]); (1327, [1326]); (1377, [1329]); (1378, [1330]);
  (1379, [1331]); (1380, [1332]); (1381, [1333]); (1382, [1334]);
  (1383, [1335]); (1384, [1336]); (1385, [1337]); (1386, [1338]);
  (1387, [1339]); (1388, [1340]); (1389, [1341]); (1390, [1342]);
  (1391, [1343]); (1392, [1344]); (1393, [1345]); (1394, [1346]);
  (1395, [1347]); (1396, [1348]); (1397, [1349]); (1398, [1350]);
  (1399, [1351]); (1400, [1352]); (1401, [1353]); (1402, [1354]);
  (1403, [1355]); (1404, [1356]); (1405, [1357]); (1406, [1358]);
  (1407, [1359]); (1408, [1360]); (1409, [1361]); (1410, [1362]);
  (1411, [1363]); (1412, [1364]); (1413, [1365]); (1414, [1366]);
  (1415, [1333; 1362]); (4304, [7312]); (4305, [7313]); (4306, [7314]);
  (4307, [7315]); (4308, [7316]); (4309, [7317]); (4310, [7318]);
  (4311, [7319]); (4312, [7320]); (4313, [7321]); (4314, [7322]);
  (4315, [7323]); (4316, [7324]); (4317, [7325]); (4318, [7326]);
  (4319, [7327]); (4320, [7328]); (4321, [7329]); (4322, [7330]);
  (4323, [7331]); (4324, [7332]); (4325, [7333]); (4326, [7334]);
  (4327, [7335]); (4328, [7336]); (4329, [7337]); (4330, [7338]);
  (4331, [7339]); (4332, [7340]); (4333, [7341]); (4334, [7342]);
  (4335, [7343]); (4336, [7344]); (4337, [7345]); (4338, [7346]);
  (4339, [7347]); (4340, [7348]); (4341, [7349]); (4342, [7350]);
  (4343, [7351]); (4344, [7352]); (4345, [7353]); (4346, [7354]);
  (4349, [7357]); (4350, [7358]); (4351, [7359]); (5112, [5104]);
  (5113, [5105]); (5114, [5106]); (5115, [5107]); (5116, [5108]);
  (5117, [5109]); (7296, [1042]); (7297, [1044]); (7298, [1054]);
  (7299, [1057]); (7300, [1058]); (7301, [1058]); (7302, [1066]);
  (7303, [1122]); (7304, [42570]); (7545, [42877]); (7549, [11363]);
  (7566, [42950]); (7681, [7680]); (7683, [7682]); (7685, [7684]);
  (7687, [7686]); (7689, [7688]); (7691, [7690]); (7693, [7692]);
  (7695, [7694]); (7697, [7696]); (7699, [7698]); (7701, [7700]);
  (7703, [7702]); (7705, [7704]); (7707, [7706]); (7709, [7708]);
  (7711, [7710]); (7713, [7712]); (7715, [7714]); (7717, [7716]);
  (7719, [7718]); (7721, [7720]); (7723, [7722]); (7725, [7724]);
  (7727, [7726]); (7729, [7728]); (7731, [7730]); (7733, [7732]);
  (7735, [7734]); (7737, [7736]); (7739, [7738]); (7741, [7740]);
  (7743, [7742]); (7745, [7744]); (7747, [7746]); (7749, [7748]);
  (7751, [7750]); (7753, [7752]); (7755, [7754]); (7757, [7756]);
  (7759, [7758]); (7761, [7760]); (7763, [7762]); (7765, [7764]);
  (7767, [7766]); (7769, [7768]); (7771, [7770]); (7773, [7772]);
  (7775, [7774]); (7777, [7776]); (7779, [7778]); (7781, [7780]);
  (7783, [7782]); (7785, [7784]); (7787, [7786]); (7789, [7788]);
  (7791, [7790]); (7793, [7792]); (7795, [7794]); (7797, [7796]);
  (7799, [7798]); (7801, [7800]); (7803, [7802]); (7805, [7804]);
  (7807, [7806]); (7809, [7808]); (7811, [7810]); (7813, [7812]);
  (7815, [7814]); (7817, [7816]); (7819, [7818]); (7821, [7820]);
  (7823, [7822]); (7825, [7824]); (7827, [7826]); (7829, [7828]);
  (7830, [72; 817]); (7831, [84; 776]); (7832, [87; 778]); (7833, [89; 778]);
  (7834, [65; 702]); (7835, [7776]); (7841, [7840]); (7843, [7842]);
  (7845, [7844]); (7847, [7846]); (7849, [7848]); (7851, [7850]);
  (7853, [7852]); (7855, [7854]); (7857, [7856]); (7859, [7858]);
  (7861, [7860]); (7863, [7862]); (7865, [7864]); (7867, [7866]);
  (7869, [7868]); (7871, [7870]); (7873, [7872]); (7875, [7874]);
  (7877, [7876]); (7879, [7878]); (7881, [7880]); (7883, [7882]);
  (7885, [7884]); (7887, [7886]); (7889, [7888]); (7891, [7890]);
  (7893, [7892]); (7895, [7894]); (7897, [7896]); (7899, [7898]);
  (7901, [7900]); (7903, [7902]); (7905, [7904]); (7907, [7906]);
  (7909, [7908]); (7911, [7910]); (7913, [7912]); (7915, [7914]);
  (7917, [7916]); (7919, [7918]); (7921, [7920]); (7923, [7922]);
  (7925, [7924]); (7927, [7926]); (7929, [7928]); (7931, [7930]);
  (7933, [7932]); (7935, [7934]); (7936, [7944]); (7937, [7945]);
  (7938, [7946]); (7939, [7947]); (7940, [7948]); (7941, [7949]);
  (7942, [7950]); (7943, [7951]); (7952, [7960]); (7953, [7961]);
  (7954, [7962]); (7955, [7963]); (7956, [7964]); (7957, [7965]);
  (7968, [7976]); (7969, [7977]); (7970, [7978]); (7971, [7979]);
  (7972, [7980]); (7973, [7981]); (7974, [7982]); (7975, [7983]);
  (7984, [7992]); (7985, [7993]); (7986, [7994]); (7987, [7995]);
  (7988, [7996]); (7989, [7997]); (7990, [7998]); (7991, [7999]);
  (8000, [8008]); (8001, [8009]); (8002, [8010]); (8003, [8011]);
  (8004, [8012]); (8005, [8013]); (8016, [933; 787]); (8017, [8025]);
  (8018, [933; 787; 768]); (8019, [8027]); (8020, [933; 787; 769]); (8021, [8029]);
  (8022, [933; 787; 834]); (8023, [8031]); (8032, [8040]); (8033, [8041]);
  (8034, [8042]); (8035, [8043]); (8036, [8044]); (8037, [8045]);
  (8038, [8046]); (8039, [8047]); (8048, [8122]); (8049, [8123]);
  (8050, [8136]); (8051, [8137]); (8052, [8138]); (8053, [8139]);
  (8054, [8154]); (8055, [8155]); (8056, [8184]); (8057, [8185]);
  (8058, [8170]); (8059, [8171]); (8060, [8186]); (8061, [8187]);
  (8064, [7944; 921]); (8065, [7945; 921]); (8066, [7946; 921]); (8067, [7947; 921]);
  (8068, [7948; 921]); (8069, [7949; 921]); (8070, [7950; 921]); (8071, [7951; 921]);
  (8072, [7944; 921]); (8073, [7945; 921]); (8074, [7946; 921]); (8075, [7947; 921]);
  (8076, [7948; 921]); (8077, [7949; 921]); (8078, [7950; 921]); (8079, [7951; 921]);
  (8080, [7976; 921]); (8081, [7977; 921]); (8082, [7978; 921]); (8083, [7979; 921]);
  (8084, [7980; 921]); (8085, [7981; 921]); (8086, [7982; 921]); (8087, [7983; 921]);
  (8088, [7976; 921]); (8089, [7977; 921]); (8090, [7978; 921]); (8091, [7979; 921]);
  (8092, [7980; 921]); (8093, [7981; 921]); (8094, [7982; 921]); (8095, [7983; 921]);
  (8096, [8040; 921]); (8097, [8041; 921]); (8098, [8042; 921]); (8099, [8043; 921]);
  (8100, [8044; 921]); (8101, [8045; 921]); (8102, [8046; 921]); (8103, [8047; 921]);
  (8104, [8040; 921]); (8105, [8041; 921]); (8106, [8042; 921]); (8107, [8043; 921]);
  (8108, [8044; 921]); (8109, [8045; 921]); (8110, [8046; 921]); (8111, [8047; 921]);
  (8112, [8120]); (8113, [8121]); (8114, [8122; 921]); (8115, [913; 921]);
  (8116, [902; 921]); (8118, [913; 834]); (8119, [913; 834; 921]); (8124, [913; 921]);
  (8126, [921]); (8130, [8138; 921]); (8131, [919; 921]); (8132, [905; 921]);
  (8134, [919; 834]); (8135, [919; 834; 921]); (8140, [919; 921]); (8144, [8152]);
  (8145, [8153]); (8146, [921; 776; 768]); (8147, [921; 776; 769]); (8150, [921; 834]);
  (8151, [921; 776; 834]); (8160, [8168]); (8161, [8169]); (8162, [933; 776; 768]);
  (8163, [933; 776; 769]); (8164, [929; 787]); (8165, [8172]); (8166, [933; 834]);
  (8167, [933; 776; 834]); (8178, [8186; 921]); (8179, [937; 921]); (8180, [911; 921]);
  (8182, [937; 834]); (8183, [937; 834; 921]); (8188, [937; 921]); (8526, [8498]);
  (8560, [8544]); (8561, [8545]); (8562, [8546]); (8563, [8547]);
  (8564, [8548]); (8565, [8549]); (8566, [8550]); (8567, [8551]);
  (8568, [8552]); (8569, [8553]); (8570, [8554]); (8571, [8555]);
  (8572, [8556]); (8573, [8557]); (8574, [8558]); (8575, [8559]);
  (8580, [8579]); (9424, [9398]); (9425, [9399]); (9426, [9400]);
  (9427, [9401]); (9428, [9402]); (9429, [9403]); (9430, [9404]);
  (9431, [9405]); (9432, [9406]); (9433, [9407]); (9434, [9408]);
  (9435, [9409]); (9436, [9410]); (9437, [9411]); (9438, [9412]);
  (9439, [9413]); (9440, [9414]); (9441, [9415]); (9442, [9416]);
  (9443, [9417]); (9444, [9418]); (9445, [9419]); (9446, [9420]);
  (9447, [9421]); (9448, [9422]); (9449, [9423]); (11312, [11264]);
  (11313, [11265]); (11314, [11266]); (11315, [11267]); (11316, [11268]);
  (11317, [11269]); (11318, [11270]); (11319, [11271]); (11320, [11272]);
  (11321, [11273]); (11322, [11274]); (11323, [11275]); (11324, [11276]);
  (11325, [11277]); (11326, [11278]); (11327, [11279]); (11328, [11280]);
  (11329, [11281]); (11330, [11282]); (11331, [11283]); (11332, [11284]);
  (11333, [11285]); (11334, [11286]); (11335, [11287]); (11336, [11288]);
  (11337, [11289]); (11338, [11290]); (11339, [11291]); (11340, [11292]);
  (11341, [11293]); (11342, [11294]); (11343, [11295]); (11344, [11296]);
  (11345, [11297]); (11346, [11298]); (11347, [11299]); (11348, [11300]);
  (11349, [11301]); (11350, [11302]); (11351, [11303]); (11352, [11304]);
  (11353, [11305]); (11354, [11306]); (11355, [11307]); (11356, [11308]);
  (11357, [11309]); (11358, [11310]); (11359, [11311]); (11361, [11360]);
  (11365, [570]); (11366, [574]); (11368, [11367]); (11370, [11369]);
  (11372, [11371]); (11379, [11378]); (11382, [11381]); (11393, [11392]);
  (11395, [11394]); (11397, [11396]); (11399, [11398]); (11401, [11400]);
  (11403, [11402]); (11405, [11404]); (11407, [11406]); (11409, [11408]);
  (11411, [11410]); (11413, [11412]); (11415, [11414]); (11417, [11416]);
  (11419, [11418]); (11421, [11420]); (11423, [11422]); (11425, [11424]);
  (11427, [11426]); (11429, [11428]); (11431, [11430]); (11433, [11432]);
  (11435, [11434]); (11437, [11436]); (11439, [11438]); (11441, [11440]);
  (11443, [11442]); (11445, [11444]); (11447, [11446]); (11449, [11448]);
  (11451, [11450]); (11453, [11452]); (11455, [11454]); (11457, [11456]);
  (11459, [11458]); (11461, [11460]); (11463, [11462]); (11465, [11464]);
  (11467, [11466]); (11469, [11468]); (11471, [11470]); (11473, [11472]);
  (11475, [11474]); (11477, [11476]); (11479, [11478]); (11481, [11480]);
  (11483, [11482]); (11485, [11484]); (11487, [11486]); (11489, [11488]);
  (11491, [11490]); (11500, [11499]); (11502, [11501]); (11507, [11506]);
  (11520, [4256]); (11521, [4257]); (11522, [4258]); (11523, [4259]);
  (11524, [4260]); (11525, [4261]); (11526, [4262]); (11527, [4263]);
  (11528, [4264]); (11529, [4265]); (11530, [4266]); (11531, [4267]);
  (11532, [4268]); (11533, [4269]); (11534, [4270]); (11535, [4271]);
  (11536, [4272]); (11537, [4273]); (11538, [4274]); (11539, [4275]);
  (11540, [4276]); (11541, [4277]); (11542, [4278]); (11543, [4279]);
  (11544, [4280]); (11545, [4281]); (11546, [4282]); (11547, [4283]);
  (11548, [4284]); (11549, [4285]); (11550, [4286]); (11551, [4287]);
  (11552, [4288]); (11553, [4289]); (11554, [4290]); (11555, [4291]);
  (11556, [4292]); (11557, [4293]); (11559, [4295]); (11565, [4301]);
  (42561, [42560]); (42563, [42562]); (42565, [42564]); (42567, [42566]);
  (42569, [42568]); (42571, [42570]); (42573, [42572]); (42575, [42574]);
  (42577, [42576]); (42579, [42578]); (42581, [42580]); (42583, [42582]);
  (42585, [42584]); (42587, [42586]); (42589, [42588]); (42591, [42590]);
  (42593, [42592]); (42595, [42594]); (42597, [42596]); (42599, [42598]);
  (42601, [42600]); (42603, [42602]); (42605, [42604]); (42625, [42624]);
  (42627, [42626]); (42629, [42628]); (42631, [42630]); (42633, [42632]);
  (42635, [42634]); (42637, [42636]); (42639, [42638]); (42641, [42640]);
  (42643, [42642]); (42645, [42644]); (42647, [42646]); (42649, [42648]);
  (42651, [42650]); (42787, [42786]); (42789, [42788]); (42791, [42790]);
  (42793, [42792]); (42795, [42794]); (42797, [42796]); (42799, [42798]);
  (42803, [42802]); (42805, [42804]); (42807, [42806]); (42809, [42808]);
  (42811, [42810]); (42813, [42812]); (42815, [42814]); (42817, [42816]);
  (42819, [42818]); (42821, [42820]); (42823, [42822]); (42825, [42824]);
  (42827, [42826]); (42829, [42828]); (42831, [42830]); (42833, [42832]);
  (42835, [42834]); (42837, [42836]); (42839, [42838]); (42841, [42840]);
  (42843, [42842]); (42845, [42844]); (42847, [42846]); (42849, [42848]);
  (42851, [42850]); (42853, [42852]); (42855, [42854]); (42857, [42856]);
  (42859, [42858]); (42861, [42860]); (42863, [42862]); (42874, [42873]);
  (42876, [42875]); (42879, [42878]); (42881, [42880]); (42883, [42882]);
  (42885, [42884]); (42887, [42886]); (42892, [42891]); (42897, [42896]);
  (42899, [42898]); (42900, [42948]); (42903, [42902]); (42905, [42904]);
  (42907, [42906]); (42909, [42908]); (42911, [42910]); (42913, [42912]);
  (42915, [42914]); (42917, [42916]); (42919, [42918]); (42921, [42920]);
  (42933, [42932]); (42935, [42934]); (42937, [42936]); (42939, [42938]);
  (42941, [42940]); (42943, [42942]); (42945, [42944]); (42947, [42946]);
  (42952, [42951]); (42954, [42953]); (42961, [42960]); (42967, [42966]);
  (42969, [42968]); (42998, [42997]); (43859, [42931]); (43888, [5024]);
  (43889, [5025]); (43890, [5026]); (43891, [5027]); (43892, [5028]);
  (43893, [5029]); (43894, [5030]); (43895, [5031]); (43896, [5032]);
  (43897, [5033]); (43898, [5034]); (43899, [5035]); (43900, [5036]);
  (43901, [5037]); (43902, [5038]); (43903, [5039]); (43904, [5040]);
  (43905, [5041]); (43906, [5042]); (43907, [5043]); (43908, [5044]);
  (43909, [5045]); (43910, [5046]); (43911, [5047]); (43912, [5048]);
  (43913, [5049]); (43914, [5050]); (43915, [5051]); (43916, [5052]);
  (43917, [5053]); (43918, [5054]); (43919, [5055]); (43920, [5056]);
  (43921, [5057]); (43922, [5058]); (43923, [5059]); (43924, [5060]);
  (43925, [5061]); (43926, [5062]); (43927, [5063]); (43928, [5064]);
  (43929, [5065]); (43930, [5066]); (43931, [5067]); (43932, [5068]);
  (43933, [5069]); (43934, [5070]); (43935, [5071]); (43936, [5072]);
  (43937, [5073]); (43938, [5074]); (43939, [5075]); (43940, [5076]);
  (43941, [5077]); (43942, [5078]); (43943, [5079]); (43944, [5080]);
  (43945, [5081]); (43946, [5082]); (43947, [5083]); (43948, [5084]);
  (43949, [5085]); (43950, [5086]); (43951, [5087]); (43952, [5088]);
  (43953, [5089]); (43954, [5090]); (43955, [5091]); (43956, [5092]);
  (43957, [5093]); (43958, [5094]); (43959, [5095]); (43960, [5096]);
  (43961, [5097]); (43962, [5098]); (43963, [5099]); (43964, [5100]);
  (43965, [5101]); (43966, [5102]); (43967, [5103]); (64256, [70; 70]);
  (64257, [70; 73]); (64258, [70; 76]); (64259, [70; 70; 73]); (64260, [70; 70; 76]);
  (64261, [83; 84]); (64262, [83; 84]); (64275, [1348; 1350]); (64276, [1348; 1333]);
  (64277, [1348; 1339]); (64278, [1358; 1350]); (64279, [1348; 1341]); (65345, [65313]);
  (65346, [65314]); (65347, [65315]); (65348, [65316]); (65349, [65317]);
  (65350, [65318]); (65351, [65319]); (65352, [65320]); (65353, [65321]);
  (65354, [65322]); (65355, [65323]); (65356, [65324]); (65357, [65325]);
  (65358, [65326]); (65359, [65327]); (65360, [65328]); (65361, [65329]);
  (65362, [65330]); (65363, [65331]); (65364, [65332]); (65365, [65333]);
  (65366, [65334]); (65367, [65335]); (65368, [65336]); (65369, [65337]);
  (65370, [65338]); (66600, [66560]); (66601, [66561]); (66602, [66562]);
  (66603, [66563]); (66604, [66564]); (66605, [66565]); (66606, [66566]);
  (66607, [66567]); (66608, [66568]); (66609, [66569]); (66610, [66570]);
  (66611, [66571]); (66612, [66572]); (66613, [66573]); (66614, [66574]);
  (66615, [66575]); (66616, [66576]); (66617, [66577]); (66618, [66578]);
  (66619, [66579]); (66620, [66580]); (66621, [66581]); (66622, [66582]);
  (66623, [66583]); (66624, [66584]); (66625, [66585]); (66626, [66586]);
  (66627, [66587]); (66628, [66588]); (66629, [66589]); (66630, [66590]);
  (66631, [66591]); (66632, [66592]); (66633, [66593]); (66634, [66594]);
  (66635, [66595]); (66636, [66596]); (66637, [66597]); (66638, [66598]);
  (66639, [66599]); (66776, [66736]); (66777, [66737]); (66778, [66738]);
  (66779, [66739]); (66780, [66740]); (66781, [66741]); (66782, [66742]);
  (66783, [66743]); (66784, [66744]); (66785, [66745]); (66786, [66746]);
  (66787, [66747]); (66788, [66748]); (66789, [66749]); (66790, [66750]);
  (66791, [66751]); (66792, [66752]); (66793, [66753]); (66794, [66754]);
  (66795, [66755]); (66796, [66756]); (66797, [66757]); (66798, [66758]);
  (66799, [66759]); (66800, [66760]); (66801, [66761]); (66802, [66762]);
  (66803, [66763]); (66804, [66764]); (66805, [66765]); (66806, [66766]);
  (66807, [66767]); (66808, [66768]); (66809, [66769]); (66810, [66770]);
  (66811, [66771]); (66967, [66928]); (66968, [66929]); (66969, [66930]);
  (66970, [66931]); (66971, [66932]); (66972, [66933]); (66973, [66934]);
  (66974, [66935]); (66975, [66936]); (66976, [66937]); (66977, [66938]);
  (66979, [66940]); (66980, [66941]); (66981, [66942]); (66982, [66943]);
  (66983, [66944]); (66984, [66945]); (66985, [66946]); (66986, [66947]);
  (66987, [66948]); (66988, [66949]); (66989, [66950]); (66990, [66951]);
  (66991, [66952]); (66992, [66953]); (66993, [66954]); (66995, [66956]);
  (66996, [66957]); (66997, [66958]); (66998, [66959]); (66999, [66960]);
  (67000, [66961]); (67001, [66962]); (67003, [66964]); (67004, [66965]);
  (68800, [68736]); (68801, [68737]); (68802, [68738]); (68803, [68739]);
  (68804, [68740]); (68805, [68741]); (68806, [68742]); (68807, [68743]);
  (68808, [68744]); (68809, [68745]); (68810, [68746]); (68811, [68747]);
  (68812, [68748]); (68813, [68749]); (68814, [68750]); (68815, [68751]);
  (68816, [68752]); (68817, [68753]); (68818, [68754]); (68819, [68755]);
  (68820, [68756]); (68821, [68757]); (68822, [68758]); (68823, [68759]);
  (68824, [68760]); (68825, [68761]); (68826, [68762]); (68827, [68763]);
  (68828, [68764]); (68829, [68765]); (68830, [68766]); (68831, [68767]);
  (68832, [68768]); (68833, [68769]); (68834, [68770]); (68835, [68771]);
  (68836, [68772]); (68837, [68773]); (68838, [68774]); (68839, [68775]);
  (68840, [68776]); (68841, [68777]); (68842, [68778]); (68843, [68779]);
  (68844, [68780]); (68845, [68781]); (68846, [68782]); (68847, [68783]);
  (68848, [68784]); (68849, [68785]); (68850, [68786]); (71872, [71840]);
  (71873, [71841]); (71874, [71842]); (71875, [71843]); (71876, [71844]);
  (71877, [71845]); (71878, [71846]); (71879, [71847]); (71880, [71848]);
  (71881, [71849]); (71882, [71850]); (71883, [71851]); (71884, [71852]);
  (71885, [71853]); (71886, [71854]); (71887, [71855]); (71888, [71856]);
  (71889, [71857]); (71890, [71858]); (71891, [71859]); (71892, [71860]);
  (71893, [71861]); (71894, [71862]); (71895, [71863]); (71896, [71864]);
  (71897, [71865]); (71898, [71866]); (71899, [71867]); (71900, [71868]);
  (71901, [71869]); (71902, [71870]); (71903, [71871]); (93792, [93760]);
  (93793, [93761]); (93794, [93762]); (93795, [93763]); (93796, [93764]);
  (93797, [93765]); (93798, [93766]); (93799, [93767]); (93800, [93768]);
  (93801, [93769]); (93802, [93770]); (93803, [93771]); (93804, [93772]);
  (93805, [93773]); (93806, [93774]); (93807, [93775]); (93808, [93776]);
  (93809, [93777]); (93810, [93778]); (93811, [93779]); (93812, [93780]);
  (93813, [93781]); (93814, [93782]); (93815, [93783]); (93816, [93784]);
  (93817, [93785]); (93818, [93786]); (93819, [93787]); (93820, [93788]);
  (93821, [93789]); (93822, [93790]); (93823, [93791]); (125218, [125184]);
  (125219, [125185]); (125220, [125186]); (125221, [125187]); (125222, [125188]);
  (125223, [125189]); (125224, [125190]); (125225, [125191]); (125226, [125192]);
  (125227, [125193]); (125228, [125194]); (125229, [125195]); (125230, [125196]);
  (125231, [125197]); (125232, [125198]); (125233, [125199]); (125234, [125200]);
  (125235, [125201]); (125236, [125202]); (125237, [125203]); (125238, [125204]);
  (125239, [125205]); (125240, [125206]); (125241, [125207]); (125242, [125208]);
  (125243, [125209]); (125244, [125210]); (125245, [125211]); (125246, [125212]);
  (125247, [125213]); (125248, [125214]); (125249, [125215]); (125250, [125216]);
  (125251, [125217])
 ]%N.

(** The characters [str.lower] changes, each with its full lowercase
    mapping; capital sigma, whose mapping depends on its place in the
    word, is not listed. *)
Definition LOWER : list (N * list N) :=
 [
  (65, [97]); (66, [98]); (67, [99]); (68, [100]);
  (69, [101]); (70, [102]); (71, [103]); (72, [104]);
  (73, [105]); (74, [106]); (75, [107]); (76, [108]);
  (77, [109]); (78, [110]); (79, [111]); (80, [112]);
  (81, [113]); (82, [114]); (83, [115]); (84, [116]);
  (85, [117]); (86, [118]); (87, [119]); (88, [120]);
  (89, [121]); (90, [122]); (192, [224]); (193, [225]);
  (194, [226]); (195, [227]); (196, [228]); (197, [229]);
  (198, [230]); (199, [231]); (200, [232]); (201, [233]);
  (202, [234]); (203, [235]); (204, [236]); (205, [237]);
  (206, [238]); (207, [239]); (208, [240]); (209, [241]);
  (210, [242]); (211, [243]); (212, [244]); (213, [245]);
  (214, [246]); (216, [248]); (217, [249]); (218, [250]);
  (219, [251]); (220, [252]); (221, [253]); (222, [254]);
  (256, [257]); (258, [259]); (260, [261]); (262, [263]);
  (264, [265]); (266, [267]); (268, [269]); (270, [271]);
  (272, [273]); (274, [275]); (276, [277]); (278, [279]);
  (280, [281]); (282, [283]); (284, [285]); (286, [287]);
  (288, [289]); (290, [291]); (292, [293]); (294, [295]);
  (296, [297]); (298, [299]); (300, [301]); (302, [303]);
  (304, [105; 775]); (306, [307]); (308, [309]); (310, [311]);
  (313, [314]); (315, [316]); (317, [318]); (319, [320]);
  (321, [322]); (323, [324]); (325, [326]); (327, [328]);
  (330, [331]); (332, [333]); (334, [335]); (336, [337]);
  (338, [339]); (340, [341]); (342, [343]); (344, [345]);
  (346, [347]); (348, [349]); (350, [351]); (352, [353]);
  (354, [355]); (356, [357]); (358, [359]); (360, [361]);
  (362, [363]); (364, [365]); (366, [367]); (368, [369]);
  (370, [371]); (372, [373]); (374, [375]); (376, [255]);
  (377, [378]); (379, [380]); (381, [382]); (385, [595]);
  (386, [387]); (388, [389]); (390, [596]); (391, [392]);
  (393, [598]); (394, [599]); (395, [396]); (398, [477]);
  (399, [601]); (400, [603]); (401, [402]); (403, [608]);
  (404, [611]); (406, [617]); (407, [616]); (408, [409]);
  (412, [623]); (413, [626]); (415, [629]); (416, [417]);
  (418, [419]); (420, [421]); (422, [640]); (423, [424]);
  (425, [643]); (428, [429]); (430, [648]); (431, [432]);
  (433, [650]); (434, [651]); (435, [436]); (437, [438]);
  (439, [658]); (440, [441]); (444, [445]); (452, [454]);
  (453, [454]); (455, [457]); (456, [457]); (458, [460]);
  (459, [460]); (461, [462]); (463, [464]); (465, [466]);
  (467, [468]); (469, [470]); (471, [472]); (473, [474]);
  (475, [476]); (478, [479]); (480, [481]); (482, [483]);
  (484, [485]); (486, [487]); (488, [489]); (490, [491]);
  (492, [493]); (494, [495]); (497, [499]); (498, [499]);
  (500, [501]); (502, [405]); (503, [447]); (504, [505]);
  (506, [507]); (508, [509]); (510, [511]); (512, [513]);
  (514, [515]); (516, [517]); (518, [519]); (520, [521]);
  (522, [523]); (524, [525]); (526, [527]); (528, [529]);
  (530, [531]); (532, [533]); (534, [535]); (536, [537]);
  (538, [539]); (540, [541]); (542, [543]); (544, [414]);
  (546, [547]); (548, [549]); (550, [551]); (552, [553]);
  (554, [555]); (556, [557]); (558, [559]); (560, [561]);
  (562, [563]); (570, [11365]); (571, [572]); (573, [410]);
  (574, [11366]); (577, [578]); (579, [384]); (580, [649]);
  (581, [652]); (582, [583]); (584, [585]); (586, [587]);
  (588, [589]); (590, [591]); (880, [881]); (882, [883]);
  (886, [887]); (895, [1011]); (902, [940]); (904, [941]);
  (905, [942]); (906, [943]); (908, [972]); (910, [973]);
  (911, [974]); (913, [945]); (914, [946]); (915, [947]);
  (916, [948]); (917, [949]); (918, [950]); (919, [951]);
  (920, [952]); (921, [953]); (922, [954]); (923, [955]);
  (924, [956]); (925, [957]); (926, [958]); (927, [959]);
  (928, [960]); (929, [961]); (932, [964]); (933, [965]);
  (934, [966]); (935, [967]); (936, [968]); (937, [969]);
  (938, [970]); (939, [971]); (975, [983]); (984, [985]);
  (986, [987]); (988, [989]); (990, [991]); (992, [993]);
  (994, [995]); (996, [997]); (998, [999]); (1000, [1001]);
  (1002, [1003]); (1004, [1005]); (1006, [1007]); (1012, [952]);
  (1015, [1016]); (1017, [1010]); (1018, [1019]); (1021, [891]);
  (1022, [892]); (1023, [893]); (1024, [1104]); (1025, [1105]);
  (1026, [1106]); (1027, [1107]); (1028, [1108]); (1029, [1109]);
  (1030, [1110]); (1031, [1111]); (1032, [1112]); (1033, [1113]);
  (1034, [1114]); (1035, [1115]); (1036, [1116]); (1037, [1117]);
  (1038, [1118]); (1039, [1119]); (1040, [1072]); (1041, [1073]);
  (1042, [1074]); (1043, [1075]); (1044, [1076]); (1045, [1077]);
  (1046, [1078]); (1047, [1079]); (1048, [1080]); (1049, [1081]);
  (1050, [1082]); (1051, [1083]); (1052, [1084]); (1053, [1085]);
  (1054, [1086]); (1055, [1087]); (1056, [1088]); (1057, [1089]);
  (1058, [1090]); (1059, [1091]); (1060, [1092]); (1061, [1093]);
  (1062, [1094]); (1063, [1095]); (1064, [1096]); (1065, [1097]);
  (1066, [1098]); (1067, [1099]); (1068, [1100]); (1069, [1101]);
  (1070, [1102]); (1071, [1103]); (1120, [1121]); (1122, [1123]);
  (1124, [1125]); (1126, [1127]); (1128, [1129]); (1130, [1131]);
  (1132, [1133]); (1134, [1135]); (1136, [1137]); (1138, [1139]);
  (1140, [1141]); (1142, [1143]); (1144, [1145]); (1146, [1147]);
  (1148, [1149]); (1150, [1151]); (1152, [1153]); (1162, [1163]);
  (1164, [1165]); (1166, [1167]); (1168, [1169]); (1170, [1171]);
  (1172, [1173]); (1174, [1175]); (1176, [1177]); (1178, [1179]);
  (1180, [1181]); (1182, [1183]); (1184, [1185]); (1186, [1187]);
  (1188, [1189]); (1190, [1191]); (1192, [1193]); (1194, [1195]);
  (1196, [1197]); (1198, [1199]); (1200, [1201]); (1202, [1203]);
  (1204, [1205]); (1206, [1207]); (1208, [1209]); (1210, [1211]);
  (1212, [1213]); (1214, [1215]); (1216, [1231]); (1217, [1218]);
  (1219, [1220]); (1221, [1222]); (1223, [1224]); (1225, [1226]);
  (1227, [1228]); (1229, [1230]); (1232, [1233]); (1234, [1235]);
  (1236, [1237]); (1238, [1239]); (1240, [1241]); (1242, [1243]);
  (1244, [1245]); (1246, [1247]); (1248, [1249]); (1250, [1251]);
  (1252, [1253]); (1254, [1255]); (1256, [1257]); (1258, [1259]);
  (1260, [1261]); (1262, [1263]); (1264, [1265]); (1266, [1267]);
  (1268, [1269]); (1270, [1271]); (1272, [1273]); (1274, [1275]);
  (1276, [1277]); (1278, [1279]); (1280, [1281]); (1282, [1283]);
  (1284, [1285]); (1286, [1287]); (1288, [1289]); (1290, [1291]);
  (1292, [1293]); (1294, [1295]); (1296, [1297]); (1298, [1299]);
  (1300, [1301]); (1302, [1303]); (1304, [1305]); (1306, [1307]);
  (1308, [1309]); (1310, [1311]); (1312, [1313]); (1314, [1315]);
  (1316, [1317]); (1318, [1319]); (1320, [1321]); (1322, [1323]);
  (1324, [1325]); (1326, [1327]); (1329, [1377]); (1330, [1378]);
  (1331, [1379]); (1332, [1380]); (1333, [1381]); (1334, [1382]);
  (1335, [1383]); (1336, [1384]); (1337, [1385]); (1338, [1386]);
  (1339, [1387]); (1340, [1388]); (1341, [1389]); (1342, [1390]);
  (1343, [1391]); (1344, [1392]); (1345, [1393]); (1346, [1394]);
  (1347, [1395]); (1348, [1396]); (1349, [1397]); (1350, [1398]);
  (1351, [1399]); (1352, [1400]); (1353, [1401]); (1354, [1402]);
  (1355, [1403]); (1356, [1404]); (1357, [1405]); (1358, [1406]);
  (1359, [1407]); (1360, [1408]); (1361, [1409]); (1362, [1410]);
  (1363, [1411]); (1364, [1412]); (1365, [1413]); (1366, [1414]);
  (4256, [11520]); (4257, [11521]); (4258, [11522]); (4259, [11523]);
  (4260, [11524]); (4261, [11525]); (4262, [11526]); (4263, [11527]);
  (4264, [11528]); (4265, [11529]); (4266, [11530]); (4267, [11531]);
  (4268, [11532]); (4269, [11533]); (4270, [11534]); (4271, [11535]);
  (4272, [11536]); (4273, [11537]); (4274, [11538]); (4275, [11539]);
  (4276, [11540]); (4277, [11541]); (4278, [11542]); (4279, [11543]);
  (4280, [11544]); (4281, [11545]); (4282, [11546]); (4283, [11547]);
  (4284, [11548]); (4285, [11549]); (4286, [11550]); (4287, [11551]);
  (4288, [11552]); (4289, [11553]); (4290, [11554]); (4291, [11555]);
  (4292, [11556]); (4293, [11557]); (4295, [11559]); (4301, [11565]);
  (5024, [43888]); (5025, [43889]); (5026, [43890]); (5027, [43891]);
  (5028, [43892]); (5029, [43893]); (5030, [43894]); (5031, [43895]);
  (5032, [43896]); (5033, [43897]); (5034, [43898]); (5035, [43899]);
  (5036, [43900]); (5037, [43901]); (5038, [43902]); (5039, [43903]);
  (5040, [43904]); (5041, [43905]); (5042, [43906]); (5043, [43907]);
  (5044, [43908]); (5045, [43909]); (5046, [43910]); (5047, [43911]);
  (5048, [43912]); (5049, [43913]); (5050, [43914]); (5051, [43915]);
  (5052, [43916]); (5053, [43917]); (5054, [43918]); (5055, [43919]);
  (5056, [43920]); (5057, [43921]); (5058, [43922]); (5059, [43923]);
  (5060, [43924]); (5061, [43925]); (5062, [43926]); (5063, [43927]);
  (5064, [43928]); (5065, [43929]); (5066, [43930]); (5067, [43931]);
  (5068, [43932]); (5069, [43933]); (5070, [43934]); (5071, [43935]);
  (5072, [43936]); (5073, [43937]); (5074, [43938]); (5075, [43939]);
  (5076, [43940]); (5077, [43941]); (5078, [43942]); (5079, [43943]);
  (5080, [43944]); (5081, [43945]); (5082, [43946]); (5083, [43947]);
  (5084, [43948]); (5085, [43949]); (5086, [43950]); (5087, [43951]);
  (5088, [43952]); (5089, [43953]); (5090, [43954]); (5091, [43955]);
  (5092, [43956]); (5093, [43957]); (5094, [43958]); (5095, [43959]);
  (5096, [43960]); (5097, [43961]); (5098, [43962]); (5099, [43963]);
  (5100, [43964]); (5101, [43965]); (5102, [43966]); (5103, [43967]);
  (5104, [5112]); (5105, [5113]); (5106, [5114]); (5107, [5115]);
  (5108, [5116]); (5109, [5117]); (7312, [4304]); (7313, [4305]);
  (7314, [4306]); (7315, [4307]); (7316, [4308]); (7317, [4309]);
  (7318, [4310]); (7319, [4311]); (7320, [4312]); (7321, [4313]);
  (7322, [4314]); (7323, [4315]); (7324, [4316]); (7325, [4317]);
  (7326, [4318]); (7327, [4319]); (7328, [4320]); (7329, [4321]);
  (7330, [4322]); (7331, [4323]); (7332, [4324]); (7333, [4325]);
  (7334, [4326]); (7335, [4327]); (7336, [4328]); (7337, [4329]);
  (7338, [4330]); (7339, [4331]); (7340, [4332]); (7341, [4333]);
  (7342, [4334]); (7343, [4335]); (7344, [4336]); (7345, [4337]);
  (7346, [4338]); (7347, [4339]); (7348, [4340]); (7349, [4341]);
  (7350, [4342]); (7351, [4343]); (7352, [4344]); (7353, [4345]);
  (7354, [4346]); (7357, [4349]); (7358, [4350]); (7359, [4351]);
  (7680, [7681]); (7682, [7683]); (7684, [7685]); (7686, [7687]);
  (7688, [7689]); (7690, [7691]); (7692, [7693]); (7694, [7695]);
  (7696, [7697]); (7698, [7699]); (7700, [7701]); (7702, [7703]);
  (7704, [7705]); (7706, [7707]); (7708, [7709]); (7710, [7711]);
  (7712, [7713]); (7714, [7715]); (7716, [7717]); (7718, [7719]);
  (7720, [7721]); (7722, [7723]); (7724, [7725]); (7726, [7727]);
  (7728, [7729]); (7730, [7731]); (7732, [7733]); (7734, [7735]);
  (7736, [7737]); (7738, [7739]); (7740, [7741]); (7742, [7743]);
  (7744, [7745]); (7746, [7747]); (7748, [7749]); (7750, [7751]);
  (7752, [7753]); (7754, [7755]); (7756, [7757]); (7758, [7759]);
  (7760, [7761]); (7762, [7763]); (7764, [7765]); (7766, [7767]);
  (7768, [7769]); (7770, [7771]); (7772, [7773]); (7774, [7775]);
  (7776, [7777]); (7778, [7779]); (7780, [7781]); (7782, [7783]);
  (7784, [7785]); (7786, [7787]); (7788, [7789]); (7790, [7791]);
  (7792, [7793]); (7794, [7795]); (7796, [7797]); (7798, [7799]);
  (7800, [7801]); (7802, [7803]); (7804, [7805]); (7806, [7807]);
  (7808, [7809]); (7810, [7811]); (7812, [7813]); (7814, [7815]);
  (7816, [7817]); (7818, [7819]); (7820, [7821]); (7822, [7823]);
  (7824, [7825]); (7826, [7827]); (7828, [7829]); (7838, [223]);
  (7840, [7841]); (7842, [7843]); (7844, [7845]); (7846, [7847]);
  (7848, [7849]); (7850, [7851]); (7852, [7853]); (7854, [7855]);
  (7856, [7857]); (7858, [7859]); (7860, [7861]); (7862, [7863]);
  (7864, [7865]); (7866, [7867]); (7868, [7869]); (7870, [7871]);
  (7872, [7873]); (7874, [7875]); (7876, [7877]); (7878, [7879]);
  (7880, [7881]); (7882, [7883]); (7884, [7885]); (7886, [7887]);
  (7888, [7889]); (7890, [7891]); (7892, [7893]); (7894, [7895]);
  (7896, [7897]); (7898, [7899]); (7900, [7901]); (7902, [7903]);
  (7904, [7905]); (7906, [7907]); (7908, [7909]); (7910, [7911]);
  (7912, [7913]); (7914, [7915]); (7916, [7917]); (7918, [7919]);
  (7920, [7921]); (7922, [7923]); (7924, [7925]); (7926, [7927]);
  (7928, [7929]); (7930, [7931]); (7932, [7933]); (7934, [7935]);
  (7944, [7936]); (7945, [7937]); (7946, [7938]); (7947, [7939]);
  (7948, [7940]); (7949, [7941]); (7950, [7942]); (7951, [7943]);
  (7960, [7952]); (7961, [7953]); (7962, [7954]); (7963, [7955]);
  (7964, [7956]); (7965, [7957]); (7976, [7968]); (7977, [7969]);
  (7978, [7970]); (7979, [7971]); (7980, [7972]); (7981, [7973]);
  (7982, [7974]); (7983, [7975]); (7992, [7984]); (7993, [7985]);
  (7994, [7986]); (7995, [7987]); (7996, [7988]); (7997, [7989]);
  (7998, [7990]); (7999, [7991]); (8008, [8000]); (8009, [8001]);
  (8010, [8002]); (8011, [8003]); (8012, [8004]); (8013, [8005]);
  (8025, [8017]); (8027, [8019]); (8029, [8021]); (8031, [8023]);
  (8040, [8032]); (8041, [8033]); (8042, [8034]); (8043, [8035]);
  (8044, [8036]); (8045, [8037]); (8046, [8038]); (8047, [8039]);
  (8072, [8064]); (8073, [8065]); (8074, [8066]); (8075, [8067]);
  (8076, [8068]); (8077, [8069]); (8078, [8070]); (8079, [8071]);
  (8088, [8080]); (8089, [8081]); (8090, [8082]); (8091, [8083]);
  (8092, [8084]); (8093, [8085]); (8094, [8086]); (8095, [8087]);
  (8104, [8096]); (8105, [8097]); (8106, [8098]); (8107, [8099]);
  (8108, [8100]); (8109, [8101]); (8110, [8102]); (8111, [8103]);
  (8120, [8112]); (8121, [8113]); (8122, [8048]); (8123, [8049]);
  (8124, [8115]); (8136, [8050]); (8137, [8051]); (8138, [8052]);
  (8139, [8053]); (8140, [8131]); (8152, [8144]); (8153, [8145]);
  (8154, [8054]); (8155, [8055]); (8168, [8160]); (8169, [8161]);
  (8170, [8058]); (8171, [8059]); (8172, [8165]); (8184, [8056]);
  (8185, [8057]); (8186, [8060]); (8187, [8061]); (8188, [8179]);
  (8486, [969]); (8490, [107]); (8491, [229]); (8498, [8526]);
  (8544, [8560]); (8545, [8561]); (8546, [8562]); (8547, [8563]);
  (8548, [8564]); (8549, [8565]); (8550, [8566]); (8551, [8567]);
  (8552, [8568]); (8553, [8569]); (8554, [8570]); (8555, [8571]);
  (8556, [8572]); (8557, [8573]); (8558, [8574]); (8559, [8575]);
  (8579, [8580]); (9398, [9424]); (9399, [9425]); (9400, [9426]);
  (9401, [9427]); (9402, [9428]); (9403, [9429]); (9404, [9430]);
  (9405, [9431]); (9406, [9432]); (9407, [9433]); (9408, [9434]);
  (9409, [9435]); (9410, [9436]); (9411, [9437]); (9412, [9438]);
  (9413, [9439]); (9414, [9440]); (9415, [9441]); (9416, [9442]);
  (9417, [9443]); (9418, [9444]); (9419, [9445]); (9420, [9446]);
  (9421, [9447]); (9422, [9448]); (9423, [9449]); (11264, [11312]);
  (11265, [11313]); (11266, [11314]); (11267, [11315]); (11268, [11316]);
  (11269, [11317]); (11270, [11318]); (11271, [11319]); (11272, [11320]);
  (11273, [11321]); (11274, [11322]); (11275, [11323]); (11276, [11324]);
  (11277, [11325]); (11278, [11326]); (11279, [11327]); (11280, [11328]);
  (11281, [11329]); (11282, [11330]); (11283, [11331]); (11284, [11332]);
  (11285, [11333]); (11286, [11334]); (11287, [11335]); (11288, [11336]);
  (11289, [11337]); (11290, [11338]); (11291, [11339]); (11292, [11340]);
  (11293, [11341]); (11294, [11342]); (11295, [11343]); (11296, [11344]);
  (11297, [11345]); (11298, [11346]); (11299, [11347]); (11300, [11348]);
  (11301, [11349]); (11302, [11350]); (11303, [11351]); (11304, [11352]);
  (11305, [11353]); (11306, [11354]); (11307, [11355]); (11308, [11356]);
  (11309, [11357]); (11310, [11358]); (11311, [11359]); (11360, [11361]);
  (11362, [619]); (11363, [7549]); (11364, [637]); (11367, [11368]);
  (11369, [11370]); (11371, [11372]); (11373, [593]); (11374, [625]);
  (11375, [592]); (11376, [594]); (11378, [11379]); (11381, [11382]);
  (11390, [575]); (11391, [576]); (11392, [11393]); (11394, [11395]);
  (11396, [11397]); (11398, [11399]); (11400, [11401]); (11402, [11403]);
  (11404, [11405]); (11406, [11407]); (11408, [11409]); (11410, [11411]);
  (11412, [11413]); (11414, [11415]); (11416, [11417]); (11418, [11419]);
  (11420, [11421]); (11422, [11423]); (11424, [11425]); (11426, [11427]);
  (11428, [11429]); (11430, [11431]); (11432, [11433]); (11434, [11435]);
  (11436, [11437]); (11438, [11439]); (11440, [11441]); (11442, [11443]);
  (11444, [11445]); (11446, [11447]); (11448, [11449]); (11450, [11451]);
  (11452, [11453]); (11454, [11455]); (11456, [11457]); (11458, [11459]);
  (11460, [11461]); (11462, [11463]); (11464, [11465]); (11466, [11467]);
  (11468, [11469]); (11470, [11471]); (11472, [11473]); (11474, [11475]);
  (11476, [11477]); (11478, [11479]); (11480, [11481]); (11482, [11483]);
  (11484, [11485]); (11486, [11487]); (11488, [11489]); (11490, [11491]);
  (11499, [11500]); (11501, [11502]); (11506, [11507]); (42560, [42561]);
  (42562, [42563]); (42564, [42565]); (42566, [42567]); (42568, [42569]);
  (42570, [42571]); (42572, [42573]); (42574, [42575]); (42576, [42577]);
  (42578, [42579]); (42580, [42581]); (42582, [42583]); (42584, [42585]);
  (42586, [42587]); (42588, [42589]); (42590, [42591]); (42592, [42593]);
  (42594, [42595]); (42596, [42597]); (42598, [42599]); (42600, [42601]);
  (42602, [42603]); (42604, [42605]); (42624, [42625]); (42626, [42627]);
  (42628, [42629]); (42630, [42631]); (42632, [42633]); (42634, [42635]);
  (42636, [42637]); (42638, [42639]); (42640, [42641]); (42642, [42643]);
  (42644, [42645]); (42646, [42647]); (42648, [42649]); (42650, [42651]);
  (42786, [42787]); (42788, [42789]); (42790, [42791]); (42792, [42793]);
  (42794, [42795]); (42796, [42797]); (42798, [42799]); (42802, [42803]);
  (42804, [42805]); (42806, [42807]); (42808, [42809]); (42810, [42811]);
  (42812, [42813]); (42814, [42815]); (42816, [42817]); (42818, [42819]);
  (42820, [42821]); (42822, [42823]); (42824, [42825]); (42826, [42827]);
  (42828, [42829]); (42830, [42831]); (42832, [42833]); (42834, [42835]);
  (42836, [42837]); (42838, [42839]); (42840, [42841]); (42842, [42843]);
  (42844, [42845]); (42846, [42847]); (42848, [42849]); (42850, [42851]);
  (42852, [42853]); (42854, [42855]); (42856, [42857]); (42858, [42859]);
  (42860, [42861]); (42862, [42863]); (42873, [42874]); (42875, [42876]);
  (42877, [7545]); (42878, [42879]); (42880, [42881]); (42882, [42883]);
  (42884, [42885]); (42886, [42887]); (42891, [42892]); (42893, [613]);
  (42896, [42897]); (42898, [42899]); (42902, [42903]); (42904, [42905]);
  (42906, [42907]); (42908, [42909]); (42910, [42911]); (42912, [42913]);
  (42914, [42915]); (42916, [42917]); (42918, [42919]); (42920, [42921]);
  (42922, [614]); (42923, [604]); (42924, [609]); (42925, [620]);
  (42926, [618]); (42928, [670]); (42929, [647]); (42930, [669]);
  (42931, [43859]); (42932, [42933]); (42934, [42935]); (42936, [42937]);
  (42938, [42939]); (42940, [42941]); (42942, [42943]); (42944, [42945]);
  (42946, [42947]); (42948, [42900]); (42949, [642]); (42950, [7566]);
  (42951, [42952]); (42953, [42954]); (42960, [42961]); (42966, [42967]);
  (42968, [42969]); (42997, [42998]); (65313, [65345]); (65314, [65346]);
  (65315, [65347]); (65316, [65348]); (65317, [65349]); (65318, [65350]);
  (65319, [65351]); (65320, [65352]); (65321, [65353]); (65322, [65354]);
  (65323, [65355]); (65324, [65356]); (65325, [65357]); (65326, [65358]);
  (65327, [65359]); (65328, [65360]); (65329, [65361]); (65330, [65362]);
  (65331, [65363]); (65332, [65364]); (65333, [65365]); (65334, [65366]);
  (65335, [65367]); (65336, [65368]); (65337, [65369]); (65338, [65370]);
  (66560, [66600]); (66561, [66601]); (66562, [66602]); (66563, [66603]);
  (66564, [66604]); (66565, [66605]); (66566, [66606]); (66567, [66607]);
  (66568, [66608]); (66569, [66609]); (66570, [66610]); (66571, [66611]);
  (66572, [66612]); (66573, [66613]); (66574, [66614]); (66575, [66615]);
  (66576, [66616]); (66577, [66617]); (66578, [66618]); (66579, [66619]);
  (66580, [66620]); (66581, [66621]); (66582, [66622]); (66583, [66623]);
  (66584, [66624]); (66585, [66625]); (66586, [66626]); (66587, [66627]);
  (66588, [66628]); (66589, [66629]); (66590, [66630]); (66591, [66631]);
  (66592, [66632]); (66593, [66633]); (66594, [66634]); (66595, [66635]);
  (66596, [66636]); (66597, [66637]); (66598, [66638]); (66599, [66639]);
  (66736, [66776]); (66737, [66777]); (66738, [66778]); (66739, [66779]);
  (66740, [66780]); (66741, [66781]); (66742, [66782]); (66743, [66783]);
  (66744, [66784]); (66745, [66785]); (66746, [66786]); (66747, [66787]);
  (66748, [66788]); (66749, [66789]); (66750, [66790]); (66751, [66791]);
  (66752, [66792]); (66753, [66793]); (66754, [66794]); (66755, [66795]);
  (66756, [66796]); (66757, [66797]); (66758, [66798]); (66759, [66799]);
  (66760, [66800]); (66761, [66801]); (66762, [66802]); (66763, [66803]);
  (66764, [66804]); (66765, [66805]); (66766, [66806]); (66767, [66807]);
  (66768, [66808]); (66769, [66809]); (66770, [66810]); (66771, [66811]);
  (66928, [66967]); (66929, [66968]); (66930, [66969]); (66931, [66970]);
  (66932, [66971]); (66933, [66972]); (66934, [66973]); (66935, [66974]);
  (66936, [66975]); (66937, [66976]); (66938, [66977]); (66940, [66979]);
  (66941, [66980]); (66942, [66981]); (66943, [66982]); (66944, [66983]);
  (66945, [66984]); (66946, [66985]); (66947, [66986]); (66948, [66987]);
  (66949, [66988]); (66950, [66989]); (66951, [66990]); (66952, [66991]);
  (66953, [66992]); (66954, [66993]); (66956, [66995]); (66957, [66996]);
  (66958, [66997]); (66959, [66998]); (66960, [66999]); (66961, [67000]);
  (66962, [67001]); (66964, [67003]); (66965, [67004]); (68736, [68800]);
  (68737, [68801]); (68738, [68802]); (68739, [68803]); (68740, [68804]);
  (68741, [68805]); (68742, [68806]); (68743, [68807]); (68744, [68808]);
  (68745, [68809]); (68746, [68810]); (68747, [68811]); (68748, [68812]);
  (68749, [68813]); (68750, [68814]); (68751, [68815]); (68752, [68816]);
  (68753, [68817]); (68754, [68818]); (68755, [68819]); (68756, [68820]);
  (68757, [68821]); (68758, [68822]); (68759, [68823]); (68760, [68824]);
  (68761, [68825]); (68762, [68826]); (68763, [68827]); (68764, [68828]);
  (68765, [68829]); (68766, [68830]); (68767, [68831]); (68768, [68832]);
  (68769, [68833]); (68770, [68834]); (68771, [68835]); (68772, [68836]);
  (68773, [68837]); (68774, [68838]); (68775, [68839]); (68776, [68840]);
  (68777, [68841]); (68778, [68842]); (68779, [68843]); (68780, [68844]);
  (68781, [68845]); (68782, [68846]); (68783, [68847]); (68784, [68848]);
  (68785, [68849]); (68786, [68850]); (71840, [71872]); (71841, [71873]);
  (71842, [71874]); (71843, [71875]); (71844, [71876]); (71845, [71877]);
  (71846, [71878]); (71847, [71879]); (71848, [71880]); (71849, [71881]);
  (71850, [71882]); (71851, [71883]); (71852, [71884]); (71853, [71885]);
  (71854, [71886]); (71855, [71887]); (71856, [71888]); (71857, [71889]);
  (71858, [71890]); (71859, [71891]); (71860, [71892]); (71861, [71893]);
  (71862, [71894]); (71863, [71895]); (71864, [71896]); (71865, [71897]);
  (71866, [71898]); (71867, [71899]); (71868, [71900]); (71869, [71901]);
  (71870, [71902]); (71871, [71903]); (93760, [93792]); (93761, [93793]);
  (93762, [93794]); (93763, [93795]); (93764, [93796]); (93765, [93797]);
  (93766, [93798]); (93767, [93799]); (93768, [93800]); (93769, [93801]);
  (93770, [93802]); (93771, [93803]); (93772, [93804]); (93773, [93805]);
  (93774, [93806]); (93775, [93807]); (93776, [93808]); (93777, [93809]);
  (93778, [93810]); (93779, [93811]); (93780, [93812]); (93781, [93813]);
  (93782, [93814]); (93783, [93815]); (93784, [93816]); (93785, [93817]);
  (93786, [93818]); (93787, [93819]); (93788, [93820]); (93789, [93821]);
  (93790, [93822]); (93791, [93823]); (125184, [125218]); (125185, [125219]);
  (125186, [125220]); (125187, [125221]); (125188, [125222]); (125189, [125223]);
  (125190, [125224]); (125191, [125225]); (125192, [125226]); (125193, [125227]);
  (125194, [125228]); (125195, [125229]); (125196, [125230]); (125197, [125231]);
  (125198, [125232]); (125199, [125233]); (125200, [125234]); (125201, [125235]);
  (125202, [125236]); (125203, [125237]); (125204, [125238]); (125205, [125239]);
  (125206, [125240]); (125207, [125241]); (125208, [125242]); (125209, [125243]);
  (125210, [125244]); (125211, [125245]); (125212, [125246]); (125213, [125247]);
  (125214, [125248]); (125215, [125249]); (125216, [125250]); (125217, [125251])
 ]%N.

(** The case-ignorable characters, as ranges with both ends included. *)
Definition CASE_IGNORABLE : list (N * N) :=
 [
  (39, 39); (46, 46); (58, 58); (94, 94); (96, 96); (168, 168);
  (173, 173); (175, 175); (180, 180); (183, 184); (688, 879); (884, 885);
  (890, 890); (900, 901); (903, 903); (1155, 1161); (1369, 1369); (1375, 1375);
  (1425, 1469); (1471, 1471); (1473, 1474); (1476, 1477); (1479, 1479); (1524, 1524);
  (1536, 1541); (1552, 1562); (1564, 1564); (1600, 1600); (1611, 1631); (1648, 1648);
  (1750, 1757); (1759, 1768); (1770, 1773); (1807, 1807); (1809, 1809); (1840, 1866);
  (1958, 1968); (2027, 2037); (2042, 2042); (2045, 2045); (2070, 2093); (2137, 2139);
  (2184, 2184); (2192, 2193); (2200, 2207); (2249, 2306); (2362, 2362); (2364, 2364);
  (2369, 2376); (2381, 2381); (2385, 2391); (2402, 2403); (2417, 2417); (2433, 2433);
  (2492, 2492); (2497, 2500); (2509, 2509); (2530, 2531); (2558, 2558); (2561, 2562);
  (2620, 2620); (2625, 2626); (2631, 2632); (2635, 2637); (2641, 2641); (2672, 2673);
  (2677, 2677); (2689, 2690); (2748, 2748); (2753, 2757); (2759, 2760); (2765, 2765);
  (2786, 2787); (2810, 2815); (2817, 2817); (2876, 2876); (2879, 2879); (2881, 2884);
  (2893, 2893); (2901, 2902); (2914, 2915); (2946, 2946); (3008, 3008); (3021, 3021);
  (3072, 3072); (3076, 3076); (3132, 3132); (3134, 3136); (3142, 3144); (3146, 3149);
  (3157, 3158); (3170, 3171); (3201, 3201); (3260, 3260); (3263, 3263); (3270, 3270);
  (3276, 3277); (3298, 3299); (3328, 3329); (3387, 3388); (3393, 3396); (3405, 3405);
  (3426, 3427); (3457, 3457); (3530, 3530); (3538, 3540); (3542, 3542); (3633, 3633);
  (3636, 3642); (3654, 3662); (3761, 3761); (3764, 3772); (3782, 3782); (3784, 3789);
  (3864, 3865); (3893, 3893); (3895, 3895); (3897, 3897); (3953, 3966); (3968, 3972);
  (3974, 3975); (3981, 3991); (3993, 4028); (4038, 4038); (4141, 4144); (4146, 4151);
  (4153, 4154); (4157, 4158); (4184, 4185); (4190, 4192); (4209, 4212); (4226, 4226);
  (4229, 4230); (4237, 4237); (4253, 4253); (4348, 4348); (4957, 4959); (5906, 5908);
  (5938, 5939); (5970, 5971); (6002, 6003); (6068, 6069); (6071, 6077); (6086, 6086);
  (6089, 6099); (6103, 6103); (6109, 6109); (6155, 6159); (6211, 6211); (6277, 6278);
  (6313, 6313); (6432, 6434); (6439, 6440); (6450, 6450); (6457, 6459); (6679, 6680);
  (6683, 6683); (6742, 6742); (6744, 6750); (6752, 6752); (6754, 6754); (6757, 6764);
  (6771, 6780); (6783, 6783); (6823, 6823); (6832, 6862); (6912, 6915); (6964, 6964);
  (6966, 6970); (6972, 6972); (6978, 6978); (7019, 7027); (7040, 7041); (7074, 7077);
  (7080, 7081); (7083, 7085); (7142, 7142); (7144, 7145); (7149, 7149); (7151, 7153);
  (7212, 7219); (7222, 7223); (7288, 7293); (7376, 7378); (7380, 7392); (7394, 7400);
  (7405, 7405); (7412, 7412); (7416, 7417); (7468, 7530); (7544, 7544); (7579, 7679);
  (8125, 8125); (8127, 8129); (8141, 8143); (8157, 8159); (8173, 8175); (8189, 8190);
  (8203, 8207); (8216, 8217); (8228, 8228); (8231, 8231); (8234, 8238); (8288, 8292);
  (8294, 8303); (8305, 8305); (8319, 8319); (8336, 8348); (8400, 8432); (11388, 11389);
  (11503, 11505); (11631, 11631); (11647, 11647); (11744, 11775); (11823, 11823); (12293, 12293);
  (12330, 12333); (12337, 12341); (12347, 12347); (12441, 12446); (12540, 12542); (40981, 40981);
  (42232, 42237); (42508, 42508); (42607, 42610); (42612, 42621); (42623, 42623); (42652, 42655);
  (42736, 42737); (42752, 42785); (42864, 42864); (42888, 42890); (42994, 42996); (43000, 43001);
  (43010, 43010); (43014, 43014); (43019, 43019); (43045, 43046); (43052, 43052); (43204, 43205);
  (43232, 43249); (43263, 43263); (43302, 43309); (43335, 43345); (43392, 43394); (43443, 43443);
  (43446, 43449); (43452, 43453); (43471, 43471); (43493, 43494); (43561, 43566); (43569, 43570);
  (43573, 43574); (43587, 43587); (43596, 43596); (43632, 43632); (43644, 43644); (43696, 43696);
  (43698, 43700); (43703, 43704); (43710, 43711); (43713, 43713); (43741, 43741); (43756, 43757);
  (43763, 43764); (43766, 43766); (43867, 43871); (43881, 43883); (44005, 44005); (44008, 44008);
  (44013, 44013); (64286, 64286); (64434, 64450); (65024, 65039); (65043, 65043); (65056, 65071);
  (65106, 65106); (65109, 65109); (65279, 65279); (65287, 65287); (65294, 65294); (65306, 65306);
  (65342, 65342); (65344, 65344); (65392, 65392); (65438, 65439); (65507, 65507); (65529, 65531);
  (66045, 66045); (66272, 66272); (66422, 66426); (67456, 67461); (67463, 67504); (67506, 67514);
  (68097, 68099); (68101, 68102); (68108, 68111); (68152, 68154); (68159, 68159); (68325, 68326);
  (68900, 68903); (69291, 69292); (69446, 69456); (69506, 69509); (69633, 69633); (69688, 69702);
  (69744, 69744); (69747, 69748); (69759, 69761); (69811, 69814); (69817, 69818); (69821, 69821);
  (69826, 69826); (69837, 69837); (69888, 69890); (69927, 69931); (69933, 69940); (70003, 70003);
  (70016, 70017); (70070, 70078); (70089, 70092); (70095, 70095); (70191, 70193); (70196, 70196);
  (70198, 70199); (70206, 70206); (70367, 70367); (70371, 70378); (70400, 70401); (70459, 70460);
  (70464, 70464); (70502, 70508); (70512, 70516); (70712, 70719); (70722, 70724); (70726, 70726);
  (70750, 70750); (70835, 70840); (70842, 70842); (70847, 70848); (70850, 70851); (71090, 71093);
  (71100, 71101); (71103, 71104); (71132, 71133); (71219, 71226); (71229, 71229); (71231, 71232);
  (71339, 71339); (71341, 71341); (71344, 71349); (71351, 71351); (71453, 71455); (71458, 71461);
  (71463, 71467); (71727, 71735); (71737, 71738); (71995, 71996); (71998, 71998); (72003, 72003);
  (72148, 72151); (72154, 72155); (72160, 72160); (72193, 72202); (72243, 72248); (72251, 72254);
  (72263, 72263); (72273, 72278); (72281, 72283); (72330, 72342); (72344, 72345); (72752, 72758);
  (72760, 72765); (72767, 72767); (72850, 72871); (72874, 72880); (72882, 72883); (72885, 72886);
  (73009, 73014); (73018, 73018); (73020, 73021); (73023, 73029); (73031, 73031); (73104, 73105);
  (73109, 73109); (73111, 73111); (73459, 73460); (78896, 78904); (92912, 92916); (92976, 92982);
  (92992, 92995); (94031, 94031); (94095, 94111); (94176, 94177); (94179, 94180); (110576, 110579);
  (110581, 110587); (110589, 110590); (113821, 113822); (113824, 113827); (118528, 118573); (118576, 118598);
  (119143, 119145); (119155, 119170); (119173, 119179); (119210, 119213); (119362, 119364); (121344, 121398);
  (121403, 121452); (121461, 121461); (121476, 121476); (121499, 121503); (121505, 121519); (122880, 122886);
  (122888, 122904); (122907, 122913); (122915, 122916); (122918, 122922); (123184, 123197); (123566, 123566);
  (123628, 123631); (125136, 125142); (125252, 125259); (127995, 127999); (917505, 917505); (917536, 917631);
  (917760, 917999)
 ]%N.

(** The cased characters that are not case-ignorable, as ranges. *)
Definition CASED : list (N * N) :=
 [
  (65, 90); (97, 122); (170, 170); (181, 181); (186, 186); (192, 214);
  (216, 246); (248, 442); (444, 447); (452, 659); (661, 687); (880, 883);
  (886, 887); (891, 893); (895, 895); (902, 902); (904, 906); (908, 908);
  (910, 929); (931, 1013); (1015, 1153); (1162, 1327); (1329, 1366); (1376, 1416);
  (4256, 4293); (4295, 4295); (4301, 4301); (4304, 4346); (4349, 4351); (5024, 5109);
  (5112, 5117); (7296, 7304); (7312, 7354); (7357, 7359); (7424, 7467); (7531, 7543);
  (7545, 7578); (7680, 7957); (7960, 7965); (7968, 8005); (8008, 8013); (8016, 8023);
  (8025, 8025); (8027, 8027); (8029, 8029); (8031, 8061); (8064, 8116); (8118, 8124);
  (8126, 8126); (8130, 8132); (8134, 8140); (8144, 8147); (8150, 8155); (8160, 8172);
  (8178, 8180); (8182, 8188); (8450, 8450); (8455, 8455); (8458, 8467); (8469, 8469);
  (8473, 8477); (8484, 8484); (8486, 8486); (8488, 8488); (8490, 8493); (8495, 8500);
  (8505, 8505); (8508, 8511); (8517, 8521); (8526, 8526); (8544, 8575); (8579, 8580);
  (9398, 9449); (11264, 11387); (11390, 11492); (11499, 11502); (11506, 11507); (11520, 11557);
  (11559, 11559); (11565, 11565); (42560, 42605); (42624, 42651); (42786, 42863); (42865, 42887);
  (42891, 42894); (42896, 42954); (42960, 42961); (42963, 42963); (42965, 42969); (42997, 42998);
  (43002, 43002); (43824, 43866); (43872, 43880); (43888, 43967); (64256, 64262); (64275, 64279);
  (65313, 65338); (65345, 65370); (66560, 66639); (66736, 66771); (66776, 66811); (66928, 66938);
  (66940, 66954); (66956, 66962); (66964, 66965); (66967, 66977); (66979, 66993); (66995, 67001);
  (67003, 67004); (68736, 68786); (68800, 68850); (71840, 71903); (93760, 93823); (119808, 119892);
  (119894, 119964); (119966, 119967); (119970, 119970); (119973, 119974); (119977, 119980); (119982, 119993);
  (119995, 119995); (119997, 120003); (120005, 120069); (120071, 120074); (120077, 120084); (120086, 120092);
  (120094, 120121); (120123, 120126); (120128, 120132); (120134, 120134); (120138, 120144); (120146, 120485);
  (120488, 120512); (120514, 120538); (120540, 120570); (120572, 120596); (120598, 120628); (120630, 120654);
  (120656, 120686); (120688, 120712); (120714, 120744); (120746, 120770); (120772, 120779); (122624, 122633);
  (122635, 122654); (125184, 125251); (127280, 127305); (127312, 127337); (127344, 127369)
 ]%N.

End UnicodeData.

(** ** Python built-ins used by the source *)

Module Py.

Definition len {A} (l : list A) : Z := Z.of_nat (List.length l).

(** [range(start, stop, step)]: a zero step is a [ValueError]. *)
Definition range (start stop step : Z) : result (list Z) :=
  if (step =? 0)%Z then Raise (Exception "range() arg 3 must not be zero")
  else
    let n :=
      if (0 <? step)%Z
      then (if (start <? stop)%Z then (stop - start - 1) / step + 1 else 0)%Z
      else (if (stop <? start)%Z then (start - stop - 1) / (- step) + 1 else 0)%Z in
    Ok (map (fun k => (start + Z.of_nat k * step)%Z) (seq 0 (Z.to_nat n))).

(** An index of a slice, clamped the way [l[lo:hi]] does it. *)
Definition clamp (n i : Z) : Z :=
  if (i <? 0)%Z then Z.max 0 (i + n) else Z.min i n.

(** [l[lo:hi]] *)
Definition slice {A} (l : list A) (lo hi : Z) : list A :=
  let a := clamp (len l) lo in
  let b := clamp (len l) hi in
  firstn (Z.to_nat (b - a)) (skipn (Z.to_nat a) l).

(** Text: a [str] is the sequence of its code points. *)
Definition str : Type := list N.

(** The [str] of a literal of the source; the literals are ASCII. *)
Definition lit (s : string) : str := map N_of_ascii (list_ascii_of_string s).

(** [a == b] on text. *)
Fixpoint eqb (a b : str) : bool :=
  match a, b with
  | [], [] => true
  | x :: a', y :: b' => N.eqb x y && eqb a' b'
  | _, _ => false
  end.

(** The characters [str.isspace] accepts, which are the ones [strip]
    removes: the ASCII controls 9-13 and 28-31, the space, and the
    Unicode separators. *)
Definition WHITESPACE : list N :=
  [9; 10; 11; 12; 13; 28; 29; 30; 31; 32; 133; 160; 5760;
   8192; 8193; 8194; 8195; 8196; 8197; 8198; 8199; 8200; 8201; 8202;
   8232; 8233; 8239; 8287; 12288]%N.

Definition isspace (c : N) : bool := existsb (N.eqb c) WHITESPACE.

Fixpoint assoc (c : N) (table : list (N * list N)) : option (list N) :=
  match table with
  | [] => None
  | (k, v) :: rest => if N.eqb c k then Some v else assoc c rest
  end.

Definition in_ranges (c : N) (ranges : list (N * N)) : bool :=
  existsb (fun r => (fst r <=? c)%N && (c <=? snd r)%N) ranges.

Definition case_ignorable (c : N) : bool := in_ranges c UnicodeData.CASE_IGNORABLE.

Definition cased (c : N) : bool := in_ranges c UnicodeData.CASED.

(** The uppercase of one character: one to three characters. *)
Definition upper_char (c : N) : str :=
  match assoc c UnicodeData.UPPER with
  | Some v => v
  | None => [c]
  end.

(** The lowercase of one character other than capital sigma. *)
Definition lower_char (c : N) : str :=
  match assoc c UnicodeData.LOWER with
  | Some v => v
  | None => [c]
  end.

(** [upper] *)
Definition upper (s : str) : str := flat_map upper_char s.

(** The first character that is not case-ignorable. *)
Fixpoint skip_ignorable (s : str) : option N :=
  match s with
  | [] => None
  | c :: s' => if case_ignorable c then skip_ignorable s' else Some c
  end.

(** A capital sigma ends a word when a cased character comes before it and
    none comes after it, case-ignorable characters set aside; [before] is
    the text before the sigma, nearest character first. *)
Definition final_sigma (before after : str) : bool :=
  match skip_ignorable before with
  | Some c =>
      cased c &&
      match skip_ignorable after with
      | Some d => negb (cased d)
      | None => true
      end
  | None => false
  end.

Definition CAPITAL_SIGMA : N := 931.
Definition SMALL_FINAL_SIGMA : N := 962.
Definition SMALL_SIGMA : N := 963.

Fixpoint lower_from (before s : str) : str :=
  match s with
  | [] => []
  | c :: s' =>
      (if N.eqb c CAPITAL_SIGMA
       then [if final_sigma before s' then SMALL_FINAL_SIGMA else SMALL_SIGMA]
       else lower_char c)
      ++ lower_from (c :: before) s'
  end.

(** [lower] *)
Definition lower (s : str) : str := lower_from [] s.

Fixpoint lstrip (s : str) : str :=
  match s with
  | [] => []
  | c :: s' => if isspace c then lstrip s' else s
  end.

(** [rstrip]: drop a character when it is a space and all that follows
    it was dropped. *)
Fixpoint rstrip (s : str) : str :=
  match s with
  | [] => []
  | c :: s' =>
      match rstrip s' with
      | [] => if isspace c then [] else [c]
      | t => c :: t
      end
  end.

(** [strip] *)
Definition strip (s : str) : str := rstrip (lstrip s).

(** [s.startswith(p)] *)
Fixpoint startswith (s p : str) : bool :=
  match p, s with
  | [], _ => true
  | _ :: _, [] => false
  | b :: p', a :: s' => N.eqb a b && startswith s' p'
  end.

(** Truth value of a text: empty is false. *)
Definition truthy (s : str) : bool :=
  match s with
  | [] => false
  | _ => true
  end.

Definition truthy_opt (o : option str) : bool :=
  match o with
  | Some s => truthy s
  | None => false
  end.

End Py.


(** ** The embedding service ([services/embeddings.py]) *)

Module Embeddings.

Import Eff.
Local Open Scope eff_scope.

(** What the logger is told. *)
Inductive info_msg : Type :=
| Initializing
| Initialized (dim : Z)
| Generated (n batch_no batches : Z)
| Total (n : Z).

Inductive error_msg : Type :=
| FailedEmbedding (e : exn)
| FailedEmbeddings (e : exn).

Record EmbeddingService : Type := { embedding_dim : Z }.

Section Service.

(** The provider: the type of the numbers it returns, its state, the call
    [genai.embed_content(model="models/embedding-001", content=text)['embedding']]
    and the call [genai.configure(api_key=...)]. *)
Variable float : Type.
Variable world : Type.
Variable embed_content : string -> world -> result (list float) * world.
Variable configure : option string -> world -> result unit * world.

Definition vector : Type := list float.

(** Everything the service does that is seen from outside, in order. *)
Inductive event : Type :=
| LogInfo (m : info_msg)
| LogError (m : error_msg)
| RunInExecutor (unit_of_work : list string)
| EmbedContent (text : string) (r : result vector)
| Configure (api_key : option string) (r : result unit).

Record state : Type := { provider : world; log : list event }.

Definition emit (ev : event) : M state unit :=
  modify (fun s => {| provider := provider s; log := log s ++ [ev] |}).

Definition call_embed_content (text : string) : M state vector :=
  fun s =>
    let (r, w) := embed_content text (provider s) in
    (r, {| provider := w; log := log s ++ [EmbedContent text r] |}).

Definition call_configure (api_key : option string) : M state unit :=
  fun s =>
    let (r, w) := configure api_key (provider s) in
    (r, {| provider := w; log := log s ++ [Configure api_key r] |}).

(** [EmbeddingService.__init__]; [gemini_api_key] is the value of
    [settings.gemini_api_key]. *)
Definition init (gemini_api_key : option string) : M state EmbeddingService :=
  emit (LogInfo Initializing) ;;
  call_configure gemini_api_key ;;
  let self := {| embedding_dim := 768 |} in
  emit (LogInfo (Initialized (embedding_dim self))) ;;
  ret self.

(** [generate_embedding] *)
Definition generate_embedding (text : string) : M state vector :=
  try_except
    (emit (RunInExecutor [text]) ;;
     embedding <- call_embed_content text ;;
     ret embedding)
    (fun e => emit (LogError (FailedEmbedding e)) ;; raise e).

(** The list comprehension run inside one executor unit:
    [[genai.embed_content(..., content=text)['embedding'] for text in b]]. *)
Fixpoint embed_each (b : list string) : M state (list vector) :=
  match b with
  | [] => ret []
  | text :: b' =>
      v <- call_embed_content text ;;
      vs <- embed_each b' ;;
      ret (v :: vs)
  end.

(** The body of [for i in range(0, len(texts), batch_size)], over the
    indices the range yields. *)
Fixpoint batch_loop (texts : list string) (batch_size : Z) (indices : list Z)
    (all_embeddings : list vector) : M state (list vector) :=
  match indices with
  | [] => ret all_embeddings
  | i :: rest =>
      let batch := Py.slice texts i (i + batch_size) in
      emit (RunInExecutor batch) ;;
      batch_embeddings <- embed_each batch ;;
      let all_embeddings := all_embeddings ++ batch_embeddings in
      emit (LogInfo (Generated (Py.len batch_embeddings)
                               (i / batch_size + 1)
                               ((Py.len texts + batch_size - 1) / batch_size))) ;;
      batch_loop texts batch_size rest all_embeddings
  end.

(** [generate_embeddings_batch] *)
Definition generate_embeddings_batch (texts : list string) (batch_size : Z)
    : M state (list vector) :=
  try_except
    (indices <- lift (Py.range 0 (Py.len texts) batch_size) ;;
     all_embeddings <- batch_loop texts batch_size indices [] ;;
     emit (LogInfo (Total (Py.len all_embeddings))) ;;
     ret all_embeddings)
    (fun e => emit (LogError (FailedEmbeddings e)) ;; raise e).

(** *** Reading the event log *)

Definition executor_units (evs : list event) : list (list string) :=
  flat_map (fun ev => match ev with RunInExecutor b => [b] | _ => [] end) evs.

Definition provider_calls (evs : list event) : list (string * result vector) :=
  flat_map (fun ev => match ev with EmbedContent t r => [(t, r)] | _ => [] end) evs.

Definition progress_signals (evs : list event) : list (Z * Z * Z) :=
  flat_map (fun ev => match ev with
                      | LogInfo (Generated n k m) => [(n, k, m)]
                      | _ => []
                      end) evs.

Definition errors_logged (evs : list event) : list error_msg :=
  flat_map (fun ev => match ev with LogError m => [m] | _ => [] end) evs.

End Service.

Arguments LogInfo {float} m.
Arguments LogError {float} m.
Arguments RunInExecutor {float} unit_of_work.
Arguments Configure {float} api_key r.

End Embeddings.

(** ** The database command line ([db_cli.py]) *)

Module Session.

Import Eff.
Local Open Scope eff_scope.
Local Open Scope string_scope.

(** The text of the [.tables] introspection query. *)
Definition TABLES_SQL : Py.str :=
  (Py.lit "SELECT table_name FROM information_schema.tables "
   ++ [10%N]
   ++ Py.lit "                               WHERE table_schema='public'")%list.

(** How an iteration of the read-eval loop ends. *)
Inductive control : Type :=
| Continue
| Break.

(** The command line arguments [argparse] hands to [main]. *)
Record args : Type := { query : option Py.str; interactive : bool }.

(** The two states of the session. *)
Inductive session_state : Type :=
| Disconnected
| Connected.

Section Driver.

(** The asyncpg driver: connections, the values of a row, the state of the
    database server, and the calls [asyncpg.connect(url)], [conn.close()],
    [conn.fetch(q)], [conn.execute(q)] and [conn.is_closed()]. *)
Variable connection : Type.
Variable value : Type.
Variable world : Type.

Definition row : Type := list (string * value).

Variable asyncpg_connect : Py.str -> world -> result connection * world.
Variable close : connection -> world -> result unit * world.
Variable fetch : connection -> Py.str -> world -> result (list row) * world.
Variable execute : connection -> Py.str -> world -> result string * world.
Variable is_closed : connection -> world -> bool.

(** What [print] writes, one constructor per message of the source. *)
Inductive output : Type :=
| NoDatabaseUrl
| ConnectedMsg
| ConnectionFailed (e : exn)
| DisconnectedMsg
| NotConnected
| QueryReturnedRows (n : Z)
| RowLine (r : row)
| QueryReturnedZero
| QueryExecuted (status : string)
| QueryFailed (e : exn)
| Banner
| Prompt
| TablesMsg (names : list value)
| Interrupted
| ErrorMsg (e : exn).

(** The calls made to the driver, in order. *)
Inductive call : Type :=
| CallConnect (url : Py.str)
| CallClose (c : connection)
| CallFetch (c : connection) (q : Py.str)
| CallExecute (c : connection) (q : Py.str).

(** The object: [self.db_url] and [self.conn]. *)
Record DatabaseCLI : Type := { db_url : option Py.str; conn : option connection }.

Record state : Type :=
  { self : DatabaseCLI;
    db : world;
    stdout : list output;
    calls : list call }.

(** [DatabaseCLI()], with [url] the value of [settings.get_database_url]. *)
Definition new (url : option Py.str) (w : world) : state :=
  {| self := {| db_url := url; conn := None |};
     db := w; stdout := []; calls := [] |}.

Definition print (o : output) : M state unit :=
  modify (fun s => {| self := self s; db := db s;
                      stdout := stdout s ++ [o]; calls := calls s |}).

Definition set_conn (c : connection) : M state unit :=
  modify (fun s => {| self := {| db_url := db_url (self s); conn := Some c |};
                      db := db s; stdout := stdout s; calls := calls s |}).

Definition driver {A} (c : call) (f : world -> result A * world) : M state A :=
  fun s =>
    let (r, w) := f (db s) in
    (r, {| self := self s; db := w; stdout := stdout s; calls := calls s ++ [c] |}).

(** The session holds a live connection when a handle is stored and the
    driver has not closed it. *)
Definition state_of (s : state) : session_state :=
  match conn (self s) with
  | Some c => if is_closed c (db s) then Disconnected else Connected
  | None => Disconnected
  end.

(** [connect] *)
Definition connect : M state bool :=
  fun s =>
    match db_url (self s) with
    | Some url =>
        if Py.truthy url then
          try_except
            (c <- driver (CallConnect url) (asyncpg_connect url) ;;
             set_conn c ;;
             print ConnectedMsg ;;
             ret true)
            (fun e => print (ConnectionFailed e) ;; ret false) s
        else (print NoDatabaseUrl ;; ret false) s
    | None => (print NoDatabaseUrl ;; ret false) s
    end.

(** [disconnect] *)
Definition disconnect : M state unit :=
  fun s =>
    match conn (self s) with
    | Some c => (driver (CallClose c) (close c) ;; print DisconnectedMsg) s
    | None => ret tt s
    end.

Fixpoint print_rows (rows : list row) : M state unit :=
  match rows with
  | [] => ret tt
  | r :: rest => print (RowLine r) ;; print_rows rest
  end.

(** The test on the query text that picks the read path. *)
Definition is_select (query : Py.str) : bool :=
  Py.startswith (Py.upper (Py.strip query)) (Py.lit "SELECT").

(** [execute_query] *)
Definition execute_query (query : Py.str) : M state unit :=
  fun s =>
    match conn (self s) with
    | None => (print NotConnected ;; ret tt) s
    | Some c =>
        try_except
          (if is_select query then
             result <- driver (CallFetch c query) (fetch c query) ;;
             match result with
             | _ :: _ =>
                 print (QueryReturnedRows (Py.len result)) ;;
                 print_rows result
             | [] => print QueryReturnedZero
             end
           else
             result <- driver (CallExecute c query) (execute c query) ;;
             print (QueryExecuted result))
          (fun e => print (QueryFailed e)) s
    end.

(** [t['table_name']] *)
Fixpoint getitem (t : row) (key : string) : result value :=
  match t with
  | [] => Raise (Exception key)
  | (k, v) :: t' => if String.eqb k key then Ok v else getitem t' key
  end.

(** [[t['table_name'] for t in tables]] *)
Fixpoint table_names (tables : list row) : result (list value) :=
  match tables with
  | [] => Ok []
  | t :: rest =>
      match getitem t "table_name" with
      | Ok v =>
          match table_names rest with
          | Ok vs => Ok (v :: vs)
          | Raise e => Raise e
          end
      | Raise e => Raise e
      end
  end.

(** [self.conn.fetch(q)]: without a stored handle the attribute lookup on
    [None] fails. *)
Definition conn_fetch (q : Py.str) : M state (list row) :=
  fun s =>
    match conn (self s) with
    | Some c => driver (CallFetch c q) (fetch c q) s
    | None => raise (Exception "'NoneType' object has no attribute 'fetch'") s
    end.

(** The statements inside the inner [try] of the loop; [line] is what
    [input] gave: a line, or the exception it raised. *)
Definition loop_body (line : result Py.str) : M state control :=
  print Prompt ;;
  raw <- lift line ;;
  let query := Py.strip raw in
  if negb (Py.truthy query) then ret Continue
  else if Py.eqb (Py.lower query) (Py.lit ".exit")
          || Py.eqb (Py.lower query) (Py.lit ".quit")
  then ret Break
  else if Py.eqb (Py.lower query) (Py.lit ".tables") then
    tables <- conn_fetch TABLES_SQL ;;
    names <- lift (table_names tables) ;;
    print (TablesMsg names) ;;
    ret Continue
  else
    execute_query query ;;
    ret Continue.

(** One iteration: the inner [try] with its two handlers. *)
Definition iteration (line : result Py.str) : M state control :=
  fun s =>
    match loop_body line s with
    | (Ok c, s') => (Ok c, s')
    | (Raise KeyboardInterrupt, s') => (print Interrupted ;; ret Break) s'
    | (Raise (Exception m), s') => (print (ErrorMsg (Exception m)) ;; ret Continue) s'
    | (Raise (BaseException m), s') => (Raise (BaseException m), s')
    end.

(** [while True]: the loop reads its lines from [inputs], the outcomes of
    the successive calls of [input].  [None]: the loop is still running
    when the inputs are used up. *)
Fixpoint loop (inputs : list (result Py.str)) (s : state)
    : option (result unit * state) :=
  match inputs with
  | [] => None
  | line :: rest =>
      match iteration line s with
      | (Ok Continue, s') => loop rest s'
      | (Ok Break, s') => Some (Ok tt, s')
      | (Raise e, s') => Some (Raise e, s')
      end
  end.

(** [run_interactive] *)
Definition run_interactive (inputs : list (result Py.str)) (s : state)
    : option (result unit * state) :=
  match (print Banner ;; connect) s with
  | (Ok true, s1) =>
      match loop inputs s1 with
      | Some (r, s2) => Some (try_finally (fun _ => (r, s2)) disconnect s1)
      | None => None
      end
  | (Ok false, s1) => Some (Ok tt, s1)
  | (Raise e, s1) => Some (Raise e, s1)
  end.

(** [main], from the parsed arguments on. *)
Definition main (a : args) (url : option Py.str) (inputs : list (result Py.str))
    (w : world) : option (result unit * state) :=
  let cli := new url w in
  if interactive a || negb (Py.truthy_opt (query a)) then
    run_interactive inputs cli
  else
    match query a with
    | Some q =>
        Some ((ok <- connect ;;
               if ok : bool then execute_query q ;; disconnect else ret tt) cli)
    | None => Some (Ok tt, cli)
    end.

(** The exit status of the process: [asyncio.run(main())] returns, or an
    exception leaves it. *)
Definition exit_status (r : result unit) : Z :=
  match r with
  | Ok _ => 0
  | Raise KeyboardInterrupt => 130
  | Raise _ => 1
  end.

(** The close calls among the driver calls. *)
Definition close_calls (cs : list call) : list connection :=
  flat_map (fun c => match c with CallClose h => [h] | _ => [] end) cs.

End Driver.

Arguments NoDatabaseUrl {value}.
Arguments ConnectedMsg {value}.
Arguments ConnectionFailed {value} e.
Arguments DisconnectedMsg {value}.
Arguments NotConnected {value}.
Arguments QueryReturnedRows {value} n.
Arguments QueryReturnedZero {value}.
Arguments QueryExecuted {value} status.
Arguments QueryFailed {value} e.
Arguments Banner {value}.
Arguments Prompt {value}.
Arguments Interrupted {value}.
Arguments ErrorMsg {value} e.
Arguments CallConnect {connection} url.

End Session.

(** ** The connection test script ([test_db_connection.py]) *)

Module ConnectionTest.

Import Eff.
Local Open Scope eff_scope.
Local Open Scope string_scope.

(** The text of the table query of the script. *)
Definition TABLES_SQL : Py.str :=
  (Py.lit "SELECT table_name FROM information_schema.tables "
   ++ [10%N]
   ++ Py.lit "               WHERE table_schema='public'")%list.

Section Driver.

(** The asyncpg driver, as in [Session], with [conn.fetchval(q)]. *)
Variable connection : Type.
Variable value : Type.
Variable world : Type.
Variable asyncpg_connect : Py.str -> world -> result connection * world.
Variable close : connection -> world -> result unit * world.
Variable fetch : connection -> Py.str -> world -> result (list (Session.row value)) * world.
Variable fetchval : connection -> Py.str -> world -> result value * world.

(** What the script prints. *)
Inductive output : Type :=
| NoDatabaseUrl
| Connecting
| Url (first_chars : Py.str)
| ConnectedMsg
| QueryResult (result : value)
| Version (version : value)
| TablesCount (n : Z)
| TableLine (name : value)
| ConnectionFailed (e : exn).

Inductive call : Type :=
| CallConnect (url : Py.str)
| CallClose (c : connection)
| CallFetch (c : connection) (q : Py.str)
| CallFetchval (c : connection) (q : Py.str).

Record state : Type :=
  { db : world;
    stdout : list output;
    calls : list call }.

Definition start (w : world) : state := {| db := w; stdout := []; calls := [] |}.

Definition print (o : output) : M state unit :=
  modify (fun s => {| db := db s; stdout := stdout s ++ [o]; calls := calls s |}).

Definition driver {A} (c : call) (f : world -> result A * world) : M state A :=
  fun s =>
    let (r, w) := f (db s) in
    (r, {| db := w; stdout := stdout s; calls := calls s ++ [c] |}).

(** [for table in tables: print(f"   - {table['table_name']}")] *)
Fixpoint print_tables (tables : list (Session.row value)) : M state unit :=
  match tables with
  | [] => ret tt
  | table :: rest =>
      name <- lift (Session.getitem table "table_name") ;;
      print (TableLine name) ;;
      print_tables rest
  end.

(** The statements of the [try] block between the connect and the close:
    the two test queries and the list of tables. *)
Definition run_queries (conn : connection) : M state unit :=
  result <- driver (CallFetchval conn (Py.lit "SELECT 1"))
                   (fetchval conn (Py.lit "SELECT 1")) ;;
  print (QueryResult result) ;;
  version <- driver (CallFetchval conn (Py.lit "SELECT version()"))
                    (fetchval conn (Py.lit "SELECT version()")) ;;
  print (Version version) ;;
  tables <- driver (CallFetch conn TABLES_SQL) (fetch conn TABLES_SQL) ;;
  print (TablesCount (Py.len tables)) ;;
  print_tables tables.

(** [test_connection], with [db_url] the value of
    [settings.get_database_url]. *)
Definition test_connection (db_url : option Py.str) : M state bool :=
  match db_url with
  | Some url =>
      if Py.truthy url then
        print Connecting ;;
        print (Url (firstn 50 url)) ;;
        try_except
          (conn <- driver (CallConnect url) (asyncpg_connect url) ;;
           print ConnectedMsg ;;
           run_queries conn ;;
           driver (CallClose conn) (close conn) ;;
           ret true)
          (fun e => print (ConnectionFailed e) ;; ret false)
      else print NoDatabaseUrl ;; ret false
  | None => print NoDatabaseUrl ;; ret false
  end.

(** [sys.exit(0 if result else 1)] after [asyncio.run(test_connection())]. *)
Definition exit_status (r : result bool) : Z :=
  match r with
  | Ok true => 0
  | Ok false => 1
  | Raise KeyboardInterrupt => 130
  | Raise _ => 1
  end.

Definition close_calls (cs : list call) : list connection :=
  flat_map (fun c => match c with CallClose h => [h] | _ => [] end) cs.

End Driver.

Arguments NoDatabaseUrl {value}.
Arguments Connecting {value}.
Arguments Url {value} first_chars.
Arguments ConnectedMsg {value}.
Arguments TablesCount {value} n.
Arguments ConnectionFailed {value} e.
Arguments CallConnect {connection} url.

End ConnectionTest.

(** ** Concrete worlds to run the models in *)

Module ToyProvider.

Local Open Scope string_scope.

(** A provider that counts its calls, rejects the text ["bad"], and
    answers every other text with 768 copies of its length; its
    [configure] takes any key. *)
Definition world : Type := nat.

Definition answer (text : string) : list Z :=
  repeat (Z.of_nat (String.length text)) 768.

Definition embed_content (text : string) (w : world) : result (list Z) * world :=
  if String.eqb text "bad"
  then (Raise (Exception "quota exceeded"), S w)
  else (Ok (answer text), S w).

Definition configure (key : option string) (w : world) : result unit * world :=
  (Ok tt, w).

Definition start : Embeddings.state Z world :=
  {| Embeddings.provider := 0; Embeddings.log := [] |}.

Definition abc : list string := ["a"; "b"; "c"].

Definition abc_vectors : list (list Z) :=
  [repeat 1%Z 768; repeat 1%Z 768; repeat 1%Z 768].

Definition abc_run : result (list (list Z)) * Embeddings.state Z world :=
  Embeddings.generate_embeddings_batch embed_content abc 2 start.

Definition failing_run : result (list (list Z)) * Embeddings.state Z world :=
  Embeddings.generate_embeddings_batch embed_content ["a"; "bad"; "c"] 2 start.

End ToyProvider.

Module ToyDriver.

Local Open Scope string_scope.

(** A driver with numbered connections that remembers which ones were
    closed.  The address ["postgresql://down"] refuses connections, the
    statements ["SELECT boom"] and ["DROP oops"] are rejected, and a closed
    connection rejects everything; closing twice is allowed. *)
Definition connection : Type := nat.
Definition value : Type := string.

Record world : Type := { opened : nat; closed : list nat }.

Definition fresh : world := {| opened := 0; closed := [] |}.

Definition is_closed (c : connection) (w : world) : bool :=
  existsb (Nat.eqb c) (closed w).

Definition asyncpg_connect (url : Py.str) (w : world) : result connection * world :=
  if Py.eqb url (Py.lit "postgresql://down")
  then (Raise (Exception "connection refused"), w)
  else (Ok (opened w), {| opened := S (opened w); closed := closed w |}).

Definition close (c : connection) (w : world) : result unit * world :=
  (Ok tt, {| opened := opened w; closed := c :: closed w |}).

Definition fetch (c : connection) (q : Py.str) (w : world)
    : result (list (Session.row value)) * world :=
  if is_closed c w then (Raise (Exception "connection is closed"), w)
  else if Py.eqb q (Py.lit "SELECT boom") then (Raise (Exception "syntax error"), w)
  else if Py.eqb q (Py.lit "SELECT 1") then (Ok [[("?column?", "1")]], w)
  else if Py.eqb q Session.TABLES_SQL
       then (Ok [[("table_name", "users")]; [("table_name", "orders")]], w)
  else (Ok [], w).

Definition execute (c : connection) (q : Py.str) (w : world) : result string * world :=
  if is_closed c w then (Raise (Exception "connection is closed"), w)
  else if Py.eqb q (Py.lit "DROP oops") then (Raise (Exception "syntax error"), w)
  else (Ok "OK", w).

(** [fetchval]: connections with an odd number may not ask for the
    version. *)
Definition fetchval (c : connection) (q : Py.str) (w : world) : result value * world :=
  if is_closed c w then (Raise (Exception "connection is closed"), w)
  else if Py.eqb q (Py.lit "SELECT version()") then
    (if Nat.odd c then (Raise (Exception "permission denied"), w)
     else (Ok "PostgreSQL 16", w))
  else (Ok "1", w).

(** A server that has handed out seven connections already. *)
Definition busy : world := {| opened := 7; closed := [] |}.

Definition state : Type := Session.state connection value world.

(** A new object with a usable address, one with a refused address, and
    one with no address. *)
Definition cli : state := Session.new connection value (Some (Py.lit "postgresql://neon")) fresh.
Definition cli_down : state :=
  Session.new connection value (Some (Py.lit "postgresql://down")) fresh.
Definition cli_no_url : state := Session.new connection value None fresh.

(** The object after a successful [connect]. *)
Definition connected : state := snd (Session.connect asyncpg_connect cli).

Definition one_shot (q : Py.str) : Session.args :=
  {| Session.query := Some q; Session.interactive := false |}.

Definition main (a : Session.args) (url : option Py.str)
    (inputs : list (result Py.str))
    : option (result unit * state) :=
  Session.main asyncpg_connect close fetch execute a url inputs fresh.

Definition run_interactive (inputs : list (result Py.str)) (s : state)
    : option (result unit * state) :=
  Session.run_interactive asyncpg_connect close fetch execute inputs s.

(** The object after [connect] and one [disconnect]. *)
Definition disconnected : state := snd (Session.disconnect close connected).

(** A session at the prompt: a query, a rejected statement, the table
    list, an end of input, and the exit command. *)
Definition script : list (result Py.str) :=
  [Ok (Py.lit "SELECT 1"); Ok (Py.lit "DROP oops"); Ok (Py.lit "  .Tables ");
   Raise (Exception "EOF when reading a line"); Ok (Py.lit ".exit")].

(** The state in which the scripted session ends. *)
Definition script_end : state := Eval vm_compute in
  match run_interactive script cli with
  | Some (_, s) => s
  | None => cli
  end.

End ToyDriver.

(** * Facts about the embedding service *)

(** ** Lists cut into consecutive pieces *)

Section Chunks.

Variable A : Type.

Definition chunk_at (b : nat) (l : list A) (k : nat) : list A :=
  firstn b (skipn (k * b) l).

Lemma chunk_at_succ (b : nat) (l : list A) (k : nat) :
  chunk_at b l (S k) = chunk_at b (skipn b l) k.
Proof.
  unfold chunk_at. rewrite skipn_skipn. f_equal. f_equal. lia.
Qed.

Lemma concat_chunks (b n : nat) (l : list A) :
  (List.length l <= n * b)%nat ->
  List.concat (map (chunk_at b l) (seq 0 n)) = l.
Proof.
  revert l. induction n as [|n IH]; intros l Hlen.
  - simpl in *. destruct l; simpl in *; [reflexivity | lia].
  - rewrite <- cons_seq, <- seq_shift. cbn [map List.concat].
    rewrite map_map.
    rewrite (map_ext _ (chunk_at b (skipn b l)) (chunk_at_succ b l)).
    rewrite IH.
    + unfold chunk_at. simpl. apply firstn_skipn.
    + rewrite length_skipn. lia.
Qed.

Lemma chunk_at_length (b : nat) (l : list A) (k : nat) :
  List.length (chunk_at b l k) = Nat.min b (List.length l - k * b).
Proof.
  unfold chunk_at. rewrite length_firstn, length_skipn. reflexivity.
Qed.

End Chunks.

(** ** The range and the slices of the batch loop *)

Definition n_batches (N B : Z) : nat := Z.to_nat ((N + B - 1) / B).

Lemma range_batches (N B : Z) :
  (1 <= B)%Z -> (0 <= N)%Z ->
  Py.range 0 N B = Ok (map (fun k => (0 + Z.of_nat k * B)%Z) (seq 0 (n_batches N B))).
Proof.
  intros HB HN. unfold Py.range, n_batches.
  replace (B =? 0)%Z with false by (symmetry; apply Z.eqb_neq; lia).
  replace (0 <? B)%Z with true by (symmetry; apply Z.ltb_lt; lia).
  destruct (Z.ltb_spec 0 N) as [Hpos | Hzero].
  - replace (N + B - 1)%Z with (N - 0 - 1 + 1 * B)%Z by lia.
    rewrite Z.div_add by lia. reflexivity.
  - assert (N = 0%Z) by lia. subst N.
    rewrite Z.div_small by lia. reflexivity.
Qed.

Lemma n_batches_covers (N B : Z) :
  (1 <= B)%Z -> (0 <= N)%Z ->
  (N <= Z.of_nat (n_batches N B) * B)%Z.
Proof.
  intros HB HN. unfold n_batches.
  assert (Hq : (0 <= (N + B - 1) / B)%Z) by (apply Z.div_pos; lia).
  rewrite Z2Nat.id by exact Hq.
  pose proof (Z.mul_succ_div_gt (N + B - 1) B ltac:(lia)). lia.
Qed.

Lemma n_batches_tight (N B : Z) (k : nat) :
  (1 <= B)%Z -> (0 <= N)%Z -> (k < n_batches N B)%nat ->
  (Z.of_nat k * B < N)%Z.
Proof.
  intros HB HN Hk. unfold n_batches in Hk.
  assert (Hq : (0 <= (N + B - 1) / B)%Z) by (apply Z.div_pos; lia).
  assert (Hk' : (Z.of_nat k + 1 <= (N + B - 1) / B)%Z) by lia.
  pose proof (Z.mul_div_le (N + B - 1) B ltac:(lia)). nia.
Qed.

Lemma slice_chunk (A : Type) (l : list A) (B : Z) (k : nat) :
  (1 <= B)%Z ->
  Py.slice l (0 + Z.of_nat k * B) (0 + Z.of_nat k * B + B)
  = chunk_at (Z.to_nat B) l k.
Proof.
  intros HB. unfold Py.slice, Py.clamp, Py.len, chunk_at.
  set (N := List.length l). set (i := (0 + Z.of_nat k * B)%Z).
  assert (Hi : (0 <= i)%Z) by (unfold i; nia).
  assert (Hkb : Z.of_nat (k * Z.to_nat B) = i) by (unfold i; nia).
  replace (i <? 0)%Z with false by (symmetry; apply Z.ltb_ge; lia).
  replace (i + B <? 0)%Z with false by (symmetry; apply Z.ltb_ge; lia).
  destruct (Z.le_gt_cases (Z.of_nat N) i) as [Hout | Hin].
  - rewrite !Z.min_r by lia. rewrite Z.sub_diag. simpl.
    rewrite (skipn_all2 l (n := k * Z.to_nat B)) by (fold N; lia).
    now rewrite firstn_nil.
  - rewrite (Z.min_l i) by lia.
    replace (Z.to_nat i) with (k * Z.to_nat B)%nat by lia.
    destruct (Z.le_gt_cases (i + B) (Z.of_nat N)) as [Hfull | Hlast].
    + rewrite Z.min_l by lia. f_equal. lia.
    + rewrite Z.min_r by lia.
      rewrite !firstn_all2; [reflexivity | |]; rewrite length_skipn; fold N; lia.
Qed.

Lemma slices_partition (A : Type) (l : list A) (B : Z) :
  (1 <= B)%Z ->
  let slices := map (fun i => Py.slice l i (i + B))
                    (map (fun k => (0 + Z.of_nat k * B)%Z) (seq 0 (n_batches (Py.len l) B))) in
  List.concat slices = l
  /\ Forall (fun b => (1 <= Py.len b <= B)%Z) slices
  /\ Py.len slices = ((Py.len l + B - 1) / B)%Z.
Proof.
  intros HB slices. unfold slices. rewrite map_map.
  assert (HN : (0 <= Py.len l)%Z) by (unfold Py.len; lia).
  pose proof (n_batches_covers HB HN) as Hcov.
  rewrite (map_ext _ (chunk_at (Z.to_nat B) l) (fun k => slice_chunk l k HB)).
  split; [| split].
  - apply concat_chunks. unfold Py.len in Hcov.
    apply Nat2Z.inj_le. rewrite Nat2Z.inj_mul, Z2Nat.id by lia. exact Hcov.
  - apply Forall_forall. intros b Hb. apply in_map_iff in Hb.
    destruct Hb as [k [<- Hk]]. apply in_seq in Hk.
    pose proof (@n_batches_tight (Py.len l) B k HB HN ltac:(lia)) as Ht.
    unfold Py.len in *. rewrite chunk_at_length.
    assert (Hkb : Z.of_nat (k * Z.to_nat B) = (Z.of_nat k * B)%Z)
      by (rewrite Nat2Z.inj_mul, Z2Nat.id by lia; reflexivity).
    lia.
  - unfold Py.len at 1. rewrite length_map, length_seq. unfold n_batches.
    apply Z2Nat.id. apply Z.div_pos; lia.
Qed.

(** ** Runs of the embedding service *)

Section EmbeddingFacts.

Import Embeddings.

Variable float : Type.
Variable world : Type.
Variable embed_content : string -> world -> result (list float) * world.

Local Abbreviation state := (Embeddings.state float world).
Local Abbreviation event := (Embeddings.event float).
Local Abbreviation vector := (Embeddings.vector float).

(** The provider calls of a stretch of the log: the texts submitted and
    the outcomes, both in order. *)
Definition submitted (evs : list event) : list string :=
  map fst (provider_calls evs).

Definition outcomes (evs : list event) : list (result vector) :=
  map snd (provider_calls evs).

(** [v] is what some call of the provider returned for [t]. *)
Definition returned_for (t : string) (v : vector) : Prop :=
  exists w w', embed_content t w = (Ok v, w').

Lemma submitted_app (e1 e2 : list event) :
  submitted (e1 ++ e2) = submitted e1 ++ submitted e2.
Proof. unfold submitted, provider_calls. now rewrite flat_map_app, map_app. Qed.

Lemma outcomes_app (e1 e2 : list event) :
  outcomes (e1 ++ e2) = outcomes e1 ++ outcomes e2.
Proof. unfold outcomes, provider_calls. now rewrite flat_map_app, map_app. Qed.

Lemma executor_units_app (e1 e2 : list event) :
  executor_units (e1 ++ e2) = executor_units e1 ++ executor_units e2.
Proof. unfold executor_units. now rewrite flat_map_app. Qed.

Lemma progress_signals_app (e1 e2 : list event) :
  progress_signals (e1 ++ e2) = progress_signals e1 ++ progress_signals e2.
Proof. unfold progress_signals. now rewrite flat_map_app. Qed.

Lemma errors_logged_app (e1 e2 : list event) :
  errors_logged (e1 ++ e2) = errors_logged e1 ++ errors_logged e2.
Proof. unfold errors_logged. now rewrite flat_map_app. Qed.

(** A stretch of the log that holds provider calls only. *)
Definition only_calls (evs : list event) : Prop :=
  executor_units evs = [] /\ progress_signals evs = [] /\ errors_logged evs = [].

(** The comprehension of one unit, when it succeeds: one call per text,
    in order, and the vectors are the outcomes of these calls. *)
Lemma embed_each_ok (b : list string) :
  forall (s s' : state) (vs : list vector),
    embed_each embed_content b s = (Ok vs, s') ->
    exists evs,
      log s' = log s ++ evs
      /\ only_calls evs
      /\ submitted evs = b
      /\ outcomes evs = map Ok vs
      /\ Forall2 returned_for b vs.
Proof.
  induction b as [|t b IH]; intros s s' vs H.
  - inversion H; subst. exists []. rewrite app_nil_r.
    repeat split; constructor.
  - cbn [embed_each] in H. unfold Eff.bind, call_embed_content in H.
    destruct (embed_content t (provider s)) as [[v | e] w] eqn:Hcall; [|discriminate].
    match type of H with
    | context [embed_each embed_content b ?s1] =>
        destruct (embed_each embed_content b s1) as [[vs' | e] s2] eqn:Hrest
    end; [|discriminate].
    inversion H; subst. clear H.
    destruct (IH _ _ _ Hrest) as [evs [Hlog [[Hu [Hp He]] [Hsub [Hout Hret]]]]].
    exists ([EmbedContent t (Ok v)] ++ evs). cbn [log] in Hlog.
    rewrite Hlog, <- app_assoc.
    split; [reflexivity|].
    split; [repeat split; assumption|].
    split; [rewrite submitted_app, Hsub; reflexivity|].
    split; [rewrite outcomes_app, Hout; reflexivity|].
    constructor; [|assumption]. now exists (provider s), w.
Qed.

(** The comprehension of one unit, when it raises: the calls before the
    failing one succeeded, the failing call is the last one, and no text
    was submitted twice. *)
Lemma embed_each_raise (b : list string) :
  forall (s s' : state) (e : exn),
    embed_each embed_content b s = (Raise e, s') ->
    exists evs pre t post vs,
      log s' = log s ++ evs ++ [EmbedContent t (Raise e)]
      /\ only_calls evs
      /\ b = pre ++ t :: post
      /\ submitted evs = pre
      /\ outcomes evs = map Ok vs.
Proof.
  induction b as [|t b IH]; intros s s' e H.
  - discriminate.
  - cbn [embed_each] in H. unfold Eff.bind, call_embed_content in H.
    destruct (embed_content t (provider s)) as [[v | e0] w] eqn:Hcall.
    + match type of H with
      | context [embed_each embed_content b ?s1] =>
          destruct (embed_each embed_content b s1) as [[vs' | e1] s2] eqn:Hrest
      end; [discriminate|].
      inversion H; subst. clear H.
      destruct (IH _ _ _ Hrest) as
        [evs [pre [t' [post [vs [Hlog [[Hu [Hp He]] [Hb [Hsub Hout]]]]]]]]].
      exists ([EmbedContent t (Ok v)] ++ evs), (t :: pre), t', post, (v :: vs).
      cbn [log] in Hlog. rewrite Hlog, <- !app_assoc.
      split; [reflexivity|].
      split; [repeat split; assumption|].
      split; [now rewrite Hb|].
      split; [rewrite submitted_app, Hsub; reflexivity|].
      rewrite outcomes_app, Hout; reflexivity.
    + inversion H; subst. clear H.
      exists [], [], t, b, []. cbn [log].
      repeat split; reflexivity.
Qed.

(** The slices the loop takes at the given indices. *)
Definition slices_at (texts : list string) (B : Z) (indices : list Z) : list (list string) :=
  map (fun i => Py.slice texts i (i + B)) indices.

(** The progress signals the loop emits at the given indices. *)
Definition signals_at (texts : list string) (B : Z) (indices : list Z) : list (Z * Z * Z) :=
  map (fun i => (Py.len (Py.slice texts i (i + B)),
                 (i / B + 1)%Z,
                 ((Py.len texts + B - 1) / B)%Z)) indices.

Lemma batch_loop_step (texts : list string) (B i : Z) (rest : list Z)
    (acc : list vector) (s : state) :
  batch_loop embed_content texts B (i :: rest) acc s =
  let batch := Py.slice texts i (i + B) in
  let s0 := {| provider := provider s; log := log s ++ [RunInExecutor batch] |} in
  match embed_each embed_content batch s0 with
  | (Ok vs, s1) =>
      batch_loop embed_content texts B rest (acc ++ vs)
        {| provider := provider s1;
           log := log s1 ++ [LogInfo (Generated (Py.len vs) (i / B + 1)
                                        ((Py.len texts + B - 1) / B))] |}
  | (Raise e, s1) => (Raise e, s1)
  end.
Proof.
  cbn [batch_loop]. unfold Eff.bind, emit, Eff.modify. cbn.
  destruct (embed_each embed_content (Py.slice texts i (i + B)) _) as [[vs | e] s1];
    reflexivity.
Qed.

(** The loop, when it succeeds. *)
Lemma batch_loop_ok (texts : list string) (B : Z) (indices : list Z) :
  forall (acc : list vector) (s s' : state) (out : list vector),
    batch_loop embed_content texts B indices acc s = (Ok out, s') ->
    exists evs vs,
      log s' = log s ++ evs
      /\ out = acc ++ vs
      /\ executor_units evs = slices_at texts B indices
      /\ submitted evs = List.concat (slices_at texts B indices)
      /\ outcomes evs = map Ok vs
      /\ Forall2 returned_for (List.concat (slices_at texts B indices)) vs
      /\ progress_signals evs = signals_at texts B indices
      /\ errors_logged evs = [].
Proof.
  induction indices as [|i rest IH]; intros acc s s' out H.
  - inversion H; subst. exists [], []. rewrite !app_nil_r.
    repeat split; constructor.
  - rewrite batch_loop_step in H. cbv zeta in H.
    destruct (embed_each embed_content _ _) as [[vs | e] s1] eqn:Hunit; [|discriminate].
    destruct (embed_each_ok _ _ Hunit) as [evs1 [Hlog1 [[Hu1 [Hp1 He1]] [Hs1 [Ho1 Hr1]]]]].
    destruct (IH _ _ _ _ H) as [evs2 [vs2 [Hlog2 [Hout [Hu2 [Hs2 [Ho2 [Hr2 [Hp2 He2]]]]]]]]].
    cbn [log] in Hlog1, Hlog2.
    set (sig := LogInfo (Generated (Py.len vs) (i / B + 1) ((Py.len texts + B - 1) / B))) in *.
    exists ([RunInExecutor (Py.slice texts i (i + B))] ++ evs1 ++ [sig] ++ evs2), (vs ++ vs2).
    split; [rewrite Hlog2, Hlog1, <- !app_assoc; reflexivity|].
    split; [rewrite Hout, <- app_assoc; reflexivity|].
    split; [rewrite !executor_units_app, Hu1, Hu2; reflexivity|].
    split; [rewrite !submitted_app, Hs1, Hs2; reflexivity|].
    split; [rewrite !outcomes_app, Ho1, Ho2, map_app; reflexivity|].
    split; [cbn [slices_at map List.concat]; apply Forall2_app; assumption|].
    split.
    + rewrite !progress_signals_app, Hp1, Hp2. cbn.
      unfold Py.len. rewrite (Forall2_length Hr1). reflexivity.
    + rewrite !errors_logged_app, He1, He2. reflexivity.
Qed.

(** The loop, when it raises: the exception is that of a provider call,
    which is the last event; all calls before it succeeded; the texts
    submitted so far are a prefix of the slices, so none was retried. *)
Lemma batch_loop_raise (texts : list string) (B : Z) (indices : list Z) :
  forall (acc : list vector) (s s' : state) (e : exn),
    batch_loop embed_content texts B indices acc s = (Raise e, s') ->
    exists evs t post vs,
      log s' = log s ++ evs ++ [EmbedContent t (Raise e)]
      /\ errors_logged evs = []
      /\ outcomes evs = map Ok vs
      /\ List.concat (slices_at texts B indices) = submitted evs ++ t :: post.
Proof.
  induction indices as [|i rest IH]; intros acc s s' e H.
  - discriminate.
  - rewrite batch_loop_step in H. cbv zeta in H.
    destruct (embed_each embed_content _ _) as [[vs | e0] s1] eqn:Hunit.
    + destruct (embed_each_ok _ _ Hunit) as [evs1 [Hlog1 [[Hu1 [Hp1 He1]] [Hs1 [Ho1 Hr1]]]]].
      destruct (IH _ _ _ _ H) as [evs2 [t [post [vs2 [Hlog2 [He2 [Ho2 Hpre]]]]]]].
      cbn [log] in Hlog1, Hlog2.
      set (sig := LogInfo (Generated (Py.len vs) (i / B + 1) ((Py.len texts + B - 1) / B))) in *.
      exists ([RunInExecutor (Py.slice texts i (i + B))] ++ evs1 ++ [sig] ++ evs2),
             t, post, (vs ++ vs2).
      split; [rewrite Hlog2, Hlog1, <- !app_assoc; reflexivity|].
      split; [rewrite !errors_logged_app, He1, He2; reflexivity|].
      split; [rewrite !outcomes_app, Ho1, Ho2, map_app; reflexivity|].
      cbn [slices_at map List.concat]. fold (slices_at texts B rest).
      rewrite Hpre, !submitted_app, Hs1.
      change (submitted [sig]) with (@nil string).
      change (submitted [RunInExecutor (Py.slice texts i (i + B))]) with (@nil string).
      cbn [app]. rewrite <- app_assoc. reflexivity.
    + inversion H; subst. clear H.
      destruct (embed_each_raise _ _ Hunit) as
        [evs1 [pre [t [post [vs [Hlog1 [[Hu1 [Hp1 He1]] [Hb [Hs1 Ho1]]]]]]]]].
      cbn [log] in Hlog1.
      exists ([RunInExecutor (Py.slice texts i (i + B))] ++ evs1), t,
             (post ++ List.concat (slices_at texts B rest)), vs.
      split; [rewrite Hlog1, <- !app_assoc; reflexivity|].
      split; [rewrite errors_logged_app, He1; reflexivity|].
      split; [rewrite outcomes_app, Ho1; reflexivity|].
      cbn [slices_at map List.concat]. fold (slices_at texts B rest).
      rewrite Hb, submitted_app, Hs1.
      change (submitted [RunInExecutor (pre ++ t :: post)]) with (@nil string).
      cbn [app]. rewrite <- app_assoc. reflexivity.
Qed.

(** The batch call unfolded once the range is known. *)
Lemma generate_embeddings_batch_run (texts : list string) (B : Z) (s : state) :
  (1 <= B)%Z ->
  generate_embeddings_batch embed_content texts B s =
  let indices := map (fun k => (0 + Z.of_nat k * B)%Z) (seq 0 (n_batches (Py.len texts) B)) in
  match batch_loop embed_content texts B indices [] s with
  | (Ok out, s1) =>
      (Ok out, {| provider := provider s1; log := log s1 ++ [LogInfo (Total (Py.len out))] |})
  | (Raise e, s1) =>
      if is_Exception e
      then (Raise e, {| provider := provider s1;
                        log := log s1 ++ [LogError (FailedEmbeddings e)] |})
      else (Raise e, s1)
  end.
Proof.
  intros HB. unfold generate_embeddings_batch, Eff.try_except, Eff.bind, Eff.lift.
  rewrite range_batches by (unfold Py.len; lia). cbv zeta.
  destruct (batch_loop embed_content texts B _ [] s) as [[out | e] s1]; [reflexivity|].
  destruct (is_Exception e); reflexivity.
Qed.

(** With a batch size below one no provider call is made. *)
Lemma generate_embeddings_batch_no_batches (texts : list string) (B : Z) (s : state) :
  (B < 1)%Z ->
  exists r ev,
    generate_embeddings_batch embed_content texts B s
    = (r, {| provider := provider s; log := log s ++ [ev] |})
    /\ provider_calls [ev] = [].
Proof.
  intros HB. unfold generate_embeddings_batch, Eff.try_except, Eff.bind, Eff.lift, Py.range.
  destruct (Z.eqb_spec B 0) as [-> | Hnz].
  - eexists _, _. split; reflexivity.
  - replace (0 <? B)%Z with false by (symmetry; apply Z.ltb_ge; lia).
    replace (Py.len texts <? 0)%Z with false
      by (symmetry; apply Z.ltb_ge; unfold Py.len; lia).
    eexists _, _. split; reflexivity.
Qed.

Section Dimension.

(** The model behind [embed_content], [models/embedding-001], returns
    vectors of 768 numbers. *)
Hypothesis provider_dim :
  forall t w v w', embed_content t w = (Ok v, w') -> Py.len v = 768%Z.

(** C1: a batch call with [1 <= B] that succeeds has cut the input into
    consecutive units of at most [B] texts (their concatenation is the
    input, there are ceil(N/B) of them), has submitted the texts to the
    provider one by one in input order, and returns as many vectors as
    there are texts, the i-th being what the i-th call returned for the
    i-th text, each of 768 numbers; three texts with [B = 2] give units of
    sizes 2 and 1 and three vectors. *)
Theorem generate_embeddings_batch_ok (texts : list string) (B : Z)
    (s s' : state) (out : list vector) :
  (1 <= B)%Z ->
  generate_embeddings_batch embed_content texts B s = (Ok out, s') ->
  exists evs,
    log s' = log s ++ evs
    /\ List.concat (executor_units evs) = texts
    /\ Forall (fun b => (1 <= Py.len b <= B)%Z) (executor_units evs)
    /\ Py.len (executor_units evs) = ((Py.len texts + B - 1) / B)%Z
    /\ submitted evs = texts
    /\ outcomes evs = map Ok out
    /\ Forall2 returned_for texts out
    /\ Py.len out = Py.len texts
    /\ Forall (fun v => Py.len v = 768%Z) out
    /\ (forall a b c, texts = [a; b; c] -> B = 2%Z ->
        executor_units evs = [[a; b]; [c]] /\ Py.len out = 3%Z).
Proof.
  intros HB H. rewrite generate_embeddings_batch_run in H by exact HB. cbv zeta in H.
  destruct (batch_loop _ _ _ _ _ _) as [[out' | e] s1] eqn:Hloop;
    [| destruct (is_Exception e); discriminate].
  inversion H; subst. clear H.
  destruct (batch_loop_ok _ _ _ _ _ Hloop)
    as [evs [vs [Hlog [Hout [Hu [Hs [Ho [Hr [Hp He]]]]]]]]].
  destruct (slices_partition texts HB) as [Hcat [Hsize Hcount]].
  fold (slices_at texts B
          (map (fun k => (0 + Z.of_nat k * B)%Z) (seq 0 (n_batches (Py.len texts) B))))
    in Hcat, Hsize, Hcount.
  rewrite Hcat in Hs, Hr. cbn [app] in Hout. subst out.
  assert (Hlen : Py.len vs = Py.len texts)
    by (unfold Py.len; now rewrite (Forall2_length Hr)).
  exists (evs ++ [LogInfo (Total (Py.len vs))]). cbn [log].
  rewrite executor_units_app, submitted_app, outcomes_app, !app_nil_r, Hu.
  split; [rewrite Hlog, app_assoc; reflexivity|].
  repeat (split; [assumption|]).
  split.
  - clear - provider_dim Hr.
    induction Hr as [| t v ts vs' [w [w' Hcall]] _ IH]; [constructor|].
    constructor; [eapply provider_dim; exact Hcall | exact IH].
  - intros a b c -> ->. split; [reflexivity | exact Hlen].
Qed.

End Dimension.

(** C5: when a provider call of a batch call raises, the batch call
    raises that same exception and returns no vectors; the failing call is
    the last provider call and the only one that failed; the texts
    submitted are an initial stretch of the input, each submitted once;
    and an error (an [Exception]) is logged once, as the last event. *)
Theorem generate_embeddings_batch_all_or_nothing (texts : list string) (B : Z)
    (s s' : state) (r : result (list vector)) (evs : list event) :
  generate_embeddings_batch embed_content texts B s = (r, s') ->
  log s' = log s ++ evs ->
  (exists t e, In (t, Raise e) (provider_calls evs)) ->
  exists e vs t post,
    r = Raise e
    /\ outcomes evs = map Ok vs ++ [Raise e]
    /\ submitted evs = firstn (List.length vs) texts ++ [t]
    /\ texts = submitted evs ++ post
    /\ errors_logged evs = (if is_Exception e then [FailedEmbeddings e] else [])
    /\ (is_Exception e = true ->
        exists evs', evs = evs' ++ [LogError (FailedEmbeddings e)]).
Proof.
  intros H Hlog [t0 [e0 Hfail]].
  destruct (Z.lt_ge_cases B 1) as [Hsmall | HB].
  { exfalso.
    destruct (generate_embeddings_batch_no_batches texts s Hsmall) as [r' [ev [Hrun Hnone]]].
    rewrite Hrun in H. inversion H; subst. cbn [log] in Hlog.
    apply app_inv_head in Hlog. subst evs. rewrite Hnone in Hfail. exact Hfail. }
  rewrite generate_embeddings_batch_run in H by exact HB. cbv zeta in H.
  destruct (batch_loop _ _ _ _ _ _) as [[out | e] s1] eqn:Hloop.
  - exfalso. inversion H; subst. clear H.
    destruct (batch_loop_ok _ _ _ _ _ Hloop)
      as [evs1 [vs [Hlog1 [_ [_ [_ [Ho _]]]]]]].
    cbn [log] in Hlog. rewrite Hlog1, <- app_assoc in Hlog.
    apply app_inv_head in Hlog. subst evs.
    assert (Hin : In (Raise e0) (outcomes (evs1 ++ [LogInfo (Total (Py.len out))])))
      by (unfold outcomes; apply (in_map snd) in Hfail; exact Hfail).
    rewrite outcomes_app, Ho, app_nil_r in Hin.
    apply in_map_iff in Hin. destruct Hin as [v [Hv _]]. discriminate.
  - destruct (batch_loop_raise _ _ _ _ _ Hloop)
      as [evs1 [t [post [vs [Hlog1 [He1 [Ho1 Hpre]]]]]]].
    destruct (slices_partition texts HB) as [Hcat _].
    fold (slices_at texts B
            (map (fun k => (0 + Z.of_nat k * B)%Z) (seq 0 (n_batches (Py.len texts) B))))
      in Hcat.
    rewrite Hcat in Hpre.
    assert (Hlen : List.length vs = List.length (submitted evs1)).
    { unfold submitted. unfold outcomes in Ho1.
      rewrite length_map, <- (length_map snd), Ho1, length_map. reflexivity. }
    assert (Hevs : evs = (evs1 ++ [EmbedContent t (Raise e)])
                         ++ (if is_Exception e then [LogError (FailedEmbeddings e)] else [])).
    { destruct (is_Exception e); inversion H; subst; cbn [log] in Hlog;
        rewrite Hlog1 in Hlog; rewrite <- ?app_assoc in Hlog;
        apply app_inv_head in Hlog; subst evs;
        rewrite <- ?app_assoc, ?app_nil_r; reflexivity. }
    exists e, vs, t, post.
    split; [destruct (is_Exception e); inversion H; reflexivity|].
    split; [rewrite Hevs, !outcomes_app, Ho1; destruct (is_Exception e);
            rewrite ?app_nil_r; reflexivity|].
    assert (Hsub : submitted evs = submitted evs1 ++ [t])
      by (rewrite Hevs, !submitted_app; destruct (is_Exception e);
          rewrite ?app_nil_r; reflexivity).
    split.
    { rewrite Hsub. f_equal. rewrite Hpre, Hlen, firstn_app, Nat.sub_diag.
      cbn [firstn]. rewrite app_nil_r, firstn_all. reflexivity. }
    split; [rewrite Hsub, <- app_assoc; exact Hpre|].
    split.
    { rewrite Hevs, !errors_logged_app, He1. destruct (is_Exception e); reflexivity. }
    intros Hexc. rewrite Hexc in Hevs. eexists. exact Hevs.
Qed.

(** C10: on the empty input, with [1 <= B], the batch call returns the
    empty list; what it adds to the log holds no provider call, no unit of
    work and no progress signal, and the provider is left as it was. *)
Theorem generate_embeddings_batch_empty (B : Z) (s : state) :
  (1 <= B)%Z ->
  exists evs,
    generate_embeddings_batch embed_content [] B s
    = (Ok [], {| provider := provider s; log := log s ++ evs |})
    /\ provider_calls evs = []
    /\ executor_units evs = []
    /\ progress_signals evs = [].
Proof.
  intros HB. rewrite generate_embeddings_batch_run by exact HB.
  unfold n_batches. change (Py.len (@nil string)) with 0%Z.
  rewrite Z.div_small by lia.
  exists [LogInfo (Total 0)]. repeat split.
Qed.

(** The single-text call: one provider call, whose exception is logged
    and raised again. *)
Lemma generate_embedding_run (text : string) (s : state) :
  generate_embedding embed_content text s =
  let s0 := {| provider := provider s; log := log s ++ [RunInExecutor [text]] |} in
  match embed_content text (provider s) with
  | (Ok v, w) =>
      (Ok v, {| provider := w; log := log s0 ++ [EmbedContent text (Ok v)] |})
  | (Raise e, w) =>
      (Raise e, {| provider := w;
                   log := (log s0 ++ [EmbedContent text (Raise e)])
                          ++ (if is_Exception e then [LogError (FailedEmbedding e)] else []) |})
  end.
Proof.
  unfold generate_embedding, Eff.try_except, Eff.bind, emit, Eff.modify,
    call_embed_content, Eff.ret, Eff.raise. cbn.
  destruct (embed_content text (provider s)) as [[v | e] w]; [reflexivity|].
  destruct e; cbn; rewrite ?app_nil_r; reflexivity.
Qed.

Section Construction.

Variable configure : option string -> world -> result unit * world.

(** The constructor unfolded: it logs, calls [configure] with the key it
    was given, and sets the dimension. *)
Lemma init_run (key : option string) (s : state) :
  init configure key s =
  let l0 := log s ++ [LogInfo Initializing] in
  match configure key (provider s) with
  | (Ok u, w) =>
      (Ok {| embedding_dim := 768 |},
       {| provider := w;
          log := (l0 ++ [Configure key (Ok u)]) ++ [LogInfo (Initialized 768)] |})
  | (Raise e, w) =>
      (Raise e, {| provider := w; log := l0 ++ [Configure key (Raise e)] |})
  end.
Proof.
  unfold init, Eff.bind, emit, Eff.modify, call_configure, Eff.ret. cbn.
  destruct (configure key (provider s)) as [[u | e] w]; reflexivity.
Qed.

(** C8, as the code has it: construction fails exactly when the
    provider's [configure] call raises for the key it is given, with that
    exception, which the constructor does not catch; the constructor tests
    nothing about the key itself, and when [configure] accepts the key the
    service is built with dimension 768. *)
Theorem init_fails_iff_configure_raises (key : option string) (s : state) :
  (forall e, (exists s', init configure key s = (Raise e, s'))
             <-> (exists w, configure key (provider s) = (Raise e, w)))
  /\ (forall u w, configure key (provider s) = (Ok u, w) ->
      exists s', init configure key s = (Ok {| embedding_dim := 768 |}, s')
                 /\ provider s' = w).
Proof.
  split.
  - intros e. rewrite init_run. cbv zeta.
    destruct (configure key (provider s)) as [[u | e'] w]; split.
    + intros [s' H]. discriminate.
    + intros [w' H]. discriminate.
    + intros [s' H]. inversion H; subst. now exists w.
    + intros [w' H]. inversion H; subst. eexists. reflexivity.
  - intros u w H. rewrite init_run, H. cbv zeta. eexists. split; reflexivity.
Qed.

End Construction.

(** *** The batch call against one pass over the texts *)

(** Two states with the same provider and the same provider calls on
    record; the other events may differ. *)
Definition similar (s1 s2 : state) : Prop :=
  provider s1 = provider s2
  /\ provider_calls (log s1) = provider_calls (log s2).

Lemma similar_refl (s : state) : similar s s.
Proof. split; reflexivity. Qed.

Lemma provider_calls_app (e1 e2 : list event) :
  provider_calls (e1 ++ e2) = provider_calls e1 ++ provider_calls e2.
Proof. unfold provider_calls. now rewrite flat_map_app. Qed.

(** Logging an event that is no provider call keeps states similar. *)
Lemma similar_logged (s1 s2 : state) (ev : event) :
  provider_calls [ev] = [] ->
  similar s1 s2 ->
  similar {| provider := provider s1; log := log s1 ++ [ev] |} s2.
Proof.
  intros Hev [Hp Hc]. split; [exact Hp|]. cbn [log].
  now rewrite provider_calls_app, Hev, app_nil_r.
Qed.

Lemma embed_each_similar (b : list string) :
  forall s1 s2,
    similar s1 s2 ->
    fst (embed_each embed_content b s1) = fst (embed_each embed_content b s2)
    /\ similar (snd (embed_each embed_content b s1)) (snd (embed_each embed_content b s2)).
Proof.
  induction b as [|t b IH]; intros s1 s2 Hsim.
  - split; [reflexivity | exact Hsim].
  - cbn [embed_each]. unfold Eff.bind, call_embed_content.
    destruct Hsim as [Hp Hc]. rewrite Hp.
    destruct (embed_content t (provider s2)) as [[v | e] w].
    + set (a := {| provider := w; log := log s1 ++ [EmbedContent t (Ok v)] |}).
      set (c := {| provider := w; log := log s2 ++ [EmbedContent t (Ok v)] |}).
      assert (Hnext : similar a c)
        by (split; [reflexivity
                   | unfold a, c; cbn [log];
                     rewrite !provider_calls_app, Hc; reflexivity]).
      destruct (IH a c Hnext) as [Hr Hs].
      destruct (embed_each embed_content b a) as [[vs1 | e1] t1];
        destruct (embed_each embed_content b c) as [[vs2 | e2] t2];
        cbn [fst snd] in *; try discriminate;
        inversion Hr; subst; (split; [reflexivity | exact Hs]).
    + cbn [fst snd]. split; [reflexivity|]. split; [reflexivity|]. cbn [log].
      rewrite !provider_calls_app, Hc. reflexivity.
Qed.

Lemma embed_each_app (a b : list string) :
  forall s,
    embed_each embed_content (a ++ b) s =
    match embed_each embed_content a s with
    | (Ok va, s1) =>
        match embed_each embed_content b s1 with
        | (Ok vb, s2) => (Ok (va ++ vb), s2)
        | (Raise e, s2) => (Raise e, s2)
        end
    | (Raise e, s1) => (Raise e, s1)
    end.
Proof.
  induction a as [|t a IH]; intros s.
  - cbn. destruct (embed_each embed_content b s) as [[vb | e] s2]; reflexivity.
  - cbn [app embed_each]. unfold Eff.bind.
    destruct (call_embed_content embed_content t s) as [[v | e] s0]; [|reflexivity].
    rewrite IH.
    destruct (embed_each embed_content a s0) as [[va | e] s1]; [|reflexivity].
    unfold Eff.ret.
    destruct (embed_each embed_content b s1) as [[vb | e] s2]; reflexivity.
Qed.

(** The loop over the slices against one pass over their concatenation. *)
Lemma batch_loop_sequential (texts : list string) (B : Z) (indices : list Z) :
  forall acc s1 s2,
    similar s1 s2 ->
    fst (batch_loop embed_content texts B indices acc s1)
    = match fst (embed_each embed_content
                   (List.concat (slices_at texts B indices)) s2) with
      | Ok vs => Ok (acc ++ vs)
      | Raise e => Raise e
      end
    /\ similar (snd (batch_loop embed_content texts B indices acc s1))
               (snd (embed_each embed_content
                       (List.concat (slices_at texts B indices)) s2)).
Proof.
  induction indices as [|i rest IH]; intros acc s1 s2 Hsim.
  - cbn. rewrite app_nil_r. split; [reflexivity | exact Hsim].
  - rewrite batch_loop_step. cbv zeta.
    cbn [slices_at map List.concat]. fold (slices_at texts B rest).
    rewrite embed_each_app.
    set (batch := Py.slice texts i (i + B)).
    set (s1' := {| provider := provider s1; log := log s1 ++ [RunInExecutor batch] |}).
    assert (Hsim' : similar s1' s2) by (apply similar_logged; [reflexivity | exact Hsim]).
    destruct (embed_each_similar batch Hsim') as [Hr Hs].
    destruct (embed_each embed_content batch s1') as [[vs1 | e1] t1];
      destruct (embed_each embed_content batch s2) as [[vs2 | e2] t2];
      cbn [fst snd] in Hr, Hs; try discriminate.
    + inversion Hr; subst.
      set (t1' := {| provider := provider t1;
                     log := log t1 ++ [LogInfo (Generated (Py.len vs2) (i / B + 1)
                                                  ((Py.len texts + B - 1) / B))] |}).
      assert (Hsim2 : similar t1' t2) by (apply similar_logged; [reflexivity | exact Hs]).
      destruct (IH (acc ++ vs2) t1' t2 Hsim2) as [Hr2 Hs2].
      destruct (embed_each embed_content (List.concat (slices_at texts B rest)) t2)
        as [[vb | e] t3]; cbn [fst snd] in *.
      * rewrite Hr2, <- app_assoc. split; [reflexivity | exact Hs2].
      * rewrite Hr2. split; [reflexivity | exact Hs2].
    + inversion Hr; subst. cbn [fst snd]. split; [reflexivity | exact Hs].
Qed.

(** X1: with [1 <= B] the batch call returns what one pass over the
    texts, one provider call after the other, returns; it makes the same
    provider calls with the same outcomes and leaves the provider in the
    same state.  So the batch size changes the grouping and the progress
    log only. *)
Theorem generate_embeddings_batch_sequential (texts : list string) (B : Z) (s : state) :
  (1 <= B)%Z ->
  fst (generate_embeddings_batch embed_content texts B s)
  = fst (embed_each embed_content texts s)
  /\ provider (snd (generate_embeddings_batch embed_content texts B s))
     = provider (snd (embed_each embed_content texts s))
  /\ provider_calls (log (snd (generate_embeddings_batch embed_content texts B s)))
     = provider_calls (log (snd (embed_each embed_content texts s))).
Proof.
  intros HB. rewrite generate_embeddings_batch_run by exact HB. cbv zeta.
  destruct (slices_partition texts HB) as [Hcat _].
  set (indices := map (fun k => (0 + Z.of_nat k * B)%Z)
                      (seq 0 (n_batches (Py.len texts) B))) in *.
  fold (slices_at texts B indices) in Hcat.
  destruct (@batch_loop_sequential texts B indices [] s s (similar_refl s)) as [Hr [Hp Hc]].
  rewrite Hcat in Hr, Hp, Hc.
  destruct (batch_loop embed_content texts B indices [] s) as [[out | e] s1];
    destruct (embed_each embed_content texts s) as [[vs | e0] s0];
    cbn [fst snd app] in *; try discriminate.
  - inversion Hr; subst. cbn [log]. rewrite provider_calls_app, app_nil_r.
    repeat split; assumption.
  - inversion Hr; subst.
    destruct (is_Exception e0); cbn [fst snd provider log];
      rewrite ?provider_calls_app, ?app_nil_r; repeat split; assumption.
Qed.

(** X2: with a batch size below one no text is submitted to the
    provider, whatever the texts.  A batch size of zero is an error of the
    range, which the call logs and raises; with a negative batch size the
    range is empty, and the call returns the empty list and reports a total
    of zero. *)
Theorem generate_embeddings_batch_below_one (texts : list string) (B : Z) (s : state) :
  (B < 1)%Z ->
  generate_embeddings_batch embed_content texts B s
  = if (B =? 0)%Z
    then (Raise (Exception "range() arg 3 must not be zero"),
          {| provider := provider s;
             log := log s ++ [LogError (FailedEmbeddings
                                          (Exception "range() arg 3 must not be zero"))] |})
    else (Ok [], {| provider := provider s; log := log s ++ [LogInfo (Total 0)] |}).
Proof.
  intros HB. unfold generate_embeddings_batch, Eff.try_except, Eff.bind, Eff.lift, Py.range.
  destruct (Z.eqb_spec B 0) as [-> | Hnz]; [reflexivity|].
  replace (0 <? B)%Z with false by (symmetry; apply Z.ltb_ge; lia).
  replace (Py.len texts <? 0)%Z with false
    by (symmetry; apply Z.ltb_ge; unfold Py.len; lia).
  reflexivity.
Qed.

Lemma combine_map_self (A B : Type) (f : A -> B) (l : list A) :
  combine l (map f l) = map (fun x => (x, f x)) l.
Proof. induction l as [|x l IH]; cbn; [reflexivity | now rewrite IH]. Qed.

(** X3: a batch call with [1 <= B] that succeeds has emitted one progress
    signal per unit of work, in order: the k-th one (from 1) carries the
    size of the k-th unit, the number k, and the number of units
    ceil(N/B); the last event of the call is the total, N. *)
Theorem generate_embeddings_batch_progress (texts : list string) (B : Z)
    (s s' : state) (out : list vector) (evs : list event) :
  (1 <= B)%Z ->
  generate_embeddings_batch embed_content texts B s = (Ok out, s') ->
  log s' = log s ++ evs ->
  progress_signals evs
  = map (fun kb => (Py.len (snd kb), (Z.of_nat (fst kb) + 1)%Z,
                    ((Py.len texts + B - 1) / B)%Z))
        (combine (seq 0 (List.length (executor_units evs))) (executor_units evs))
  /\ exists evs0, evs = evs0 ++ [LogInfo (Total (Py.len texts))].
Proof.
  intros HB H Hlog. rewrite generate_embeddings_batch_run in H by exact HB. cbv zeta in H.
  destruct (batch_loop _ _ _ _ _ _) as [[out' | e] s1] eqn:Hloop;
    [| destruct (is_Exception e); discriminate].
  inversion H; subst. clear H.
  destruct (batch_loop_ok _ _ _ _ _ Hloop)
    as [evs1 [vs [Hlog1 [Hout [Hu [Hs [Ho [Hr [Hp He]]]]]]]]].
  destruct (slices_partition texts HB) as [Hcat _].
  set (n := n_batches (Py.len texts) B) in *.
  fold (slices_at texts B (map (fun k => (0 + Z.of_nat k * B)%Z) (seq 0 n))) in Hcat.
  rewrite Hcat in Hr. cbn [app] in Hout. subst out.
  assert (Hlen : Py.len vs = Py.len texts)
    by (unfold Py.len; now rewrite (Forall2_length Hr)).
  cbn [log] in Hlog. rewrite Hlog1, <- app_assoc in Hlog.
  apply app_inv_head in Hlog. subst evs.
  split; [| exists evs1; now rewrite Hlen].
  rewrite progress_signals_app, executor_units_app, !app_nil_r, Hp, Hu.
  unfold signals_at, slices_at. rewrite !map_map, length_map, length_seq.
  rewrite combine_map_self, map_map. apply map_ext. intros k. cbn [fst snd].
  f_equal. f_equal. rewrite Z.add_0_l, Z.div_mul by lia. reflexivity.
Qed.

(** X4: with [1 <= B], the batch call on a single text returns the
    one-element list of what [generate_embedding] returns for that text, or
    raises what it raises, and leaves the provider in the same state. *)
Theorem generate_embeddings_batch_single (text : string) (B : Z) (s : state) :
  (1 <= B)%Z ->
  fst (generate_embeddings_batch embed_content [text] B s)
  = match fst (generate_embedding embed_content text s) with
    | Ok v => Ok [v]
    | Raise e => Raise e
    end
  /\ provider (snd (generate_embeddings_batch embed_content [text] B s))
     = provider (snd (generate_embedding embed_content text s)).
Proof.
  intros HB. rewrite generate_embedding_run. cbv zeta.
  rewrite generate_embeddings_batch_run by exact HB. cbv zeta.
  destruct (slices_partition [text] HB) as [Hcat _].
  set (indices := map (fun k => (0 + Z.of_nat k * B)%Z)
                      (seq 0 (n_batches (Py.len [text]) B))) in *.
  fold (slices_at [text] B indices) in Hcat.
  destruct (@batch_loop_sequential [text] B indices [] s s (similar_refl s)) as [Hr [Hp _]].
  rewrite Hcat in Hr, Hp. cbn [embed_each] in Hr, Hp.
  unfold Eff.bind, call_embed_content, Eff.ret in Hr, Hp.
  destruct (embed_content text (provider s)) as [[v | e] w]; cbn [fst snd provider] in *.
  - destruct (batch_loop embed_content [text] B indices [] s) as [[out | e] s1];
      cbn [fst snd app] in *; [|discriminate].
    split; [exact Hr | exact Hp].
  - destruct (batch_loop embed_content [text] B indices [] s) as [[out | e0] s1];
      cbn [fst snd] in *; [discriminate|].
    inversion Hr; subst.
    destruct (is_Exception e); cbn [fst snd provider]; split; (reflexivity || exact Hp).
Qed.

End EmbeddingFacts.

(** ** The embedding service on a concrete provider *)

Lemma toy_provider_dim :
  forall t w v w', ToyProvider.embed_content t w = (Ok v, w') -> Py.len v = 768%Z.
Proof.
  intros t w v w' H. unfold ToyProvider.embed_content in H.
  destruct (String.eqb t "bad"); [discriminate|].
  injection H as Hv _. rewrite <- Hv.
  unfold Py.len, ToyProvider.answer. rewrite repeat_length. reflexivity.
Qed.

Lemma generate_embeddings_batch_ok_witness :
  exists evs,
    Embeddings.log (snd ToyProvider.abc_run) = evs
    /\ Embeddings.executor_units evs = [["a"; "b"]; ["c"]]%string
    /\ submitted evs = ToyProvider.abc
    /\ Py.len ToyProvider.abc_vectors = 3%Z.
Proof.
  assert (E : Embeddings.generate_embeddings_batch ToyProvider.embed_content
                ToyProvider.abc 2 ToyProvider.start
              = (Ok ToyProvider.abc_vectors, snd ToyProvider.abc_run))
    by (vm_compute; reflexivity).
  assert (HB : (1 <= 2)%Z) by lia.
  destruct (@generate_embeddings_batch_ok _ _ ToyProvider.embed_content toy_provider_dim
              _ _ _ _ _ HB E)
    as [evs [Hlog [_ [_ [_ [Hsub [_ [_ [_ [_ Hscenario]]]]]]]]]].
  destruct (Hscenario _ _ _ eq_refl eq_refl) as [Hunits Hlen].
  exists evs. repeat split; assumption.
Defined.

Lemma generate_embeddings_batch_all_or_nothing_witness :
  exists e vs,
    fst ToyProvider.failing_run = Raise e
    /\ outcomes (Embeddings.log (snd ToyProvider.failing_run)) = map Ok vs ++ [Raise e]
    /\ Embeddings.errors_logged (Embeddings.log (snd ToyProvider.failing_run))
       = [Embeddings.FailedEmbeddings e].
Proof.
  assert (E : Embeddings.generate_embeddings_batch ToyProvider.embed_content
                ["a"; "bad"; "c"]%string 2 ToyProvider.start
              = (fst ToyProvider.failing_run, snd ToyProvider.failing_run))
    by (vm_compute; reflexivity).
  assert (Hfail : exists t e,
             In (t, Raise e)
                (Embeddings.provider_calls (Embeddings.log (snd ToyProvider.failing_run))))
    by (exists "bad"%string, (Exception "quota exceeded"); vm_compute; right; left; reflexivity).
  destruct (@generate_embeddings_batch_all_or_nothing _ _ ToyProvider.embed_content
              _ _ _ _ _ _ E eq_refl Hfail)
    as [e [vs [t [post [Hr [Hout [_ [_ [Herr Hlast]]]]]]]]].
  exists e, vs. split; [exact Hr|]. split; [exact Hout|].
  assert (He : e = Exception "quota exceeded")
    by (vm_compute in Hr; inversion Hr; reflexivity).
  rewrite He in Herr. rewrite He. exact Herr.
Defined.

Lemma generate_embeddings_batch_empty_witness :
  exists evs,
    Embeddings.generate_embeddings_batch ToyProvider.embed_content [] 100 ToyProvider.start
    = (Ok [], {| Embeddings.provider := 0; Embeddings.log := evs |})
    /\ Embeddings.provider_calls evs = [].
Proof.
  assert (HB : (1 <= 100)%Z) by lia.
  destruct (@generate_embeddings_batch_empty _ _ ToyProvider.embed_content
              _ ToyProvider.start HB) as [evs [Hrun [Hcalls _]]].
  exists evs. split; [exact Hrun | exact Hcalls].
Defined.

(** With a provider whose [configure] takes any key, the constructor
    succeeds without a credential, and with one that is not a key. *)
Lemma init_without_credential :
  Embeddings.init ToyProvider.configure None ToyProvider.start
  = (Ok {| Embeddings.embedding_dim := 768 |},
     {| Embeddings.provider := 0;
        Embeddings.log := [Embeddings.LogInfo Embeddings.Initializing;
                           Embeddings.Configure None (Ok tt);
                           Embeddings.LogInfo (Embeddings.Initialized 768)] |})
  /\ fst (Embeddings.init ToyProvider.configure (Some "not a key"%string) ToyProvider.start)
     = Ok {| Embeddings.embedding_dim := 768 |}.
Proof. split; reflexivity. Qed.

(** * Facts about text *)

Arguments Py.isspace : simpl never.
Arguments Py.upper_char : simpl never.
Arguments Py.lower_char : simpl never.
Arguments Py.final_sigma : simpl never.

(** ** Whitespace and trimming *)

(** The whitespace of Unicode, by code point. *)
Definition whitespace (c : N) : Prop :=
  (9 <= c <= 13 \/ 28 <= c <= 32 \/ c = 133 \/ c = 160 \/ c = 5760
   \/ 8192 <= c <= 8202 \/ c = 8232 \/ c = 8233 \/ c = 8239 \/ c = 8287
   \/ c = 12288)%N.

(** [t] is [q] with the whitespace at both ends removed. *)
Definition trimmed (q t : Py.str) : Prop :=
  exists ws1 ws2,
    q = ws1 ++ t ++ ws2
    /\ Forall whitespace ws1 /\ Forall whitespace ws2
    /\ (forall c r, t = c :: r -> ~ whitespace c)
    /\ (forall r c, t = r ++ [c] -> ~ whitespace c).

Definition mem (c : N) (l : list N) : bool := existsb (N.eqb c) l.

Lemma mem_In (c : N) (l : list N) : mem c l = true <-> In c l.
Proof.
  unfold mem. rewrite existsb_exists. split.
  - intros [x [Hin Heq]]. apply N.eqb_eq in Heq. now subst.
  - intros H. exists c. split; [exact H | apply N.eqb_refl].
Qed.

Lemma isspace_whitespace (c : N) : Py.isspace c = true <-> whitespace c.
Proof.
  change (Py.isspace c) with (mem c Py.WHITESPACE). rewrite mem_In.
  unfold whitespace, Py.WHITESPACE. cbn [In]. lia.
Qed.

Lemma isspace_false (c : N) : Py.isspace c = false <-> ~ whitespace c.
Proof.
  rewrite <- isspace_whitespace. destruct (Py.isspace c); split; congruence.
Qed.

(** A text made of space characters only. *)
Fixpoint all_space (s : Py.str) : bool :=
  match s with
  | [] => true
  | c :: s' => Py.isspace c && all_space s'
  end.

Lemma all_space_Forall (ws : Py.str) : all_space ws = true <-> Forall whitespace ws.
Proof.
  induction ws as [|c ws IH]; cbn [all_space].
  - split; [constructor | reflexivity].
  - rewrite andb_true_iff, IH, isspace_whitespace. split.
    + intros [Hc Hws]. now constructor.
    + intros H. inversion H. now split.
Qed.

Lemma lstrip_all_space (ws s : Py.str) :
  all_space ws = true -> Py.lstrip (ws ++ s) = Py.lstrip s.
Proof.
  induction ws as [|c ws IH]; cbn; [reflexivity|].
  intros H. apply andb_true_iff in H. destruct H as [Hc Hws].
  rewrite Hc. exact (IH Hws).
Qed.

(** What [lstrip] returns does not start with a space. *)
Lemma lstrip_head (s : Py.str) :
  match Py.lstrip s with
  | [] => True
  | c :: _ => Py.isspace c = false
  end.
Proof.
  induction s as [|c s IH]; cbn; [exact I|].
  destruct (Py.isspace c) eqn:Hc; [exact IH | exact Hc].
Qed.

(** [lstrip] removes a prefix of spaces. *)
Lemma lstrip_split (s : Py.str) :
  exists ws, s = ws ++ Py.lstrip s /\ all_space ws = true.
Proof.
  induction s as [|c s [ws [Heq Hws]]]; [now exists []|].
  cbn [Py.lstrip]. destruct (Py.isspace c) eqn:Hc.
  - exists (c :: ws). cbn. rewrite Hc, Hws. split; [now f_equal | reflexivity].
  - now exists [].
Qed.

Lemma rstrip_cons (c : N) (s : Py.str) :
  Py.isspace c = false -> Py.rstrip (c :: s) = c :: Py.rstrip s.
Proof. intros H. cbn. rewrite H. destruct (Py.rstrip s); reflexivity. Qed.

(** The two ways [rstrip] treats the first character. *)
Lemma rstrip_cases (c : N) (s : Py.str) :
  Py.isspace c = true /\ Py.rstrip s = [] /\ Py.rstrip (c :: s) = []
  \/ Py.rstrip (c :: s) = c :: Py.rstrip s.
Proof.
  cbn. destruct (Py.rstrip s) as [|d t]; [|now right].
  destruct (Py.isspace c); [now left | now right].
Qed.

Lemma rstrip_idem (s : Py.str) : Py.rstrip (Py.rstrip s) = Py.rstrip s.
Proof.
  induction s as [|c s IH]; [reflexivity|].
  destruct (rstrip_cases c s) as [[_ [_ H]] | H]; rewrite H; [reflexivity|].
  destruct (rstrip_cases c (Py.rstrip s)) as [[Hc [Hr H']] | H'].
  - rewrite IH in Hr. rewrite Hr in *. cbn in H. rewrite Hr, Hc in H. discriminate.
  - rewrite H', IH. reflexivity.
Qed.

(** [rstrip] removes a suffix of spaces. *)
Lemma rstrip_split (s : Py.str) :
  exists ws, s = Py.rstrip s ++ ws /\ all_space ws = true.
Proof.
  induction s as [|c s [ws [Heq Hws]]]; [now exists []|].
  destruct (rstrip_cases c s) as [[Hc [Hr H]] | H]; rewrite H.
  - exists (c :: ws). rewrite Hr in Heq. cbn in *. rewrite Hc, Hws.
    split; [now f_equal | reflexivity].
  - exists ws. cbn. split; [now f_equal | exact Hws].
Qed.

(** What [rstrip] returns does not end with a space. *)
Lemma rstrip_last (s r : Py.str) (c : N) :
  Py.rstrip s = r ++ [c] -> Py.isspace c = false.
Proof.
  revert r. induction s as [|d s IH]; intros r H.
  - destruct r; discriminate.
  - destruct (rstrip_cases d s) as [[_ [_ H']] | H']; rewrite H' in H.
    + destruct r; discriminate.
    + destruct r as [|d' r]; cbn in H.
      * injection H as -> Hr. cbn in H'. rewrite Hr in H'.
        destruct (Py.isspace c); [discriminate | reflexivity].
      * injection H as _ Hr. exact (IH _ Hr).
Qed.

Lemma strip_idem (s : Py.str) : Py.strip (Py.strip s) = Py.strip s.
Proof.
  unfold Py.strip. pose proof (lstrip_head s) as Hh.
  destruct (Py.lstrip s) as [|c t]; [reflexivity|].
  rewrite rstrip_cons by exact Hh. cbn [Py.lstrip]. rewrite Hh.
  rewrite rstrip_cons by exact Hh. rewrite rstrip_idem. reflexivity.
Qed.

(** [strip] trims: it removes the whitespace at both ends and nothing
    else. *)
Lemma strip_trimmed (q : Py.str) : trimmed q (Py.strip q).
Proof.
  unfold trimmed, Py.strip.
  destruct (lstrip_split q) as [ws1 [H1 Hws1]].
  destruct (rstrip_split (Py.lstrip q)) as [ws2 [H2 Hws2]].
  exists ws1, ws2. repeat split.
  - rewrite <- H2. exact H1.
  - now apply all_space_Forall.
  - now apply all_space_Forall.
  - intros c r Hr. apply isspace_false.
    pose proof (lstrip_head q) as Hh.
    destruct (Py.lstrip q) as [|d t]; [discriminate|].
    rewrite rstrip_cons in Hr by exact Hh. now injection Hr as -> _.
  - intros r c Hr. apply isspace_false. exact (rstrip_last _ _ _ Hr).
Qed.


(** ** The case tables *)

Lemma eqb_eq (a b : Py.str) : Py.eqb a b = true <-> a = b.
Proof.
  revert b. induction a as [|x a IH]; intros [|y b]; cbn; try (split; congruence).
  rewrite andb_true_iff, N.eqb_eq, IH. split.
  - intros [-> ->]. reflexivity.
  - intros H. injection H as -> ->. now split.
Qed.

Lemma eqb_refl (a : Py.str) : Py.eqb a a = true.
Proof. now apply eqb_eq. Qed.

Lemma assoc_In (c : N) (table : list (N * list N)) (v : list N) :
  Py.assoc c table = Some v -> In (c, v) table.
Proof.
  induction table as [|[k w] table IH]; cbn; [discriminate|].
  destruct (N.eqb_spec c k) as [-> | _].
  - intros H. injection H as ->. now left.
  - intros H. right. exact (IH H).
Qed.

(** A property of the uppercase of every character, checked on the table
    and on the characters outside it. *)
Lemma upper_char_all (P : N -> Py.str -> bool) :
  forallb (fun kv => P (fst kv) (snd kv)) UnicodeData.UPPER = true ->
  (forall c, Py.assoc c UnicodeData.UPPER = None -> P c [c] = true) ->
  forall c, P c (Py.upper_char c) = true.
Proof.
  intros Htable Hother c. unfold Py.upper_char.
  destruct (Py.assoc c UnicodeData.UPPER) as [v|] eqn:Hc; [|exact (Hother c Hc)].
  rewrite forallb_forall in Htable. exact (Htable _ (assoc_In _ _ Hc)).
Qed.

Lemma lower_char_all (P : N -> Py.str -> bool) :
  forallb (fun kv => P (fst kv) (snd kv)) UnicodeData.LOWER = true ->
  (forall c, Py.assoc c UnicodeData.LOWER = None -> P c [c] = true) ->
  forall c, P c (Py.lower_char c) = true.
Proof.
  intros Htable Hother c. unfold Py.lower_char.
  destruct (Py.assoc c UnicodeData.LOWER) as [v|] eqn:Hc; [|exact (Hother c Hc)].
  rewrite forallb_forall in Htable. exact (Htable _ (assoc_In _ _ Hc)).
Qed.

(** A space is its own uppercase and lowercase. *)
Lemma upper_char_space (c : N) : Py.isspace c = true -> Py.upper_char c = [c].
Proof.
  intros H. apply mem_In in H.
  assert (Hall : forallb (fun k => Py.eqb (Py.upper_char k) [k]) Py.WHITESPACE = true)
    by (vm_compute; reflexivity).
  rewrite forallb_forall in Hall. exact (proj1 (eqb_eq _ _) (Hall c H)).
Qed.

Lemma lower_char_space (c : N) : Py.isspace c = true -> Py.lower_char c = [c].
Proof.
  intros H. apply mem_In in H.
  assert (Hall : forallb (fun k => Py.eqb (Py.lower_char k) [k]) Py.WHITESPACE = true)
    by (vm_compute; reflexivity).
  rewrite forallb_forall in Hall. exact (proj1 (eqb_eq _ _) (Hall c H)).
Qed.

Definition starts_unspaced (u : Py.str) : bool :=
  match u with
  | [] => false
  | h :: _ => negb (Py.isspace h)
  end.

(** The uppercase and the lowercase of a character that is no space are
    not empty and do not start with a space. *)
Lemma upper_char_unspaced (c : N) :
  Py.isspace c = false -> starts_unspaced (Py.upper_char c) = true.
Proof.
  intros Hc.
  assert (H : Py.isspace c || starts_unspaced (Py.upper_char c) = true).
  { apply (upper_char_all (fun c u => Py.isspace c || starts_unspaced u));
      [vm_compute; reflexivity|].
    intros k _. cbn. destruct (Py.isspace k); reflexivity. }
  rewrite Hc in H. exact H.
Qed.

Lemma lower_char_unspaced (c : N) :
  Py.isspace c = false -> starts_unspaced (Py.lower_char c) = true.
Proof.
  intros Hc.
  assert (H : Py.isspace c || starts_unspaced (Py.lower_char c) = true).
  { apply (lower_char_all (fun c u => Py.isspace c || starts_unspaced u));
      [vm_compute; reflexivity|].
    intros k _. cbn. destruct (Py.isspace k); reflexivity. }
  rewrite Hc in H. exact H.
Qed.

Lemma lstrip_unspaced (u r : Py.str) :
  starts_unspaced u = true -> Py.lstrip (u ++ r) = u ++ r.
Proof.
  destruct u as [|h u]; [discriminate|]. cbn. intros H.
  apply negb_true_iff in H. now rewrite H.
Qed.

(** ** Uppercase *)

Lemma upper_app (a b : Py.str) : Py.upper (a ++ b) = Py.upper a ++ Py.upper b.
Proof. apply flat_map_app. Qed.

Lemma upper_cons (c : N) (s : Py.str) : Py.upper (c :: s) = Py.upper_char c ++ Py.upper s.
Proof. reflexivity. Qed.

(** Uppercase text is its own uppercase. *)
Lemma upper_char_idem (c : N) : Py.upper (Py.upper_char c) = Py.upper_char c.
Proof.
  apply eqb_eq.
  apply (upper_char_all (fun _ u => Py.eqb (Py.upper u) u)); [vm_compute; reflexivity|].
  intros k Hk. unfold Py.upper. cbn [flat_map]. unfold Py.upper_char. rewrite Hk.
  apply eqb_refl.
Qed.

Lemma upper_idem (s : Py.str) : Py.upper (Py.upper s) = Py.upper s.
Proof.
  induction s as [|c s IH]; [reflexivity|].
  now rewrite upper_cons, upper_app, upper_char_idem, IH.
Qed.

Lemma upper_lstrip (s : Py.str) : Py.upper (Py.lstrip s) = Py.lstrip (Py.upper s).
Proof.
  induction s as [|c s IH]; [reflexivity|].
  rewrite upper_cons. cbn [Py.lstrip]. destruct (Py.isspace c) eqn:Hc.
  - rewrite (upper_char_space _ Hc). cbn [app Py.lstrip]. now rewrite Hc.
  - rewrite upper_cons, lstrip_unspaced; [reflexivity | now apply upper_char_unspaced].
Qed.


(** ** Texts that start with a word, letter by letter *)

(** [s] starts with one character of each of [sets], in order. *)
Fixpoint matches (sets : list (list N)) (s : Py.str) : bool :=
  match sets, s with
  | [], _ => true
  | _ :: _, [] => false
  | P :: sets', c :: s' => mem c P && matches sets' s'
  end.

Lemma matches_nil (s : Py.str) : matches [] s = true.
Proof. destruct s; reflexivity. Qed.

Lemma startswith_nil (s : Py.str) : Py.startswith s [] = true.
Proof. destruct s; reflexivity. Qed.

(** The characters that give the letter [X] of a word: [P] lists the
    characters whose uppercase is [X], or starts with [X] when [X] is the
    last letter; [next] is the letter after [X].  The check on one
    character [c] with uppercase [u]. *)
Definition step_check (X : N) (next : option N) (P : list N) (c : N) (u : Py.str) : bool :=
  match u with
  | [] => false
  | h :: u' =>
      if N.eqb h X then
        match u', next with
        | [], _ => mem c P
        | _ :: _, None => mem c P
        | h' :: _, Some Y => negb (N.eqb h' Y) && negb (mem c P)
        end
      else negb (mem c P)
  end.

Definition set_check (X : N) (P : list N) : bool :=
  mem X P
  && forallb (fun k => N.eqb k X
                       || match Py.assoc k UnicodeData.UPPER with
                          | Some _ => true
                          | None => false
                          end) P.

Definition letter_check (X : N) (next : option N) (P : list N) : bool :=
  set_check X P
  && forallb (fun kv => step_check X next P (fst kv) (snd kv)) UnicodeData.UPPER.

Fixpoint word_check (word : list (N * list N)) : bool :=
  match word with
  | [] => true
  | (X, P) :: rest => letter_check X (hd_error (map fst rest)) P && word_check rest
  end.

Lemma step_check_upper_char (X : N) (next : option N) (P : list N) (c : N) :
  letter_check X next P = true -> step_check X next P c (Py.upper_char c) = true.
Proof.
  unfold letter_check, set_check. rewrite !andb_true_iff. intros [[HX HP] Htable].
  apply upper_char_all; [exact Htable|].
  clear c. intros c Hc. cbn. destruct (N.eqb_spec c X) as [-> | Hne]; [exact HX|].
  apply negb_true_iff. destruct (mem c P) eqn:Hmem; [|reflexivity].
  apply mem_In in Hmem. rewrite forallb_forall in HP. specialize (HP c Hmem).
  rewrite Hc, orb_false_r in HP. apply N.eqb_eq in HP. contradiction.
Qed.

Lemma startswith_step (X : N) (p : Py.str) (P : list N) (c : N) (r : Py.str) :
  letter_check X (hd_error p) P = true ->
  Py.startswith (Py.upper_char c ++ r) (X :: p) = mem c P && Py.startswith r p.
Proof.
  intros H. pose proof (@step_check_upper_char _ _ _ c H) as Hs.
  unfold step_check in Hs.
  destruct (Py.upper_char c) as [|h u]; [discriminate|].
  cbn [app Py.startswith]. destruct (N.eqb h X); cbn [andb].
  - destruct u as [|h' u].
    + rewrite Hs. reflexivity.
    + destruct p as [|Y p]; cbn [hd_error] in Hs.
      * rewrite Hs, !startswith_nil. reflexivity.
      * apply andb_true_iff in Hs. destruct Hs as [HY Hmem].
        apply negb_true_iff in HY, Hmem. cbn [app Py.startswith]. now rewrite HY, Hmem.
  - apply negb_true_iff in Hs. now rewrite Hs.
Qed.

(** The uppercase of a text starts with a word iff the text starts with
    characters that give the letters of the word. *)
Lemma startswith_upper (word : list (N * list N)) :
  word_check word = true ->
  forall s, Py.startswith (Py.upper s) (map fst word) = matches (map snd word) s.
Proof.
  induction word as [|[X P] word IH]; intros Hw s.
  - cbn [map]. rewrite startswith_nil. symmetry. apply matches_nil.
  - cbn [word_check] in Hw. apply andb_true_iff in Hw. destruct Hw as [HX Hw].
    cbn [map fst snd]. destruct s as [|c s]; [reflexivity|].
    rewrite upper_cons, (@startswith_step _ _ _ _ _ HX). cbn [matches].
    now rewrite (IH Hw).
Qed.

(** The characters whose uppercase gives each letter of SELECT: the
    letter, its small form, and the long s and the t with diaeresis. *)
Definition SELECT_WORD : list (N * list N) :=
  [(83, [83; 115; 383]); (69, [69; 101]); (76, [76; 108]);
   (69, [69; 101]); (67, [67; 99]); (84, [84; 116; 7831])]%N.

Definition SELECT_SETS : list (list N) := map snd SELECT_WORD.

Lemma startswith_upper_select (s : Py.str) :
  Py.startswith (Py.upper s) (Py.lit "SELECT") = matches SELECT_SETS s.
Proof. apply (startswith_upper SELECT_WORD). vm_compute. reflexivity. Qed.

(** No character of [sets] is a space. *)
Definition unspaced (sets : list (list N)) : bool :=
  forallb (forallb (fun c => negb (Py.isspace c))) sets.

Lemma mem_unspaced (c : N) (P : list N) :
  forallb (fun c => negb (Py.isspace c)) P = true -> mem c P = true ->
  Py.isspace c = false.
Proof.
  intros HP Hc. apply mem_In in Hc. rewrite forallb_forall in HP.
  apply negb_true_iff. exact (HP c Hc).
Qed.

Lemma matches_rstrip (sets : list (list N)) (s : Py.str) :
  unspaced sets = true -> matches sets (Py.rstrip s) = matches sets s.
Proof.
  revert sets. induction s as [|c s IH]; intros [|P sets] Hs; try reflexivity.
  cbn [unspaced forallb] in Hs. apply andb_true_iff in Hs. destruct Hs as [HP Hs].
  destruct (rstrip_cases c s) as [[Hc [_ H]] | H]; rewrite H; cbn [matches].
  - destruct (mem c P) eqn:Hmem; [|reflexivity].
    rewrite (mem_unspaced _ _ HP Hmem) in Hc. discriminate.
  - now rewrite (IH sets Hs).
Qed.

Lemma matches_lstrip (P : list N) (sets : list (list N)) (s : Py.str) :
  unspaced (P :: sets) = true -> matches (P :: sets) s = true -> Py.lstrip s = s.
Proof.
  intros Hs Hm. destruct s as [|c s]; [reflexivity|].
  cbn [unspaced forallb] in Hs. apply andb_true_iff in Hs. destruct Hs as [HP _].
  cbn [matches] in Hm. apply andb_true_iff in Hm. destruct Hm as [Hc _].
  cbn [Py.lstrip]. now rewrite (mem_unspaced _ _ HP Hc).
Qed.

Lemma select_sets_unspaced : unspaced SELECT_SETS = true.
Proof. vm_compute. reflexivity. Qed.

(** The test on the query text looks at the first six characters after
    the leading whitespace. *)
Lemma is_select_matches (q : Py.str) :
  Session.is_select q = matches SELECT_SETS (Py.lstrip q).
Proof.
  unfold Session.is_select, Py.strip.
  rewrite startswith_upper_select. apply matches_rstrip, select_sets_unspaced.
Qed.

(** A text that begins, after any whitespace, with the letters of SELECT
    in either case; the long s stands for an S, and the t with diaeresis
    for a T, as their uppercase has it. *)
Definition select_prefixed (q : Py.str) : Prop :=
  exists ws c1 c2 c3 c4 c5 c6 rest,
    q = ws ++ [c1; c2; c3; c4; c5; c6] ++ rest
    /\ Forall whitespace ws
    /\ In c1 [83; 115; 383]%N
    /\ In c2 [69; 101]%N
    /\ In c3 [76; 108]%N
    /\ In c4 [69; 101]%N
    /\ In c5 [67; 99]%N
    /\ In c6 [84; 116; 7831]%N.

Lemma is_select_prefixed (q : Py.str) :
  Session.is_select q = true <-> select_prefixed q.
Proof.
  rewrite is_select_matches. split.
  - intros H. destruct (lstrip_split q) as [ws [Hq Hws]].
    destruct (Py.lstrip q) as [|c1 [|c2 [|c3 [|c4 [|c5 [|c6 rest]]]]]];
      cbn [matches SELECT_SETS SELECT_WORD map snd] in H;
      rewrite ?andb_true_iff, ?andb_false_r in H; try (intuition discriminate).
    destruct H as [H1 [H2 [H3 [H4 [H5 [H6 _]]]]]].
    exists ws, c1, c2, c3, c4, c5, c6, rest.
    apply all_space_Forall in Hws. rewrite <- !mem_In. repeat split; assumption.
  - intros [ws [c1 [c2 [c3 [c4 [c5 [c6 [rest H]]]]]]]].
    destruct H as [-> [Hws [H1 [H2 [H3 [H4 [H5 H6]]]]]]].
    apply all_space_Forall in Hws. rewrite (lstrip_all_space _ _ Hws).
    apply mem_In in H1, H2, H3, H4, H5, H6.
    assert (Hm : matches SELECT_SETS ([c1; c2; c3; c4; c5; c6] ++ rest) = true).
    { cbn [matches SELECT_SETS SELECT_WORD map snd app].
      rewrite H1, H2, H3, H4, H5, H6. reflexivity. }
    rewrite (matches_lstrip _ _ _ select_sets_unspaced Hm). exact Hm.
Qed.

(** ** Lowercase *)

Lemma lower_from_cons (b : Py.str) (c : N) (s : Py.str) :
  Py.lower_from b (c :: s)
  = (if N.eqb c Py.CAPITAL_SIGMA
     then [if Py.final_sigma b s then Py.SMALL_FINAL_SIGMA else Py.SMALL_SIGMA]
     else Py.lower_char c) ++ Py.lower_from (c :: b) s.
Proof. reflexivity. Qed.

(** Lowercasing keeps the leading whitespace as it is. *)
Lemma lower_from_lstrip (s b : Py.str) :
  exists b', Py.lstrip (Py.lower_from b s) = Py.lower_from b' (Py.lstrip s).
Proof.
  revert b. induction s as [|c s IH]; intros b; [now exists b|].
  cbn [Py.lstrip]. destruct (Py.isspace c) eqn:Hc.
  - destruct (IH (c :: b)) as [b' Hb']. exists b'.
    rewrite lower_from_cons, (lower_char_space _ Hc).
    destruct (N.eqb_spec c Py.CAPITAL_SIGMA) as [-> | _]; [discriminate|].
    cbn [app Py.lstrip]. rewrite Hc. exact Hb'.
  - exists b. rewrite lower_from_cons. apply lstrip_unspaced.
    destruct (N.eqb c Py.CAPITAL_SIGMA); [|now apply lower_char_unspaced].
    destruct (Py.final_sigma b s); reflexivity.
Qed.

(** The check that lowercasing moves no character into or out of the
    set [P]: on one character [c] with lowercase [u]. *)
Definition lower_step_check (P : list N) (c : N) (u : Py.str) : bool :=
  match u with
  | [] => false
  | [h] => Bool.eqb (mem h P) (mem c P)
  | h :: _ => negb (mem h P) && negb (mem c P)
  end.

Definition lower_check (P : list N) : bool :=
  forallb (fun kv => lower_step_check P (fst kv) (snd kv)) UnicodeData.LOWER
  && negb (mem Py.CAPITAL_SIGMA P)
  && negb (mem Py.SMALL_FINAL_SIGMA P)
  && negb (mem Py.SMALL_SIGMA P).

Lemma matches_lower (sets : list (list N)) (s b : Py.str) :
  forallb lower_check sets = true ->
  matches sets (Py.lower_from b s) = matches sets s.
Proof.
  revert sets b. induction s as [|c s IH]; intros [|P sets] b Hs; try reflexivity.
  cbn [forallb] in Hs. apply andb_true_iff in Hs. destruct Hs as [HP Hs].
  unfold lower_check in HP. rewrite !andb_true_iff, !negb_true_iff in HP.
  destruct HP as [[[Htable Hcap] Hfinal] Hsmall].
  rewrite lower_from_cons. destruct (N.eqb_spec c Py.CAPITAL_SIGMA) as [-> | _].
  - cbn [app matches]. rewrite Hcap.
    destruct (Py.final_sigma b s); [rewrite Hfinal | rewrite Hsmall]; reflexivity.
  - assert (Hc : lower_step_check P c (Py.lower_char c) = true).
    { apply lower_char_all; [exact Htable|].
      intros k _. cbn. apply Bool.eqb_reflx. }
    unfold lower_step_check in Hc.
    destruct (Py.lower_char c) as [|h [|h' u]]; [discriminate | |].
    + apply Bool.eqb_prop in Hc. cbn [app matches]. now rewrite Hc, (IH sets (c :: b) Hs).
    + apply andb_true_iff in Hc. destruct Hc as [Hh Hc].
      apply negb_true_iff in Hh, Hc. cbn [app matches]. now rewrite Hh, Hc.
Qed.

Lemma select_sets_lower : forallb lower_check SELECT_SETS = true.
Proof. vm_compute. reflexivity. Qed.

(** ** The test on the query text *)

(** X13: the test that picks the read path does not depend on the case
    of the letters nor on the space around the text. *)
Theorem is_select_insensitive (query : Py.str) :
  Session.is_select (Py.upper query) = Session.is_select query
  /\ Session.is_select (Py.lower query) = Session.is_select query
  /\ Session.is_select (Py.strip query) = Session.is_select query.
Proof.
  repeat split.
  - rewrite !is_select_matches, <- upper_lstrip, <- !startswith_upper_select.
    now rewrite upper_idem.
  - rewrite !is_select_matches. unfold Py.lower.
    destruct (lower_from_lstrip query []) as [b ->].
    apply matches_lower, select_sets_lower.
  - unfold Session.is_select. now rewrite strip_idem.
Qed.

(** X14: a text that starts, after any leading space, with the word
    SELECT in any case goes to the read path, whatever follows the word:
    further statements after it do not change the path. *)
Theorem is_select_prefix (ws word rest : Py.str) :
  all_space ws = true ->
  Py.upper word = Py.lit "SELECT" ->
  Session.is_select (ws ++ word ++ rest) = true.
Proof.
  intros Hws Hword. rewrite is_select_matches, (lstrip_all_space _ _ Hws).
  assert (Hm : matches SELECT_SETS (word ++ rest) = true).
  { rewrite <- startswith_upper_select, upper_app, Hword.
    cbn. apply startswith_nil. }
  rewrite (matches_lstrip _ _ _ select_sets_unspaced Hm). exact Hm.
Qed.

(** * Facts about the database command line *)

Section SessionFacts.

Import Session.

Variable connection : Type.
Variable value : Type.
Variable world : Type.
Variable asyncpg_connect : Py.str -> world -> result connection * world.
Variable close : connection -> world -> result unit * world.
Variable fetch : connection -> Py.str -> world -> result (list (row value)) * world.
Variable execute : connection -> Py.str -> world -> result string * world.
Variable is_closed : connection -> world -> bool.

Local Abbreviation state := (Session.state connection value world).
Local Abbreviation output := (Session.output value).
Local Abbreviation call := (Session.call connection).

(** [s] after more driver calls and more output, the object untouched. *)
Definition after (s : state) (w : world) (cs : list call) (os : list output) : state :=
  {| self := self s; db := w; stdout := stdout s ++ os; calls := calls s ++ cs |}.

Lemma after_after (s : state) w cs os w' cs' os' :
  after (after s w cs os) w' cs' os' = after s w' (cs ++ cs') (os ++ os').
Proof. unfold after. cbn. now rewrite <- !app_assoc. Qed.

Lemma after_nothing (s : state) : after s (db s) [] [] = s.
Proof. destruct s. unfold after. cbn. now rewrite !app_nil_r. Qed.

Lemma print_run (o : output) (s : state) :
  print o s = (Ok tt, after s (db s) [] [o]).
Proof. unfold print, Eff.modify, after. now rewrite app_nil_r. Qed.

Lemma driver_run (A : Type) (c : call) (f : world -> result A * world) (s : state) :
  driver c f s = (fst (f (db s)), after s (snd (f (db s))) [c] []).
Proof.
  unfold driver, after. destruct (f (db s)) as [r w]. cbn. now rewrite app_nil_r.
Qed.

Lemma print_rows_run (rows : list (row value)) (s : state) :
  print_rows rows s = (Ok tt, after s (db s) [] (map (@RowLine value) rows)).
Proof.
  revert s. induction rows as [|r rows IH]; intros s.
  - cbn. now rewrite after_nothing.
  - cbn [print_rows]. unfold Eff.bind. rewrite print_run, IH, after_after. reflexivity.
Qed.

(** What the read path prints for the rows it fetched. *)
Definition report (rows : list (row value)) : list output :=
  match rows with
  | [] => [QueryReturnedZero]
  | _ :: _ => QueryReturnedRows (Py.len rows) :: map (@RowLine value) rows
  end.

(** What [execute_query] does with an exception of the driver. *)
Definition failed (s : state) (w : world) (c : call) (e : exn) : result unit * state :=
  if is_Exception e
  then (Ok tt, after s w [c] [QueryFailed e])
  else (Raise e, after s w [c] []).

Local Abbreviation connect := (Session.connect (value := value) asyncpg_connect).
Local Abbreviation disconnect := (Session.disconnect (value := value) close).
Local Abbreviation execute_query := (Session.execute_query fetch execute).
Local Abbreviation state_of := (Session.state_of is_closed).

(** [execute_query] with a stored handle: the path taken and what each
    outcome of the driver call leads to. *)
Lemma execute_query_connected (query : Py.str) (c : connection) (s : state) :
  conn (self s) = Some c ->
  execute_query query s
  = (if is_select query
     then match fetch c query (db s) with
          | (Ok rows, w) => (Ok tt, after s w [CallFetch c query] (report rows))
          | (Raise e, w) => failed s w (CallFetch c query) e
          end
     else match execute c query (db s) with
          | (Ok status, w) =>
              (Ok tt, after s w [CallExecute c query] [QueryExecuted status])
          | (Raise e, w) => failed s w (CallExecute c query) e
          end).
Proof.
  intros Hc. unfold Session.execute_query. rewrite Hc.
  unfold Eff.try_except, failed.
  destruct (is_select query).
  - unfold Eff.bind. rewrite driver_run.
    destruct (fetch c query (db s)) as [[rows | e] w]; cbn [fst snd].
    + destruct rows as [|r rows].
      * rewrite print_run, after_after. reflexivity.
      * unfold Eff.bind. rewrite print_run, print_rows_run, !after_after. reflexivity.
    + destruct (is_Exception e); [|reflexivity].
      rewrite print_run, after_after. reflexivity.
  - unfold Eff.bind. rewrite driver_run.
    destruct (execute c query (db s)) as [[status | e] w]; cbn [fst snd].
    + rewrite print_run, after_after. reflexivity.
    + destruct (is_Exception e); [|reflexivity].
      rewrite print_run, after_after. reflexivity.
Qed.

(** C2: on a session that stores a handle, a query whose text, trimmed
    and uppercased, starts with SELECT goes to [fetch]: all rows are
    fetched, and the count and every row are printed, or the line for zero
    rows, which is no failure; every other text, the empty one and the
    blank ones among them, goes to [execute], and the status the driver
    returned is printed as it is.  The driver receives the query text
    unchanged, and only the one call of the chosen path is made.

    The trimming is the removal of the Unicode whitespace at both ends of
    the text, and of nothing else.  The texts that go to [fetch] are the
    ones that begin, after any whitespace, with the six letters of SELECT,
    each in either case, where the long s counts as an S and the t with
    diaeresis as a T. *)
Theorem execute_query_dispatch (query : Py.str) (c : connection) (s : state) :
  conn (self s) = Some c ->
  execute_query query s
  = (if Py.startswith (Py.upper (Py.strip query)) (Py.lit "SELECT")
     then match fetch c query (db s) with
          | (Ok rows, w) => (Ok tt, after s w [CallFetch c query] (report rows))
          | (Raise e, w) => failed s w (CallFetch c query) e
          end
     else match execute c query (db s) with
          | (Ok status, w) =>
              (Ok tt, after s w [CallExecute c query] [QueryExecuted status])
          | (Raise e, w) => failed s w (CallExecute c query) e
          end)
  /\ report [] = [QueryReturnedZero]
  /\ (Py.strip query = [] ->
      Py.startswith (Py.upper (Py.strip query)) (Py.lit "SELECT") = false)
  /\ trimmed query (Py.strip query)
  /\ (Py.startswith (Py.upper (Py.strip query)) (Py.lit "SELECT") = true
      <-> select_prefixed query).
Proof.
  intros Hc. split; [exact (execute_query_connected query s Hc)|].
  split; [reflexivity|]. split; [intros ->; reflexivity|].
  split; [apply strip_trimmed | apply is_select_prefixed].
Qed.

Lemma execute_query_not_connected (query : Py.str) (s : state) :
  conn (self s) = None ->
  execute_query query s = (Ok tt, after s (db s) [] [NotConnected]).
Proof.
  intros Hc. unfold Session.execute_query. rewrite Hc.
  unfold Eff.bind. rewrite print_run. reflexivity.
Qed.

(** [execute_query] lets through no exception of the [Exception] class. *)
Lemma execute_query_raises_only_base (query : Py.str) (s s' : state) (e : exn) :
  execute_query query s = (Raise e, s') -> is_Exception e = false.
Proof.
  destruct (conn (self s)) as [c|] eqn:Hc.
  - rewrite (execute_query_connected query s Hc). unfold failed.
    destruct (is_select query).
    + destruct (fetch c query (db s)) as [[rows | e'] w]; [discriminate|].
      destruct (is_Exception e') eqn:He; [discriminate|].
      intros H; inversion H; subst; exact He.
    + destruct (execute c query (db s)) as [[st | e'] w]; [discriminate|].
      destruct (is_Exception e') eqn:He; [discriminate|].
      intros H; inversion H; subst; exact He.
  - rewrite execute_query_not_connected by exact Hc. discriminate.
Qed.

(** [connect] without a usable address. *)
Lemma connect_no_url (s : state) :
  Py.truthy_opt (db_url (self s)) = false ->
  connect s = (Ok false, after s (db s) [] [NoDatabaseUrl]).
Proof.
  intros H. unfold Session.connect.
  destruct (db_url (self s)) as [url|]; cbn in H.
  - rewrite H. unfold Eff.bind. rewrite print_run. reflexivity.
  - unfold Eff.bind. rewrite print_run. reflexivity.
Qed.

(** [connect] with an address: the attempt and its three outcomes. *)
Lemma connect_attempt (s : state) (url : Py.str) :
  db_url (self s) = Some url -> Py.truthy url = true ->
  connect s =
  match asyncpg_connect url (db s) with
  | (Ok c, w) =>
      (Ok true, {| self := {| db_url := Some url; conn := Some c |};
                   db := w;
                   stdout := stdout s ++ [ConnectedMsg];
                   calls := calls s ++ [CallConnect url] |})
  | (Raise e, w) =>
      if is_Exception e
      then (Ok false, after s w [CallConnect url] [ConnectionFailed e])
      else (Raise e, after s w [CallConnect url] [])
  end.
Proof.
  intros Hurl Ht. unfold Session.connect. rewrite Hurl, Ht.
  unfold Eff.try_except, Eff.bind. rewrite driver_run.
  destruct (asyncpg_connect url (db s)) as [[c | e] w]; cbn [fst snd].
  - unfold set_conn, print, Eff.modify, Eff.ret, after. cbn. rewrite Hurl, app_nil_r.
    reflexivity.
  - destruct (is_Exception e); [|reflexivity].
    rewrite print_run, after_after. reflexivity.
Qed.

(** C7: [connect] returns false, raising nothing, when the address is
    absent or empty (no call is made) and when the connect attempt raises
    an error; the stored handle is then what it was, so a session that
    stored none still stores none and is Disconnected.  When the attempt
    succeeds, [connect] stores the handle it got and returns true. *)
Theorem connect_contract (s : state) :
  (Py.truthy_opt (db_url (self s)) = false ->
   exists s', connect s = (Ok false, s')
              /\ conn (self s') = conn (self s) /\ calls s' = calls s
              /\ (conn (self s) = None -> state_of s' = Disconnected))
  /\ (forall url m w,
       db_url (self s) = Some url -> Py.truthy url = true ->
       asyncpg_connect url (db s) = (Raise (Exception m), w) ->
       exists s', connect s = (Ok false, s')
                  /\ conn (self s') = conn (self s)
                  /\ (conn (self s) = None -> state_of s' = Disconnected))
  /\ (forall url c w,
       db_url (self s) = Some url -> Py.truthy url = true ->
       asyncpg_connect url (db s) = (Ok c, w) ->
       exists s', connect s = (Ok true, s')
                  /\ conn (self s') = Some c /\ db s' = w).
Proof.
  split; [| split].
  - intros H. rewrite connect_no_url by exact H. eexists. split; [reflexivity|].
    cbn. rewrite app_nil_r. repeat split.
    intros Hc. unfold Session.state_of. cbn. now rewrite Hc.
  - intros url m w Hurl Ht Hcall. rewrite (connect_attempt s Hurl Ht), Hcall. cbn.
    eexists. split; [reflexivity|]. cbn. split; [reflexivity|].
    intros Hc. unfold Session.state_of. cbn. now rewrite Hc.
  - intros url c w Hurl Ht Hcall. rewrite (connect_attempt s Hurl Ht), Hcall.
    eexists. split; [reflexivity|]. split; reflexivity.
Qed.

(** [disconnect] with and without a stored handle. *)
Lemma disconnect_none (s : state) :
  conn (self s) = None -> disconnect s = (Ok tt, s).
Proof. intros Hc. unfold Session.disconnect. now rewrite Hc. Qed.

Lemma disconnect_some (s : state) (c : connection) :
  conn (self s) = Some c ->
  disconnect s =
  match close c (db s) with
  | (Ok _, w) => (Ok tt, after s w [CallClose c] [DisconnectedMsg])
  | (Raise e, w) => (Raise e, after s w [CallClose c] [])
  end.
Proof.
  intros Hc. unfold Session.disconnect. rewrite Hc.
  unfold Eff.bind. rewrite driver_run.
  destruct (close c (db s)) as [[u | e] w]; cbn [fst snd]; [|reflexivity].
  rewrite print_run, after_after. reflexivity.
Qed.

(** *** Code that leaves the object alone and closes nothing *)

(** [s'] is [s] after some output and some driver calls, none of them a
    close. *)
Definition steps (s s' : state) : Prop :=
  exists w cs os, s' = after s w cs os /\ close_calls cs = [].

Definition quiet {A} (m : Eff.M state A) : Prop :=
  forall s r s', m s = (r, s') -> steps s s'.

Lemma steps_refl (s : state) : steps s s.
Proof. exists (db s), [], []. split; [symmetry; apply after_nothing | reflexivity]. Qed.

Lemma steps_trans (s1 s2 s3 : state) : steps s1 s2 -> steps s2 s3 -> steps s1 s3.
Proof.
  intros [w [cs [os [-> Hc]]]] [w' [cs' [os' [-> Hc']]]].
  exists w', (cs ++ cs'), (os ++ os'). split; [apply after_after|].
  unfold close_calls in *. now rewrite flat_map_app, Hc, Hc'.
Qed.

Lemma steps_self (s s' : state) : steps s s' -> self s' = self s.
Proof. intros [w [cs [os [-> _]]]]. reflexivity. Qed.

Lemma steps_calls (s s' : state) :
  steps s s' -> exists cs, calls s' = calls s ++ cs /\ close_calls cs = [].
Proof. intros [w [cs [os [-> Hc]]]]. exists cs. split; [reflexivity | exact Hc]. Qed.

Lemma quiet_ret (A : Type) (a : A) : quiet (Eff.ret a).
Proof. intros s r s' H. inversion H; subst. apply steps_refl. Qed.

Lemma quiet_raise (A : Type) (e : exn) : quiet (@Eff.raise state A e).
Proof. intros s r s' H. inversion H; subst. apply steps_refl. Qed.

Lemma quiet_lift (A : Type) (x : result A) : quiet (@Eff.lift state A x).
Proof. intros s r s' H. inversion H; subst. apply steps_refl. Qed.

Lemma quiet_print (o : output) : quiet (print o).
Proof.
  intros s r s' H. rewrite print_run in H. inversion H; subst.
  exists (db s), [], [o]. split; reflexivity.
Qed.

Lemma quiet_bind (A B : Type) (m : Eff.M state A) (k : A -> Eff.M state B) :
  quiet m -> (forall a, quiet (k a)) -> quiet (Eff.bind m k).
Proof.
  intros Hm Hk s r s' H. unfold Eff.bind in H.
  destruct (m s) as [[a | e] s1] eqn:Hrun.
  - eapply steps_trans; [eapply Hm; exact Hrun | eapply Hk; exact H].
  - inversion H; subst. eapply Hm; exact Hrun.
Qed.

Lemma quiet_try_except (A : Type) (m : Eff.M state A) (h : exn -> Eff.M state A) :
  quiet m -> (forall e, quiet (h e)) -> quiet (Eff.try_except m h).
Proof.
  intros Hm Hh s r s' H. unfold Eff.try_except in H.
  destruct (m s) as [[a | e] s1] eqn:Hrun.
  - inversion H; subst. eapply Hm; exact Hrun.
  - destruct (is_Exception e).
    + eapply steps_trans; [eapply Hm; exact Hrun | eapply Hh; exact H].
    + inversion H; subst. eapply Hm; exact Hrun.
Qed.

Lemma quiet_driver (A : Type) (c : call) (f : world -> result A * world) :
  close_calls [c] = [] -> quiet (driver (value := value) c f).
Proof.
  intros Hc s r s' H. rewrite driver_run in H. inversion H; subst.
  exists (snd (f (db s))), [c], []. split; [reflexivity | exact Hc].
Qed.

Lemma quiet_print_rows (rows : list (row value)) :
  quiet (print_rows (connection := connection) (world := world) rows).
Proof.
  intros s r s' H. rewrite print_rows_run in H. inversion H; subst.
  eexists _, [], _. split; reflexivity.
Qed.

Lemma quiet_execute_query (query : Py.str) : quiet (execute_query query).
Proof.
  intros s r s' H. unfold Session.execute_query in H.
  destruct (conn (self s)) as [c|].
  - revert s r s' H. apply quiet_try_except.
    + destruct (is_select query).
      * apply quiet_bind; [apply quiet_driver; reflexivity|].
        intros [|row rows]; [apply quiet_print|].
        apply quiet_bind; [apply quiet_print | intros _; apply quiet_print_rows].
      * apply quiet_bind; [apply quiet_driver; reflexivity | intros st; apply quiet_print].
    + intros e. apply quiet_print.
  - revert s r s' H.
    apply quiet_bind; [apply quiet_print | intros _; apply quiet_ret].
Qed.

Lemma quiet_conn_fetch (q : Py.str) : quiet (conn_fetch fetch q).
Proof.
  intros s r s' H. unfold conn_fetch in H.
  destruct (conn (self s)) as [c|].
  - revert s r s' H. apply quiet_driver. reflexivity.
  - revert s r s' H. apply quiet_raise.
Qed.

Lemma quiet_loop_body (line : result Py.str) : quiet (loop_body fetch execute line).
Proof.
  unfold loop_body.
  apply quiet_bind; [apply quiet_print | intros _].
  apply quiet_bind; [apply quiet_lift | intros raw].
  destruct (negb (Py.truthy (Py.strip raw))); [apply quiet_ret|].
  destruct (_ || _); [apply quiet_ret|].
  destruct (Py.eqb _ _).
  - apply quiet_bind; [apply quiet_conn_fetch | intros tables].
    apply quiet_bind; [apply quiet_lift | intros names].
    apply quiet_bind; [apply quiet_print | intros _; apply quiet_ret].
  - apply quiet_bind; [apply quiet_execute_query | intros _; apply quiet_ret].
Qed.

Lemma quiet_iteration (line : result Py.str) : quiet (iteration fetch execute line).
Proof.
  intros s r s' H. unfold iteration in H.
  destruct (loop_body fetch execute line s) as [[c | e] s1] eqn:Hbody.
  - inversion H; subst. eapply quiet_loop_body; exact Hbody.
  - apply quiet_loop_body in Hbody.
    destruct e as [| m | m].
    + eapply steps_trans; [exact Hbody|]. revert H.
      apply quiet_bind; [apply quiet_print | intros _; apply quiet_ret].
    + eapply steps_trans; [exact Hbody|]. revert H.
      apply quiet_bind; [apply quiet_print | intros _; apply quiet_ret].
    + inversion H; subst. exact Hbody.
Qed.

(** The loop, when it stops, has left the object alone and closed
    nothing. *)
Lemma loop_steps (inputs : list (result Py.str)) :
  forall s r s', loop fetch execute inputs s = Some (r, s') -> steps s s'.
Proof.
  induction inputs as [|line rest IH]; intros s r s' H.
  - discriminate.
  - cbn [loop] in H.
    destruct (iteration fetch execute line s) as [[[|] | e] s1] eqn:Hit;
      apply quiet_iteration in Hit.
    + eapply steps_trans; [exact Hit | eapply IH; exact H].
    + inversion H; subst. exact Hit.
    + inversion H; subst. exact Hit.
Qed.

Local Abbreviation run_interactive :=
  (Session.run_interactive asyncpg_connect close fetch execute).

(** [run_interactive] unfolded: the banner, the connect, and, when the
    connect returned true, the loop followed by the [finally] clause. *)
Lemma run_interactive_run (inputs : list (result Py.str)) (s : state) :
  run_interactive inputs s =
  match connect (after s (db s) [] [Banner]) with
  | (Ok true, s1) =>
      match loop fetch execute inputs s1 with
      | Some (r, s2) =>
          Some (match disconnect s2 with
                | (Ok _, s3) => (r, s3)
                | (Raise e, s3) => (Raise e, s3)
                end)
      | None => None
      end
  | (Ok false, s1) => Some (Ok tt, s1)
  | (Raise e, s1) => Some (Raise e, s1)
  end.
Proof.
  unfold Session.run_interactive, Eff.bind. rewrite print_run.
  destruct (connect _) as [[[|] | e] s1]; reflexivity.
Qed.

(** [connect], when it returns true, has stored a handle after one call
    of the driver; otherwise it has left the object alone. *)
Lemma connect_true (s s1 : state) :
  connect s = (Ok true, s1) ->
  exists url c,
    conn (self s1) = Some c /\ calls s1 = calls s ++ [CallConnect url].
Proof.
  intros H.
  destruct (db_url (self s)) as [url|] eqn:Hurl;
    [destruct (Py.truthy url) eqn:Ht|].
  - rewrite (connect_attempt s Hurl Ht) in H.
    destruct (asyncpg_connect url (db s)) as [[c | e] w].
    + inversion H; subst. exists url, c. split; reflexivity.
    + destruct (is_Exception e); discriminate.
  - rewrite connect_no_url in H by (cbn; rewrite Hurl; exact Ht). discriminate.
  - rewrite connect_no_url in H by (cbn; rewrite Hurl; reflexivity). discriminate.
Qed.

Lemma connect_not_true (s s1 : state) (r : result bool) :
  connect s = (r, s1) -> r <> Ok true -> steps s s1.
Proof.
  intros H Hr.
  destruct (db_url (self s)) as [url|] eqn:Hurl;
    [destruct (Py.truthy url) eqn:Ht|].
  - rewrite (connect_attempt s Hurl Ht) in H.
    destruct (asyncpg_connect url (db s)) as [[c | e] w].
    + inversion H; subst. now contradiction Hr.
    + destruct (is_Exception e); inversion H; subst;
        eexists _, [CallConnect url], _; split; reflexivity.
  - rewrite connect_no_url in H by (cbn; rewrite Hurl; exact Ht).
    inversion H; subst. eexists _, [], _; split; reflexivity.
  - rewrite connect_no_url in H by (cbn; rewrite Hurl; reflexivity).
    inversion H; subst. eexists _, [], _; split; reflexivity.
Qed.

Section DriverLaws.

(** Two facts about asyncpg: a [close] that returns has closed the
    connection, and closing a closed connection returns. *)
Hypothesis close_closes :
  forall c w u w', close c w = (Ok u, w') -> is_closed c w' = true.
Hypothesis close_again :
  forall c w, is_closed c w = true -> exists w', close c w = (Ok tt, w').

(** C3: take a call of [run_interactive] that ends.  When its connect
    returned true, so that the loop was entered, then whichever way the
    loop was left (the exit commands, an interrupt, an exception that is
    no [Exception]; the errors of the loop body are printed and the loop
    goes on) the driver calls after the connect are those of the loop,
    none of them a close, and one close of the stored handle as the last
    call; and when [run_interactive] returns, the session is Disconnected.
    When the connect did not return true, the loop was not entered, the
    object is untouched and nothing was closed, so a session that stored
    no handle is Disconnected. *)
Theorem run_interactive_releases (inputs : list (result Py.str))
    (s s' : state) (r : result unit) :
  run_interactive inputs s = Some (r, s') ->
  (forall s1,
      connect (after s (db s) [] [Banner]) = (Ok true, s1) ->
      exists c cs,
        conn (self s1) = Some c
        /\ conn (self s') = Some c
        /\ calls s' = calls s1 ++ cs ++ [CallClose c]
        /\ close_calls cs = []
        /\ close_calls (cs ++ [CallClose c]) = [c]
        /\ (r = Ok tt -> state_of s' = Disconnected))
  /\ ((forall s1, connect (after s (db s) [] [Banner]) <> (Ok true, s1)) ->
      self s' = self s
      /\ (exists cs, calls s' = calls s ++ cs /\ close_calls cs = [])
      /\ (conn (self s) = None -> state_of s' = Disconnected)).
Proof.
  intros H. rewrite run_interactive_run in H.
  set (s0 := after s (db s) [] [Banner]) in *. split.
  - intros s1 Hconn. rewrite Hconn in H.
    pose proof Hconn as Hstored. apply connect_true in Hstored.
    destruct Hstored as [url [c [Hc1 _]]].
    destruct (loop fetch execute inputs s1) as [[r0 s2]|] eqn:Hloop; [|discriminate].
    apply loop_steps in Hloop.
    pose proof (steps_self Hloop) as Hself.
    destruct (steps_calls Hloop) as [cs [Hcalls Hcs]].
    assert (Hc2 : conn (self s2) = Some c) by (rewrite Hself; exact Hc1).
    rewrite (disconnect_some s2 Hc2) in H.
    exists c, cs. split; [exact Hc1|].
    assert (Hcount : close_calls (cs ++ [CallClose c]) = [c])
      by (unfold close_calls in *; rewrite flat_map_app, Hcs; reflexivity).
    destruct (close c (db s2)) as [[u | e] w2] eqn:Hclose; inversion H; subst;
      cbn [self conn calls after]; rewrite Hcalls, <- ?app_assoc, ?app_nil_r;
      (split; [exact Hc2|]); (split; [reflexivity|]);
      (split; [exact Hcs|]); (split; [exact Hcount|]).
    + intros _. unfold Session.state_of. cbn [self db after]. rewrite Hc2.
      now rewrite (close_closes Hclose).
    + discriminate.
  - intros Hno.
    destruct (connect s0) as [rc s1] eqn:Hconn.
    assert (Hrc : rc <> Ok true) by (intros ->; exact (Hno s1 eq_refl)).
    assert (Hs' : s' = s1).
    { destruct rc as [[|] | e]; [now contradiction Hrc | |]; now inversion H. }
    subst s'.
    assert (Hsteps : steps s s1).
    { eapply steps_trans; [|eapply connect_not_true; [exact Hconn | exact Hrc]].
      exists (db s), [], [Banner]. split; reflexivity. }
    split; [exact (steps_self Hsteps)|].
    split; [exact (steps_calls Hsteps)|].
    intros Hnone. unfold Session.state_of. rewrite (steps_self Hsteps), Hnone. reflexivity.
Qed.

(** C4, as the code has it: without a stored handle [disconnect] does
    nothing; with one it closes it, reports, and keeps the handle stored.
    A [disconnect] that raised nothing leaves the session Disconnected,
    and a second one in a row raises nothing either and leaves it
    Disconnected. *)
Theorem disconnect_idempotent (s : state) :
  (conn (self s) = None -> disconnect s = (Ok tt, s))
  /\ (forall c u w,
       conn (self s) = Some c -> close c (db s) = (Ok u, w) ->
       disconnect s = (Ok tt, after s w [CallClose c] [DisconnectedMsg]))
  /\ (forall s1,
       disconnect s = (Ok tt, s1) ->
       state_of s1 = Disconnected
       /\ conn (self s1) = conn (self s)
       /\ exists s2, disconnect s1 = (Ok tt, s2) /\ state_of s2 = Disconnected).
Proof.
  split; [exact (@disconnect_none s) | split].
  - intros c u w Hc Hclose. rewrite (disconnect_some s Hc), Hclose. reflexivity.
  - intros s1 H. destruct (conn (self s)) as [c|] eqn:Hc.
    + rewrite (disconnect_some s Hc) in H.
      destruct (close c (db s)) as [[u | e] w] eqn:Hclose; [|discriminate].
      inversion H; subst. clear H.
      pose proof (close_closes Hclose) as Hclosed.
      destruct (close_again Hclosed) as [w' Hclose'].
      assert (Hc1 : conn (self (after s w [CallClose c] [DisconnectedMsg])) = Some c)
        by exact Hc.
      split; [unfold Session.state_of; rewrite Hc1; cbn [db after]; now rewrite Hclosed|].
      split; [exact Hc1|].
      rewrite (disconnect_some _ Hc1). cbn [db after]. rewrite Hclose'.
      eexists. split; [reflexivity|].
      unfold Session.state_of. cbn [self db after]. rewrite Hc.
      now rewrite (close_closes Hclose').
    + rewrite (disconnect_none s Hc) in H. inversion H; subst.
      assert (Hd : state_of s1 = Disconnected)
        by (unfold Session.state_of; now rewrite Hc).
      split; [exact Hd|]. split; [exact Hc|].
      exists s1. split; [apply disconnect_none; exact Hc | exact Hd].
Qed.

End DriverLaws.

(** *** One bad statement *)

(** A line of input that is handed to [execute_query]: not blank and none
    of the three commands. *)
Definition ordinary (line : Py.str) : Prop :=
  Py.truthy (Py.strip line) = true
  /\ (Py.eqb (Py.lower (Py.strip line)) (Py.lit ".exit")
      || Py.eqb (Py.lower (Py.strip line)) (Py.lit ".quit")) = false
  /\ Py.eqb (Py.lower (Py.strip line)) (Py.lit ".tables") = false.

(** The loop on an ordinary line, when [execute_query] returns. *)
Lemma loop_ordinary (line : Py.str) (rest : list (result Py.str)) (s s1 : state) :
  ordinary line ->
  execute_query (Py.strip line) (after s (db s) [] [Prompt]) = (Ok tt, s1) ->
  loop fetch execute (Ok line :: rest) s = loop fetch execute rest s1.
Proof.
  intros [Ht [Hexit Htables]] Hq. cbn [loop].
  unfold iteration, loop_body, Eff.bind, Eff.lift. rewrite print_run.
  rewrite Ht, Hexit, Htables. cbn [negb]. rewrite Hq. reflexivity.
Qed.

(** C6: without a stored handle [execute_query] prints that it is not
    connected, calls nothing and returns; no exception of the [Exception]
    class leaves it; an error the driver raises on either path is printed
    as the failure of that query and [execute_query] returns; and in the
    loop the next line is read after it. *)
Theorem execute_query_contains_failures (query : Py.str) (s : state) :
  (conn (self s) = None ->
   execute_query query s = (Ok tt, after s (db s) [] [NotConnected]))
  /\ (forall e s', execute_query query s = (Raise e, s') -> is_Exception e = false)
  /\ (forall c m w,
       conn (self s) = Some c ->
       (is_select query = true /\ fetch c query (db s) = (Raise (Exception m), w)
        \/ is_select query = false /\ execute c query (db s) = (Raise (Exception m), w)) ->
       exists k,
         execute_query query s = (Ok tt, after s w [k] [QueryFailed (Exception m)])
         /\ close_calls [k] = [])
  /\ (forall line rest s0 s1,
       ordinary line ->
       query = Py.strip line ->
       s = after s0 (db s0) [] [Prompt] ->
       execute_query query s = (Ok tt, s1) ->
       loop fetch execute (Ok line :: rest) s0 = loop fetch execute rest s1).
Proof.
  split; [apply execute_query_not_connected|].
  split; [intros e s'; apply execute_query_raises_only_base|].
  split.
  - intros c m w Hc Hfail.
    rewrite (execute_query_connected query s Hc).
    destruct Hfail as [[-> ->] | [-> ->]]; eexists; split; reflexivity.
  - intros line rest s0 s1 Hord -> -> Hq. apply loop_ordinary; assumption.
Qed.

(** *** The exit status *)

Local Abbreviation main := (Session.main asyncpg_connect close fetch execute).

(** An input line that is not an exception outside [Exception] and
    [KeyboardInterrupt]. *)
Definition no_base_exception (line : result Py.str) : Prop :=
  forall m, line <> Raise (BaseException m).

Lemma getitem_errors (t : row value) (key : string) (e : exn) :
  getitem t key = Raise e -> is_Exception e = true.
Proof.
  induction t as [|[k v] t IH]; cbn.
  - intros H. inversion H. reflexivity.
  - destruct (String.eqb k key); [discriminate | exact IH].
Qed.

Lemma table_names_errors (tables : list (row value)) (e : exn) :
  table_names tables = Raise e -> is_Exception e = true.
Proof.
  induction tables as [|t rest IH]; cbn; [discriminate|].
  destruct (getitem t "table_name") as [v | e0] eqn:Hget.
  - destruct (table_names rest) as [vs | e1]; [discriminate|].
    intros H. inversion H; subst. apply IH. reflexivity.
  - intros H. inversion H; subst. eapply getitem_errors; exact Hget.
Qed.

Section NoEscape.

(** The driver raises errors only, and [close] raises nothing. *)
Hypothesis connect_errors :
  forall url w e w', asyncpg_connect url w = (Raise e, w') -> is_Exception e = true.
Hypothesis fetch_errors :
  forall c q w e w', fetch c q w = (Raise e, w') -> is_Exception e = true.
Hypothesis execute_errors :
  forall c q w e w', execute c q w = (Raise e, w') -> is_Exception e = true.
Hypothesis close_returns :
  forall c w, exists u w', close c w = (Ok u, w').

Lemma execute_query_returns (query : Py.str) (s : state) :
  exists s', execute_query query s = (Ok tt, s').
Proof.
  destruct (conn (self s)) as [c|] eqn:Hc.
  - rewrite (execute_query_connected query s Hc). unfold failed.
    destruct (is_select query).
    + destruct (fetch c query (db s)) as [[rows | e] w] eqn:Hf; [eexists; reflexivity|].
      rewrite (fetch_errors Hf). eexists; reflexivity.
    + destruct (execute c query (db s)) as [[st | e] w] eqn:Hx; [eexists; reflexivity|].
      rewrite (execute_errors Hx). eexists; reflexivity.
  - rewrite execute_query_not_connected by exact Hc. eexists; reflexivity.
Qed.

Lemma connect_returns (s : state) : exists b s', connect s = (Ok b, s').
Proof.
  destruct (db_url (self s)) as [url|] eqn:Hurl;
    [destruct (Py.truthy url) eqn:Ht|].
  - rewrite (connect_attempt s Hurl Ht).
    destruct (asyncpg_connect url (db s)) as [[c | e] w] eqn:Hconn.
    + eexists _, _; reflexivity.
    + rewrite (connect_errors Hconn). eexists _, _; reflexivity.
  - rewrite connect_no_url by (cbn; rewrite Hurl; exact Ht). eexists _, _; reflexivity.
  - rewrite connect_no_url by (cbn; rewrite Hurl; reflexivity). eexists _, _; reflexivity.
Qed.

Lemma disconnect_returns (s : state) : exists s', disconnect s = (Ok tt, s').
Proof.
  destruct (conn (self s)) as [c|] eqn:Hc.
  - rewrite (disconnect_some s Hc).
    destruct (close_returns c (db s)) as [u [w ->]]. eexists; reflexivity.
  - rewrite (disconnect_none s Hc). eexists; reflexivity.
Qed.

Lemma loop_body_raises (line : result Py.str) (s s' : state) (e : exn) :
  loop_body fetch execute line s = (Raise e, s') ->
  is_Exception e = true \/ line = Raise e.
Proof.
  unfold loop_body, Eff.bind, Eff.lift. rewrite print_run.
  destruct line as [raw | e0]; [|intros H; inversion H; now right].
  destruct (negb (Py.truthy (Py.strip raw))); [discriminate|].
  destruct (_ || _); [discriminate|].
  destruct (Py.eqb _ _).
  - unfold conn_fetch. set (s1 := after s (db s) [] [Prompt]).
    destruct (conn (self s1)) as [c|].
    + rewrite driver_run.
      destruct (fetch c TABLES_SQL (db s1)) as [[tables | e1] w] eqn:Hf; cbn [fst snd].
      * destruct (table_names tables) as [names | e2] eqn:Hn.
        -- rewrite print_run. discriminate.
        -- intros H. inversion H; subst. left. eapply table_names_errors; exact Hn.
      * intros H. inversion H; subst. left. eapply fetch_errors; exact Hf.
    + intros H. inversion H; subst. now left.
  - destruct (execute_query_returns (Py.strip raw) (after s (db s) [] [Prompt]))
      as [s1 ->]. discriminate.
Qed.

Lemma iteration_raises (line : result Py.str) (s s' : state) (e : exn) :
  iteration fetch execute line s = (Raise e, s') ->
  exists m, line = Raise (BaseException m).
Proof.
  unfold iteration.
  destruct (loop_body fetch execute line s) as [[c | e0] s1] eqn:Hbody; [discriminate|].
  destruct e0 as [| m | m].
  - unfold Eff.bind. rewrite print_run. discriminate.
  - unfold Eff.bind. rewrite print_run. discriminate.
  - intros _. destruct (loop_body_raises _ _ Hbody) as [Hexc | ->].
    + discriminate.
    + now exists m.
Qed.

Lemma loop_returns (inputs : list (result Py.str)) :
  Forall no_base_exception inputs ->
  forall s r s', loop fetch execute inputs s = Some (r, s') -> r = Ok tt.
Proof.
  induction 1 as [|line rest Hline _ IH]; intros s r s' H.
  - discriminate.
  - cbn [loop] in H.
    destruct (iteration fetch execute line s) as [[[|] | e] s1] eqn:Hit.
    + eapply IH; exact H.
    + now inversion H.
    + destruct (iteration_raises _ _ Hit) as [m Hm]. exfalso. exact (Hline m Hm).
Qed.

(** C9, as the code has it: [main] sets no exit status.  With a driver
    that raises errors only and a [close] that raises nothing, every run of
    [main] that ends returns, in one-shot mode as in interactive mode, so
    the exit status is zero; a one-shot run whose connect fails, for want
    of an address or by an error of the driver, or whose query fails,
    exits with status zero after printing the failure. *)
Theorem main_exit_status (a : args) (url : option Py.str)
    (inputs : list (result Py.str)) (w : world) (r : result unit) (s' : state) :
  Forall no_base_exception inputs ->
  main a url inputs w = Some (r, s') ->
  r = Ok tt
  /\ exit_status r = 0%Z
  /\ (interactive a = false -> Py.truthy_opt (query a) = true ->
      Py.truthy_opt url = false ->
      stdout s' = [NoDatabaseUrl])
  /\ (forall u q e w',
       interactive a = false -> query a = Some q -> Py.truthy q = true ->
       url = Some u -> Py.truthy u = true ->
       asyncpg_connect u w = (Raise e, w') ->
       stdout s' = [ConnectionFailed e]).
Proof.
  intros Hin H. unfold Session.main in H.
  destruct (interactive a || negb (Py.truthy_opt (query a))) eqn:Hmode.
  - assert (Hr : r = Ok tt).
    { rewrite run_interactive_run in H.
      destruct (connect_returns (after (new connection value url w) w [] [Banner]))
        as [b [s1 Hc]].
      cbn [db new] in H. rewrite Hc in H.
      destruct b; [|now inversion H].
      destruct (loop fetch execute inputs s1) as [[r0 s2]|] eqn:Hloop; [|discriminate].
      apply (loop_returns Hin) in Hloop. subst r0.
      destruct (disconnect_returns s2) as [s3 Hd]. rewrite Hd in H. now inversion H. }
    subst r. split; [reflexivity|]. split; [reflexivity|].
    apply orb_true_iff in Hmode. split.
    + intros Hi Hq. destruct Hmode as [Hm | Hm]; [congruence|].
      rewrite Hq in Hm. discriminate.
    + intros u q e w' Hi Hq Hqt. destruct Hmode as [Hm | Hm]; [congruence|].
      rewrite Hq in Hm. cbn in Hm. rewrite Hqt in Hm. discriminate.
  - apply orb_false_iff in Hmode. destruct Hmode as [Hi Hq].
    apply negb_false_iff in Hq.
    destruct (query a) as [q|] eqn:Hqa; [|discriminate].
    unfold Eff.bind in H.
    destruct (db_url (self (new connection value url w))) as [u|] eqn:Hurl;
      cbn in Hurl; subst url; [destruct (Py.truthy u) eqn:Ht|].
    + rewrite (connect_attempt (new connection value (Some u) w) eq_refl Ht) in H.
      cbn [db new] in H.
      destruct (asyncpg_connect u w) as [[c | e] w1] eqn:Hconn.
      * match type of H with
        | context [Session.execute_query fetch execute q ?s1] =>
            destruct (execute_query_returns q s1) as [s2 Hx]
        end.
        rewrite Hx in H.
        destruct (disconnect_returns s2) as [s3 Hd]. rewrite Hd in H.
        inversion H; subst. split; [reflexivity|]. split; [reflexivity|].
        split; [intros _ _ Hu; cbn in Hu; congruence|].
        intros u0 q0 e0 w0 _ _ _ Hu _ Hc0. inversion Hu; subst.
        rewrite Hc0 in Hconn. discriminate.
      * rewrite (connect_errors Hconn) in H. inversion H; subst.
        split; [reflexivity|]. split; [reflexivity|].
        split; [intros _ _ Hu; cbn in Hu; congruence|].
        intros u0 q0 e0 w0 _ _ _ Hu _ Hc0. inversion Hu; subst.
        rewrite Hc0 in Hconn. inversion Hconn; subst. reflexivity.
    + rewrite connect_no_url in H by (cbn; exact Ht).
      inversion H; subst. split; [reflexivity|]. split; [reflexivity|].
      split; [reflexivity|].
      intros u0 q0 e0 w0 _ _ _ Hu Hut. inversion Hu; subst. congruence.
    + rewrite connect_no_url in H by reflexivity.
      inversion H; subst. split; [reflexivity|]. split; [reflexivity|].
      split; [reflexivity|].
      intros u0 q0 e0 w0 _ _ _ Hu. discriminate.
Qed.

End NoEscape.

(** *** More on the session *)

(** X5: [connect] never closes a connection and calls the driver at most
    once.  When it returns true it has stored the handle the driver
    returned, in place of whatever handle was stored before, which is not
    closed; otherwise the stored handle is what it was. *)
Theorem connect_replaces_handle (s s' : state) (r : result bool) :
  connect s = (r, s') ->
  (exists cs, calls s' = calls s ++ cs
              /\ close_calls cs = [] /\ (List.length cs <= 1)%nat)
  /\ (r = Ok true ->
      exists url c w,
        db_url (self s) = Some url
        /\ asyncpg_connect url (db s) = (Ok c, w)
        /\ conn (self s') = Some c)
  /\ (r <> Ok true -> conn (self s') = conn (self s)).
Proof.
  intros H.
  destruct (db_url (self s)) as [url|] eqn:Hurl;
    [destruct (Py.truthy url) eqn:Ht|].
  - rewrite (connect_attempt s Hurl Ht) in H.
    destruct (asyncpg_connect url (db s)) as [[c | e] w] eqn:Hconn.
    + inversion H; subst. cbn [calls self conn].
      split; [exists [CallConnect url]; repeat split; cbn; lia|].
      split; [intros _; exists url, c, w; repeat split; assumption
             | intros Hr; now contradiction Hr].
    + destruct (is_Exception e); inversion H; subst; cbn [calls self conn after];
        (split; [exists [CallConnect url]; repeat split; cbn; lia|]);
        (split; [discriminate | reflexivity]).
  - rewrite connect_no_url in H by (cbn; rewrite Hurl; exact Ht).
    inversion H; subst. cbn [calls self conn after].
    split; [exists []; repeat split; cbn; lia|]. split; [discriminate | reflexivity].
  - rewrite connect_no_url in H by (cbn; rewrite Hurl; reflexivity).
    inversion H; subst. cbn [calls self conn after].
    split; [exists []; repeat split; cbn; lia|]. split; [discriminate | reflexivity].
Qed.

(** X6: after a [disconnect] that closed the stored handle,
    [execute_query] does not report that the session is not connected: the
    handle is still stored, so the query goes to the driver on the closed
    handle, by [fetch] or [execute] as its text decides. *)
Theorem execute_query_after_disconnect (query : Py.str) (c : connection)
    (s s1 : state) :
  conn (self s) = Some c ->
  disconnect s = (Ok tt, s1) ->
  exists r s2 os,
    execute_query query s1 = (r, s2)
    /\ calls s2 = calls s1 ++ [if is_select query
                               then CallFetch c query else CallExecute c query]
    /\ stdout s2 = stdout s1 ++ os
    /\ ~ In NotConnected os.
Proof.
  intros Hc Hd. rewrite (disconnect_some s Hc) in Hd.
  destruct (close c (db s)) as [[u | e] w]; [|discriminate].
  inversion Hd; subst. clear Hd.
  assert (Hc1 : conn (self (after s w [CallClose c] [DisconnectedMsg])) = Some c)
    by exact Hc.
  rewrite (execute_query_connected query _ Hc1). unfold failed.
  assert (Hrows : forall rows : list (row value), ~ In NotConnected (report rows)).
  { intros [|r0 rows] H; apply in_inv in H; destruct H as [H | H]; try discriminate.
    - destruct H.
    - apply in_map_iff in H. destruct H as [x [H _]]. discriminate. }
  destruct (is_select query).
  - destruct (fetch c query _) as [[rows | e] w1];
      [eexists _, _, (report rows)
      | destruct (is_Exception e); [eexists _, _, [QueryFailed e] | eexists _, _, []]];
      (split; [reflexivity|]); (split; [reflexivity|]); (split; [reflexivity|]).
    + apply Hrows.
    + intros [H | []]; discriminate.
    + intros [].
  - destruct (execute c query _) as [[st | e] w1];
      [eexists _, _, [QueryExecuted st]
      | destruct (is_Exception e); [eexists _, _, [QueryFailed e] | eexists _, _, []]];
      (split; [reflexivity|]); (split; [reflexivity|]); (split; [reflexivity|]).
    + intros [H | []]; discriminate.
    + intros [H | []]; discriminate.
    + intros [].
Qed.

(** A line that is blank once trimmed. *)
Definition blank (line : Py.str) : Prop := Py.strip line = [].

(** An exit command: [.exit] or [.quit], in any case, with any space
    around it. *)
Definition exit_command (line : Py.str) : Prop :=
  Py.lower (Py.strip line) = Py.lit ".exit" \/ Py.lower (Py.strip line) = Py.lit ".quit".

Lemma loop_blank (line : Py.str) (rest : list (result Py.str)) (s : state) :
  blank line ->
  loop fetch execute (Ok line :: rest) s
  = loop fetch execute rest (after s (db s) [] [Prompt]).
Proof.
  intros Hb. cbn [loop]. unfold iteration, loop_body, Eff.bind, Eff.lift.
  rewrite print_run. unfold blank in Hb. rewrite Hb. reflexivity.
Qed.

Lemma exit_command_not_blank (line : Py.str) :
  exit_command line -> Py.truthy (Py.strip line) = true.
Proof.
  intros [H | H]; destruct (Py.strip line); (discriminate || reflexivity).
Qed.

Lemma loop_exit (line : Py.str) (rest : list (result Py.str)) (s : state) :
  exit_command line ->
  loop fetch execute (Ok line :: rest) s = Some (Ok tt, after s (db s) [] [Prompt]).
Proof.
  intros He. cbn [loop]. unfold iteration, loop_body, Eff.bind, Eff.lift.
  rewrite print_run, (exit_command_not_blank He). cbn [negb].
  destruct He as [-> | ->]; reflexivity.
Qed.

(** X7: blank lines are passed over: any number of them in front of the
    input costs one prompt each and nothing else; the driver is not
    called. *)
Theorem loop_ignores_blank_lines (lines : list Py.str) (rest : list (result Py.str))
    (s : state) :
  Forall blank lines ->
  loop fetch execute (map Ok lines ++ rest) s
  = loop fetch execute rest
      (after s (db s) [] (repeat Prompt (List.length lines))).
Proof.
  intros Hb. revert s. induction Hb as [|line lines Hline _ IH]; intros s.
  - cbn. now rewrite after_nothing.
  - cbn [map app]. rewrite loop_blank by exact Hline.
    rewrite IH, after_after. reflexivity.
Qed.

(** X8: a session that connects and reads an exit command first: the
    driver is called twice, to connect and to close; the rest of the input
    is not read; [run_interactive] returns, and the handle stays stored. *)
Theorem run_interactive_exit_at_once (line url : Py.str) (rest : list (result Py.str))
    (s : state) (c : connection) (w w' : world) (u : unit) :
  db_url (self s) = Some url -> Py.truthy url = true ->
  asyncpg_connect url (db s) = (Ok c, w) ->
  exit_command line ->
  close c w = (Ok u, w') ->
  run_interactive (Ok line :: rest) s
  = Some (Ok tt,
          {| self := {| db_url := Some url; conn := Some c |};
             db := w';
             stdout := stdout s ++ [Banner; ConnectedMsg; Prompt; DisconnectedMsg];
             calls := calls s ++ [CallConnect url; CallClose c] |}).
Proof.
  intros Hurl Ht Hconn He Hclose. rewrite run_interactive_run.
  rewrite (connect_attempt (after s (db s) [] [Banner]) (url := url) Hurl Ht).
  cbn [db after]. rewrite Hconn, (loop_exit _ _ He).
  match goal with
  | |- context [Session.disconnect close ?s2] =>
      rewrite (disconnect_some s2 (c := c) eq_refl)
  end.
  cbn [db after]. rewrite Hclose. unfold after. cbn. rewrite <- !app_assoc. reflexivity.
Qed.

(** [getitem] raises the key it did not find. *)
Lemma getitem_raises (t : row value) (key : string) (e : exn) :
  getitem t key = Raise e -> e = Exception key.
Proof.
  induction t as [|[k v] t IH]; cbn.
  - intros H. now inversion H.
  - destruct (String.eqb k key); [discriminate | exact IH].
Qed.

(** [table_names] returns the column of every row, in the order of the
    rows, and raises when a row has no such column. *)
Lemma table_names_ok (tables : list (row value)) (names : list value) :
  table_names tables = Ok names <->
  Forall2 (fun t v => getitem t "table_name" = Ok v) tables names.
Proof.
  revert names. induction tables as [|t rest IH]; intros names; cbn.
  - split.
    + intros H. inversion H. constructor.
    + intros H. inversion H. reflexivity.
  - destruct (getitem t "table_name") as [v | e] eqn:Hget.
    + destruct (table_names rest) as [vs | e].
      * split.
        -- intros H. inversion H; subst. constructor; [exact Hget|]. now apply IH.
        -- intros H. inversion H as [| t0 v0 ts vs0 H1 H2]; subst.
           rewrite Hget in H1. inversion H1; subst.
           apply IH in H2. inversion H2. reflexivity.
      * split; [discriminate|].
        intros H. inversion H as [| t0 v0 ts vs0 H1 H2]; subst.
        apply IH in H2. discriminate.
    + split; [discriminate|].
      intros H. inversion H as [| t0 v0 ts vs0 H1 H2]; subst.
      rewrite Hget in H1. discriminate.
Qed.

Lemma table_names_raises (tables : list (row value)) (e : exn) :
  table_names tables = Raise e -> e = Exception "table_name".
Proof.
  induction tables as [|t rest IH]; cbn; [discriminate|].
  destruct (getitem t "table_name") as [v | e0] eqn:Hget.
  - destruct (table_names rest) as [vs | e1]; [discriminate|].
    intros H. inversion H; subst. now apply IH.
  - intros H. inversion H; subst. eapply getitem_raises; exact Hget.
Qed.

(** The [.tables] command, in any case, with any space around it. *)
Definition tables_command (line : Py.str) : Prop :=
  Py.lower (Py.strip line) = Py.lit ".tables".

(** X9: on the [.tables] command the loop sends the introspection query
    to [fetch], and nothing else, and goes on to the next line.  When
    every row has a [table_name] column, it prints these values in the
    order of the rows; when a row has none, it prints the error of the
    missing key and no list.  [execute_query] is not involved: no count
    line and no row line is printed. *)
Theorem loop_tables_command (line : Py.str) (rest : list (result Py.str))
    (s : state) (c : connection) (tables : list (row value)) (w : world) :
  tables_command line ->
  conn (self s) = Some c ->
  fetch c TABLES_SQL (db s) = (Ok tables, w) ->
  (forall names,
      Forall2 (fun t v => getitem t "table_name" = Ok v) tables names ->
      loop fetch execute (Ok line :: rest) s
      = loop fetch execute rest
          (after s w [CallFetch c TABLES_SQL] [Prompt; TablesMsg names]))
  /\ (Exists (fun t => forall v, getitem t "table_name" <> Ok v) tables ->
      loop fetch execute (Ok line :: rest) s
      = loop fetch execute rest
          (after s w [CallFetch c TABLES_SQL]
             [Prompt; ErrorMsg (Exception "table_name")])).
Proof.
  intros Hcmd Hc Hfetch.
  assert (Hrun : loop fetch execute (Ok line :: rest) s
                 = match table_names tables with
                   | Ok names =>
                       loop fetch execute rest
                         (after s w [CallFetch c TABLES_SQL] [Prompt; TablesMsg names])
                   | Raise e =>
                       match e with
                       | Exception m =>
                           loop fetch execute rest
                             (after s w [CallFetch c TABLES_SQL]
                                [Prompt; ErrorMsg (Exception m)])
                       | _ => loop fetch execute (Ok line :: rest) s
                       end
                   end).
  { destruct (table_names tables) as [names | e] eqn:Hn.
    - cbn [loop]. unfold iteration, loop_body, Eff.bind, Eff.lift, conn_fetch.
      rewrite print_run. unfold tables_command in Hcmd. rewrite Hcmd.
      replace (Py.truthy (Py.strip line)) with true
        by (destruct (Py.strip line); [discriminate | reflexivity]).
      change (Py.eqb (Py.lit ".tables") (Py.lit ".exit")) with false.
      change (Py.eqb (Py.lit ".tables") (Py.lit ".quit")) with false.
      change (Py.eqb (Py.lit ".tables") (Py.lit ".tables")) with true.
      cbn [negb orb]. cbn [self after]. rewrite Hc.
      rewrite driver_run. cbn [db after]. rewrite Hfetch. cbn [fst snd].
      rewrite Hn, print_run, !after_after. reflexivity.
    - pose proof (table_names_raises _ Hn) as He. subst e.
      cbn [loop]. unfold iteration, loop_body, Eff.bind, Eff.lift, conn_fetch.
      rewrite print_run. unfold tables_command in Hcmd. rewrite Hcmd.
      replace (Py.truthy (Py.strip line)) with true
        by (destruct (Py.strip line); [discriminate | reflexivity]).
      change (Py.eqb (Py.lit ".tables") (Py.lit ".exit")) with false.
      change (Py.eqb (Py.lit ".tables") (Py.lit ".quit")) with false.
      change (Py.eqb (Py.lit ".tables") (Py.lit ".tables")) with true.
      cbn [negb orb]. cbn [self after]. rewrite Hc.
      rewrite driver_run. cbn [db after]. rewrite Hfetch. cbn [fst snd].
      rewrite Hn, print_run, !after_after. reflexivity. }
  split.
  - intros names Hall. apply table_names_ok in Hall. rewrite Hrun, Hall. reflexivity.
  - intros Hex. rewrite Hrun.
    destruct (table_names tables) as [names | e] eqn:Hn.
    + exfalso. apply table_names_ok in Hn.
      clear - Hn Hex. induction Hn as [| t v ts vs Hget _ IH].
      * inversion Hex.
      * inversion Hex as [? ? Hno | ? ? Hrest]; subst;
          [exact (Hno v Hget) | exact (IH Hrest)].
    + rewrite (table_names_raises _ Hn). reflexivity.
Qed.

(** What the driver raises for a query, on the path its text picks. *)
Definition query_raises (c : connection) (query : Py.str) (w : world) (e : exn)
    (w' : world) : Prop :=
  if is_select query
  then fetch c query w = (Raise e, w')
  else execute c query w = (Raise e, w').

Definition query_call (c : connection) (query : Py.str) : call :=
  if is_select query then CallFetch c query else CallExecute c query.

(** X10: an interrupt ends the loop without an error, wherever it
    arrives: raised by [input] at the prompt, or raised by the driver while
    a query runs.  The loop prints that it was interrupted and returns; no
    further line is read. *)
Theorem loop_interrupt (rest : list (result Py.str)) (s : state) :
  loop fetch execute (Raise KeyboardInterrupt :: rest) s
  = Some (Ok tt, after s (db s) [] [Prompt; Interrupted])
  /\ (forall line c w,
        ordinary line ->
        conn (self s) = Some c ->
        query_raises c (Py.strip line) (db s) KeyboardInterrupt w ->
        loop fetch execute (Ok line :: rest) s
        = Some (Ok tt, after s w [query_call c (Py.strip line)] [Prompt; Interrupted])).
Proof.
  split.
  - cbn [loop]. unfold iteration, loop_body, Eff.bind, Eff.lift.
    rewrite !print_run, after_after. reflexivity.
  - intros line c w [Ht [Hexit Htables]] Hc Hraise.
    cbn [loop]. unfold iteration, loop_body, Eff.bind, Eff.lift.
    rewrite print_run, Ht, Hexit, Htables. cbn [negb].
    assert (Hc1 : conn (self (after s (db s) [] [Prompt])) = Some c) by exact Hc.
    rewrite (execute_query_connected (Py.strip line) _ Hc1).
    unfold query_raises, query_call in *. cbn [db after].
    destruct (is_select (Py.strip line)); rewrite Hraise; unfold failed;
      cbn [is_Exception]; rewrite print_run, !after_after; reflexivity.
Qed.

(** An input that raised an error, as [input] does at the end of its
    file. *)
Definition input_error (line : result Py.str) : Prop :=
  exists m, line = Raise (Exception m).

(** X11: an error of [input] does not end the loop: it is printed and
    the next line is asked for.  So on an input that only raises errors,
    as a closed standard input does, the loop never stops, however long
    the input; it calls the driver for nothing. *)
Theorem loop_input_errors_never_end (inputs : list (result Py.str)) (s : state) :
  Forall input_error inputs ->
  loop fetch execute inputs s = None
  /\ (forall m rest,
        loop fetch execute (Raise (Exception m) :: rest) s
        = loop fetch execute rest
            (after s (db s) [] [Prompt; ErrorMsg (Exception m)])).
Proof.
  assert (Hstep : forall m rest s0,
             loop fetch execute (Raise (Exception m) :: rest) s0
             = loop fetch execute rest
                 (after s0 (db s0) [] [Prompt; ErrorMsg (Exception m)])).
  { intros m rest s0. cbn [loop]. unfold iteration, loop_body, Eff.bind, Eff.lift.
    rewrite !print_run, after_after. reflexivity. }
  intros Hall. split; [|intros m rest; apply Hstep].
  revert s. induction Hall as [|line rest [m ->] _ IH]; intros s.
  - reflexivity.
  - rewrite Hstep. apply IH.
Qed.

(** X12: a one-shot run whose connect succeeds calls the driver for the
    connect, for the query on the path its text picks, and for the close,
    in this order and nothing else, whether the query succeeds or fails
    with an error.  When the driver raises an exception that is no
    [Exception] during the query (an interrupt), [main] raises it, the
    close is not called, and the exit status is not zero. *)
Theorem one_shot_driver_calls (a : args) (q u : Py.str) (inputs : list (result Py.str))
    (w w1 : world) (c : connection) (r : result unit) (s' : state) :
  interactive a = false -> query a = Some q -> Py.truthy q = true ->
  Py.truthy u = true ->
  asyncpg_connect u w = (Ok c, w1) ->
  main a (Some u) inputs w = Some (r, s') ->
  (forall e w2,
      query_raises c q w1 e w2 -> is_Exception e = false ->
      r = Raise e
      /\ calls s' = [CallConnect u; query_call c q]
      /\ exit_status r <> 0%Z)
  /\ ((forall e w2, query_raises c q w1 e w2 -> is_Exception e = true) ->
      calls s' = [CallConnect u; query_call c q; CallClose c]).
Proof.
  intros Hi Hq Hqt Hut Hconn H. unfold Session.main in H.
  rewrite Hi, Hq in H. cbn [Py.truthy_opt orb] in H. rewrite Hqt in H. cbn [negb] in H.
  unfold Eff.bind in H.
  rewrite (connect_attempt (new connection value (Some u) w) (url := u) eq_refl Hut) in H.
  cbn [db new] in H. rewrite Hconn in H.
  match type of H with
  | context [Session.execute_query fetch execute q ?x] => set (s1 := x) in *
  end.
  assert (Hc1 : conn (self s1) = Some c) by reflexivity.
  rewrite (execute_query_connected q s1 Hc1) in H.
  unfold query_raises, query_call, failed in *. change (db s1) with w1 in H.
  assert (Hclose : forall s2 w2 cs os,
             s2 = after s1 w2 cs os ->
             Some (Session.disconnect close s2) = Some (r, s') ->
             calls s' = calls s1 ++ cs ++ [CallClose c]).
  { intros s2 w2 cs os -> Hd.
    rewrite (disconnect_some (after s1 w2 cs os) (c := c) Hc1) in Hd.
    destruct (close c _) as [[u0 | e0] w3]; inversion Hd; subst;
      cbn [calls after]; rewrite <- ?app_assoc, ?app_nil_r; reflexivity. }
  destruct (is_select q).
  - destruct (fetch c q w1) as [[rows | e] w2] eqn:Hf.
    + split; [intros e w3 Hr; discriminate|]. intros _.
      rewrite (Hclose _ _ _ _ eq_refl H). reflexivity.
    + split.
      * intros e0 w3 Hr He. inversion Hr; subst. rewrite He in H.
        inversion H; subst. repeat split. destruct e0; cbn; discriminate.
      * intros Hexc. rewrite (Hexc e w2 eq_refl) in H.
        rewrite (Hclose _ _ _ _ eq_refl H). reflexivity.
  - destruct (execute c q w1) as [[st | e] w2] eqn:Hx.
    + split; [intros e w3 Hr; discriminate|]. intros _.
      rewrite (Hclose _ _ _ _ eq_refl H). reflexivity.
    + split.
      * intros e0 w3 Hr He. inversion Hr; subst. rewrite He in H.
        inversion H; subst. repeat split. destruct e0; cbn; discriminate.
      * intros Hexc. rewrite (Hexc e w2 eq_refl) in H.
        rewrite (Hclose _ _ _ _ eq_refl H). reflexivity.
Qed.

End SessionFacts.

(** ** The command line on a concrete driver *)

Lemma toy_close_closes :
  forall c w u w', ToyDriver.close c w = (Ok u, w') -> ToyDriver.is_closed c w' = true.
Proof.
  intros c w u w' H. inversion H; subst. unfold ToyDriver.is_closed. cbn.
  now rewrite Nat.eqb_refl.
Qed.

Lemma toy_close_again :
  forall c w, ToyDriver.is_closed c w = true -> exists w', ToyDriver.close c w = (Ok tt, w').
Proof. intros c w _. eexists. reflexivity. Qed.

Lemma toy_close_returns :
  forall c w, exists u w', ToyDriver.close c w = (Ok u, w').
Proof. intros c w. eexists _, _. reflexivity. Qed.

Lemma toy_connect_errors :
  forall url w e w', ToyDriver.asyncpg_connect url w = (Raise e, w') -> is_Exception e = true.
Proof.
  intros url w e w' H. unfold ToyDriver.asyncpg_connect in H.
  destruct (Py.eqb url _); inversion H. reflexivity.
Qed.

Lemma toy_fetch_errors :
  forall c q w e w', ToyDriver.fetch c q w = (Raise e, w') -> is_Exception e = true.
Proof.
  intros c q w e w' H. unfold ToyDriver.fetch in H.
  repeat match type of H with
         | (if ?b then _ else _) = _ => destruct b
         end; inversion H; reflexivity.
Qed.

Lemma toy_execute_errors :
  forall c q w e w', ToyDriver.execute c q w = (Raise e, w') -> is_Exception e = true.
Proof.
  intros c q w e w' H. unfold ToyDriver.execute in H.
  repeat match type of H with
         | (if ?b then _ else _) = _ => destruct b
         end; inversion H; reflexivity.
Qed.

Lemma execute_query_dispatch_witness :
  Session.stdout
    (snd (Session.execute_query ToyDriver.fetch ToyDriver.execute (Py.lit "SELECT 1")
            ToyDriver.connected))
  = [Session.ConnectedMsg; Session.QueryReturnedRows 1;
     Session.RowLine [("?column?", "1")]]%string
  /\ Session.calls
       (snd (Session.execute_query ToyDriver.fetch ToyDriver.execute
               (Py.lit "DROP TABLE t") ToyDriver.connected))
     = [Session.CallConnect (Py.lit "postgresql://neon");
        Session.CallExecute 0 (Py.lit "DROP TABLE t")]
  /\ Session.calls
       (snd (Session.execute_query ToyDriver.fetch ToyDriver.execute
               (160%N :: Py.lit "SELECT 1") ToyDriver.connected))
     = [Session.CallConnect (Py.lit "postgresql://neon");
        Session.CallFetch 0 (160%N :: Py.lit "SELECT 1")]
  /\ Session.calls
       (snd (Session.execute_query ToyDriver.fetch ToyDriver.execute
               (383%N :: Py.lit "elect 1") ToyDriver.connected))
     = [Session.CallConnect (Py.lit "postgresql://neon");
        Session.CallFetch 0 (383%N :: Py.lit "elect 1")]
  /\ Session.calls
       (snd (Session.execute_query ToyDriver.fetch ToyDriver.execute
               (223%N :: Py.lit "ELECT 1") ToyDriver.connected))
     = [Session.CallConnect (Py.lit "postgresql://neon");
        Session.CallExecute 0 (223%N :: Py.lit "ELECT 1")]
  /\ select_prefixed (Py.lit " select 1").
Proof.
  assert (Hc : Session.conn (Session.self ToyDriver.connected) = Some 0) by reflexivity.
  destruct (@execute_query_dispatch _ _ _ ToyDriver.fetch ToyDriver.execute
              (Py.lit "SELECT 1") 0 ToyDriver.connected Hc) as [Hread _].
  destruct (@execute_query_dispatch _ _ _ ToyDriver.fetch ToyDriver.execute
              (Py.lit "DROP TABLE t") 0 ToyDriver.connected Hc) as [Hwrite _].
  destruct (@execute_query_dispatch _ _ _ ToyDriver.fetch ToyDriver.execute
              (160%N :: Py.lit "SELECT 1") 0 ToyDriver.connected Hc) as [Hnbsp _].
  destruct (@execute_query_dispatch _ _ _ ToyDriver.fetch ToyDriver.execute
              (383%N :: Py.lit "elect 1") 0 ToyDriver.connected Hc) as [Hlong _].
  destruct (@execute_query_dispatch _ _ _ ToyDriver.fetch ToyDriver.execute
              (223%N :: Py.lit "ELECT 1") 0 ToyDriver.connected Hc) as [Hsharp _].
  destruct (@execute_query_dispatch _ _ _ ToyDriver.fetch ToyDriver.execute
              (Py.lit " select 1") 0 ToyDriver.connected Hc) as [_ [_ [_ [_ Hiff]]]].
  rewrite Hread, Hwrite, Hnbsp, Hlong, Hsharp.
  repeat split; try reflexivity. apply Hiff. reflexivity.
Defined.

Lemma run_interactive_releases_witness :
  exists s',
    ToyDriver.run_interactive ToyDriver.script ToyDriver.cli = Some (Ok tt, s')
    /\ Session.state_of ToyDriver.is_closed s' = Session.Disconnected
    /\ Session.close_calls (Session.calls s') = [0].
Proof.
  assert (Hrun : Session.run_interactive ToyDriver.asyncpg_connect ToyDriver.close
                   ToyDriver.fetch ToyDriver.execute ToyDriver.script ToyDriver.cli
                 = Some (Ok tt, ToyDriver.script_end))
    by (vm_compute; reflexivity).
  exists ToyDriver.script_end. split; [exact Hrun|].
  destruct (@run_interactive_releases _ _ _ ToyDriver.asyncpg_connect ToyDriver.close
              ToyDriver.fetch ToyDriver.execute ToyDriver.is_closed toy_close_closes
              ToyDriver.script ToyDriver.cli ToyDriver.script_end (Ok tt) Hrun)
    as [Hentered _].
  destruct (Hentered _ eq_refl) as [c [cs [_ [_ [_ [_ [_ Hstate]]]]]]].
  split; [exact (Hstate eq_refl) | reflexivity].
Defined.

(** After [connect] and [disconnect] the handle is still stored, and a
    further [disconnect], on a session that is Disconnected, closes it again
    and reports again. *)
Lemma disconnect_keeps_handle :
  Session.conn (Session.self ToyDriver.disconnected) = Some 0
  /\ Session.state_of ToyDriver.is_closed ToyDriver.disconnected = Session.Disconnected
  /\ Session.calls (snd (Session.disconnect ToyDriver.close ToyDriver.disconnected))
     = [Session.CallConnect (Py.lit "postgresql://neon"); Session.CallClose 0;
        Session.CallClose 0]
  /\ Session.stdout (snd (Session.disconnect ToyDriver.close ToyDriver.disconnected))
     = [Session.ConnectedMsg; Session.DisconnectedMsg; Session.DisconnectedMsg].
Proof. repeat split. Qed.

Lemma disconnect_idempotent_witness :
  exists s1 s2,
    Session.disconnect ToyDriver.close ToyDriver.connected = (Ok tt, s1)
    /\ Session.state_of ToyDriver.is_closed s1 = Session.Disconnected
    /\ Session.disconnect ToyDriver.close s1 = (Ok tt, s2)
    /\ Session.state_of ToyDriver.is_closed s2 = Session.Disconnected.
Proof.
  destruct (@disconnect_idempotent _ _ _ ToyDriver.close ToyDriver.is_closed
              toy_close_closes toy_close_again ToyDriver.connected) as [_ [_ Htwice]].
  destruct (Htwice ToyDriver.disconnected eq_refl) as [H1 [_ [s2 [H2 H3]]]].
  exists ToyDriver.disconnected, s2. repeat split; assumption.
Defined.

Lemma execute_query_contains_failures_witness :
  Session.loop ToyDriver.fetch ToyDriver.execute
    (Ok (Py.lit "DROP oops") :: [Ok (Py.lit ".quit")]) ToyDriver.connected
  = Session.loop ToyDriver.fetch ToyDriver.execute [Ok (Py.lit ".quit")]
      (after ToyDriver.connected (Session.db ToyDriver.connected)
         [Session.CallExecute 0 (Py.lit "DROP oops")]
         [Session.Prompt; Session.QueryFailed (Exception "syntax error")]).
Proof.
  destruct (@execute_query_contains_failures _ _ _ ToyDriver.fetch ToyDriver.execute
              (Py.lit "DROP oops")
              (after ToyDriver.connected (Session.db ToyDriver.connected) [] [Session.Prompt]))
    as [_ [_ [_ Hloop]]].
  apply (Hloop (Py.lit "DROP oops")); [repeat split | reflexivity | reflexivity | reflexivity].
Defined.

Lemma connect_contract_witness :
  (exists s', Session.connect ToyDriver.asyncpg_connect ToyDriver.cli_no_url = (Ok false, s')
              /\ Session.state_of ToyDriver.is_closed s' = Session.Disconnected)
  /\ (exists s', Session.connect ToyDriver.asyncpg_connect ToyDriver.cli_down = (Ok false, s')
                 /\ Session.state_of ToyDriver.is_closed s' = Session.Disconnected)
  /\ (exists s', Session.connect ToyDriver.asyncpg_connect ToyDriver.cli = (Ok true, s')
                 /\ Session.conn (Session.self s') = Some 0).
Proof.
  destruct (@connect_contract _ _ _ ToyDriver.asyncpg_connect ToyDriver.is_closed
              ToyDriver.cli_no_url) as [Hnone _].
  destruct (@connect_contract _ _ _ ToyDriver.asyncpg_connect ToyDriver.is_closed
              ToyDriver.cli_down) as [_ [Hdown _]].
  destruct (@connect_contract _ _ _ ToyDriver.asyncpg_connect ToyDriver.is_closed
              ToyDriver.cli) as [_ [_ Hup]].
  split; [| split].
  - destruct (Hnone eq_refl) as [s' [Hrun [_ [_ Hstate]]]].
    exists s'. split; [exact Hrun | exact (Hstate eq_refl)].
  - destruct (Hdown (Py.lit "postgresql://down") "connection refused"%string ToyDriver.fresh
                eq_refl eq_refl eq_refl) as [s' [Hrun [_ Hstate]]].
    exists s'. split; [exact Hrun | exact (Hstate eq_refl)].
  - destruct (Hup (Py.lit "postgresql://neon") 0
                {| ToyDriver.opened := 1; ToyDriver.closed := [] |}
                eq_refl eq_refl eq_refl) as [s' [Hrun [Hconn _]]].
    exists s'. split; [exact Hrun | exact Hconn].
Defined.

(** One-shot runs whose connect fails, or whose query fails, end with exit
    status zero. *)
Lemma one_shot_failures_exit_zero :
  (exists s',
      ToyDriver.main (ToyDriver.one_shot (Py.lit "SELECT 1")) None [] = Some (Ok tt, s')
      /\ Session.stdout s' = [Session.NoDatabaseUrl])
  /\ (exists s',
        ToyDriver.main (ToyDriver.one_shot (Py.lit "SELECT 1"))
          (Some (Py.lit "postgresql://down")) []
        = Some (Ok tt, s')
        /\ Session.stdout s'
           = [Session.ConnectionFailed (Exception "connection refused")])
  /\ (exists s',
        ToyDriver.main (ToyDriver.one_shot (Py.lit "SELECT boom"))
          (Some (Py.lit "postgresql://neon")) []
        = Some (Ok tt, s')
        /\ Session.stdout s'
           = [Session.ConnectedMsg; Session.QueryFailed (Exception "syntax error");
              Session.DisconnectedMsg])
  /\ Session.exit_status (Ok tt) = 0%Z.
Proof.
  repeat split; eexists; split; reflexivity.
Qed.

Lemma main_exit_status_witness :
  exists s',
    ToyDriver.main (ToyDriver.one_shot (Py.lit "SELECT 1"))
      (Some (Py.lit "postgresql://down")) []
    = Some (Ok tt, s')
    /\ Session.exit_status (Ok tt) = 0%Z
    /\ Session.stdout s' = [Session.ConnectionFailed (Exception "connection refused")].
Proof.
  destruct (ToyDriver.main (ToyDriver.one_shot (Py.lit "SELECT 1"))
              (Some (Py.lit "postgresql://down")) [])
    as [[r s']|] eqn:Hrun; [|discriminate].
  destruct (@main_exit_status _ _ _ ToyDriver.asyncpg_connect ToyDriver.close
              ToyDriver.fetch ToyDriver.execute
              toy_connect_errors toy_fetch_errors toy_execute_errors toy_close_returns
              (ToyDriver.one_shot (Py.lit "SELECT 1")) (Some (Py.lit "postgresql://down")) []
              ToyDriver.fresh r s' (Forall_nil _) Hrun) as [Hr [Hexit [_ Hout]]].
  subst r. exists s'. split; [reflexivity|]. split; [exact Hexit|].
  exact (Hout (Py.lit "postgresql://down") (Py.lit "SELECT 1")
              (Exception "connection refused") ToyDriver.fresh
              eq_refl eq_refl eq_refl eq_refl eq_refl eq_refl).
Defined.

(** ** The test on the query text, on examples *)

Example is_select_lowercase : Session.is_select (Py.lit "  select * from users") = true.
Proof. reflexivity. Qed.

Example is_select_empty : Session.is_select [] = false.
Proof. reflexivity. Qed.

Example is_select_blank : Session.is_select (Py.lit "   ") = false.
Proof. reflexivity. Qed.

Example is_select_ddl : Session.is_select (Py.lit "CREATE TABLE t (x int)") = false.
Proof. reflexivity. Qed.

Example is_select_dml : Session.is_select (Py.lit "insert into t values (1)") = false.
Proof. reflexivity. Qed.

Example is_select_multi : Session.is_select (Py.lit "DELETE FROM t; SELECT 1") = false.
Proof. reflexivity. Qed.

Example is_select_multi_read : Session.is_select (Py.lit "SELECT 1; DROP TABLE t") = true.
Proof. reflexivity. Qed.

Example is_select_with : Session.is_select (Py.lit "WITH x AS (SELECT 1) SELECT * FROM x") = false.
Proof. reflexivity. Qed.

(** ** The built-ins, on examples *)

Example strip_ex : Py.strip (Py.lit "  select 1  ") = Py.lit "select 1".
Proof. reflexivity. Qed.

Example upper_ex : Py.upper (Py.lit "Select * from t") = Py.lit "SELECT * FROM T".
Proof. reflexivity. Qed.

Example range_ex : Py.range 0 3 2 = Ok [0; 2]%Z.
Proof. reflexivity. Qed.

Example range_zero_step : Py.range 0 3 0 = Raise (Exception "range() arg 3 must not be zero").
Proof. reflexivity. Qed.

Example slice_ex : Py.slice [1; 2; 3]%Z 2 4 = [3]%Z.
Proof. reflexivity. Qed.

(** * Facts about the connection test script *)

Section ScriptFacts.

Import ConnectionTest.

Variable connection : Type.
Variable value : Type.
Variable world : Type.
Variable asyncpg_connect : Py.str -> world -> result connection * world.
Variable close : connection -> world -> result unit * world.
Variable fetch : connection -> Py.str -> world -> result (list (Session.row value)) * world.
Variable fetchval : connection -> Py.str -> world -> result value * world.

Local Abbreviation state := (ConnectionTest.state connection value world).
Local Abbreviation output := (ConnectionTest.output value).
Local Abbreviation call := (ConnectionTest.call connection).
Local Abbreviation run_queries := (ConnectionTest.run_queries fetch fetchval).
Local Abbreviation test_connection :=
  (ConnectionTest.test_connection asyncpg_connect close fetch fetchval).

(** [s] after more driver calls and more output. *)
Definition later (s : state) (w : world) (cs : list call) (os : list output) : state :=
  {| db := w; stdout := stdout s ++ os; calls := calls s ++ cs |}.

Lemma later_later (s : state) w cs os w' cs' os' :
  later (later s w cs os) w' cs' os' = later s w' (cs ++ cs') (os ++ os').
Proof. unfold later. cbn. now rewrite <- !app_assoc. Qed.

Lemma later_nothing (s : state) : later s (db s) [] [] = s.
Proof. destruct s. unfold later. cbn. now rewrite !app_nil_r. Qed.

Lemma script_print_run (o : output) (s : state) :
  print o s = (Ok tt, later s (db s) [] [o]).
Proof. unfold print, Eff.modify, later. now rewrite app_nil_r. Qed.

Lemma script_driver_run (A : Type) (c : call) (f : world -> result A * world) (s : state) :
  driver c f s = (fst (f (db s)), later s (snd (f (db s))) [c] []).
Proof.
  unfold driver, later. destruct (f (db s)) as [r w]. cbn. now rewrite app_nil_r.
Qed.

(** The listing prints the names of the rows before the first row
    without a [table_name] column, and raises the missing key there. *)
Lemma print_tables_run (tables : list (Session.row value)) :
  forall s : state,
  exists os,
    snd (print_tables tables s) = later s (db s) [] os
    /\ (forall e, fst (print_tables (connection := connection) tables s) = Raise e ->
        e = Exception "table_name").
Proof.
  induction tables as [|t rest IH]; intros s.
  - exists []. cbn. split; [now rewrite later_nothing | discriminate].
  - cbn [print_tables]. unfold Eff.bind, Eff.lift.
    destruct (Session.getitem t "table_name") as [v | e] eqn:Hget.
    + rewrite script_print_run.
      destruct (IH (later s (db s) [] [TableLine v])) as [os [Hs He]].
      exists (TableLine v :: os).
      destruct (print_tables rest _) as [[u | e] s1]; cbn [fst snd] in *;
        rewrite Hs, later_later; (split; [reflexivity|]);
        [discriminate | exact He].
    + exists []. cbn [fst snd]. split; [now rewrite later_nothing|].
      intros e0 H. inversion H; subst. eapply getitem_raises; exact Hget.
Qed.

(** The block of queries calls [fetchval] twice and [fetch] once, in this
    order, as far as it gets, and closes nothing. *)
Lemma run_queries_calls (c : connection) (s s' : state) (r : result unit) :
  run_queries c s = (r, s') ->
  exists cs,
    calls s' = calls s ++ cs
    /\ close_calls cs = []
    /\ (r = Ok tt ->
        cs = [CallFetchval c (Py.lit "SELECT 1"); CallFetchval c (Py.lit "SELECT version()");
              CallFetch c TABLES_SQL]).
Proof.
  unfold ConnectionTest.run_queries, Eff.bind. rewrite script_driver_run.
  destruct (fetchval c (Py.lit "SELECT 1") (db s)) as [[v1 | e] w1]; cbn [fst snd].
  2:{ intros H. inversion H; subst. eexists [_]. cbn. repeat split; try discriminate. }
  rewrite script_print_run, script_driver_run. cbn [db later].
  destruct (fetchval c (Py.lit "SELECT version()") w1) as [[v2 | e] w2]; cbn [fst snd].
  2:{ intros H. inversion H; subst. eexists [_; _]. cbn.
      rewrite <- ?app_assoc. repeat split; try discriminate. }
  rewrite script_print_run, script_driver_run. cbn [db later].
  destruct (fetch c TABLES_SQL w2) as [[tables | e] w3]; cbn [fst snd].
  2:{ intros H. inversion H; subst. eexists [_; _; _]. cbn.
      rewrite <- ?app_assoc. repeat split; try discriminate. }
  rewrite script_print_run.
  match goal with
  | |- print_tables tables ?s3 = _ -> _ =>
      destruct (print_tables_run tables s3) as [os [Hs _]];
      destruct (print_tables tables s3) as [r3 s4]
  end.
  cbn [snd] in Hs. intros H. inversion H; subst.
  eexists [_; _; _]. cbn. rewrite <- !app_assoc, !app_nil_r. repeat split.
Qed.

(** What the [except] clause of the script does with an exception. *)
Definition handled (e : exn) (s : state) : result bool * state :=
  if is_Exception e
  then (Ok false, later s (db s) [] [ConnectionFailed e])
  else (Raise e, s).

(** The script with an address: the connect, the queries, the close. *)
Lemma test_connection_run (url : Py.str) (s : state) :
  Py.truthy url = true ->
  test_connection (Some url) s =
  let s0 := later s (db s) [] [Connecting; Url (firstn 50 url)] in
  match asyncpg_connect url (db s) with
  | (Ok c, w1) =>
      match run_queries c (later s0 w1 [CallConnect url] [ConnectedMsg]) with
      | (Ok _, s2) =>
          match close c (db s2) with
          | (Ok _, w3) => (Ok true, later s2 w3 [CallClose c] [])
          | (Raise e, w3) => handled e (later s2 w3 [CallClose c] [])
          end
      | (Raise e, s2) => handled e s2
      end
  | (Raise e, w1) => handled e (later s0 w1 [CallConnect url] [])
  end.
Proof.
  intros Ht. unfold ConnectionTest.test_connection. rewrite Ht.
  unfold Eff.bind at 1 2. rewrite !script_print_run, later_later. cbv zeta.
  unfold Eff.try_except, Eff.bind, handled. rewrite script_driver_run. cbn [db later].
  destruct (asyncpg_connect url (db s)) as [[c | e] w1]; cbn [fst snd].
  - rewrite script_print_run, later_later. cbn [db later app].
    destruct (ConnectionTest.run_queries fetch fetchval c _) as [[u | e] s2].
    + rewrite script_driver_run.
      destruct (close c (db s2)) as [[u0 | e] w3]; cbn [fst snd]; [reflexivity|].
      destruct (is_Exception e); [|reflexivity].
      unfold Eff.bind. rewrite script_print_run. reflexivity.
    + destruct (is_Exception e); [|reflexivity].
      unfold Eff.bind. rewrite script_print_run. reflexivity.
  - destruct (is_Exception e); [|reflexivity].
    unfold Eff.bind. rewrite script_print_run. reflexivity.
Qed.

Lemma test_connection_no_url (db_url : option Py.str) (s : state) :
  Py.truthy_opt db_url = false ->
  test_connection db_url s = (Ok false, later s (db s) [] [NoDatabaseUrl]).
Proof.
  intros H. unfold ConnectionTest.test_connection.
  destruct db_url as [url|]; cbn in H.
  - rewrite H. unfold Eff.bind. rewrite script_print_run. reflexivity.
  - unfold Eff.bind. rewrite script_print_run. reflexivity.
Qed.

(** X15: the script returns True only after the five driver calls
    connect, [fetchval] of SELECT 1, [fetchval] of the version, [fetch] of
    the table list and close, on one connection, in this order and with no
    other call; the exit status is then zero. *)
Theorem test_connection_true (db_url : option Py.str) (s s' : state) :
  test_connection db_url s = (Ok true, s') ->
  exists url c,
    db_url = Some url
    /\ calls s' = calls s ++ [CallConnect url;
                              CallFetchval c (Py.lit "SELECT 1");
                              CallFetchval c (Py.lit "SELECT version()");
                              CallFetch c TABLES_SQL;
                              CallClose c]
    /\ exit_status (Ok true) = 0%Z.
Proof.
  intros H.
  destruct (Py.truthy_opt db_url) eqn:Ht;
    [| rewrite test_connection_no_url in H by exact Ht; discriminate].
  destruct db_url as [url|]; [cbn in Ht | discriminate].
  rewrite (test_connection_run url s Ht) in H. cbv zeta in H.
  unfold handled in H.
  destruct (asyncpg_connect url (db s)) as [[c | e] w1];
    [| destruct (is_Exception e); discriminate].
  destruct (ConnectionTest.run_queries fetch fetchval c _) as [[u | e] s2] eqn:Hq;
    [| destruct (is_Exception e); discriminate].
  destruct (run_queries_calls _ _ Hq) as [cs [Hcalls [_ Hcs]]].
  rewrite (Hcs ltac:(now destruct u)) in Hcalls. cbn [calls later] in Hcalls.
  destruct (close c (db s2)) as [[u0 | e] w3];
    [| destruct (is_Exception e); discriminate].
  inversion H; subst. exists url, c. split; [reflexivity|]. split; [|reflexivity].
  cbn [calls later]. rewrite Hcalls, <- !app_assoc. reflexivity.
Qed.

(** X16: a run of the script that returns False has closed no
    connection, also when it had opened one: among its driver calls there
    is no close, but for a close that raised as the last call. *)
Theorem test_connection_false_leaves_open (db_url : option Py.str) (s s' : state) :
  test_connection db_url s = (Ok false, s') ->
  exists cs,
    calls s' = calls s ++ cs
    /\ (close_calls cs = []
        \/ exists c cs0 w e w',
             cs = cs0 ++ [CallClose c]
             /\ close_calls cs0 = []
             /\ close c w = (Raise e, w')).
Proof.
  intros H.
  destruct (Py.truthy_opt db_url) eqn:Ht.
  2:{ rewrite test_connection_no_url in H by exact Ht. inversion H; subst.
      exists []. cbn. rewrite app_nil_r. split; [reflexivity | now left]. }
  destruct db_url as [url|]; [cbn in Ht | discriminate].
  rewrite (test_connection_run url s Ht) in H. cbv zeta in H.
  unfold handled in H.
  destruct (asyncpg_connect url (db s)) as [[c | e] w1].
  - destruct (ConnectionTest.run_queries fetch fetchval c _) as [[u | e] s2] eqn:Hq;
      destruct (run_queries_calls _ _ Hq) as [cs [Hcalls [Hnone _]]];
      cbn [calls later] in Hcalls.
    + destruct (close c (db s2)) as [[u0 | e] w3] eqn:Hclose; [discriminate|].
      destruct (is_Exception e); inversion H; subst.
      exists (([CallConnect url] ++ cs) ++ [CallClose c]).
      cbn [calls later]. rewrite Hcalls, <- !app_assoc, app_nil_r.
      split; [reflexivity|]. right.
      exists c, ([CallConnect url] ++ cs), (db s2), e, w3.
      repeat split; [exact Hnone | exact Hclose].
    + destruct (is_Exception e); inversion H; subst.
      exists ([CallConnect url] ++ cs). cbn [calls later].
      rewrite Hcalls, <- !app_assoc, app_nil_r.
      split; [reflexivity | left; exact Hnone].
  - destruct (is_Exception e); inversion H; subst.
    exists [CallConnect url]. cbn [calls later].
    rewrite <- !app_assoc, !app_nil_r. split; [reflexivity | now left].
Qed.

Section ScriptErrors.

(** The driver raises errors only. *)
Hypothesis connect_errors :
  forall url w e w', asyncpg_connect url w = (Raise e, w') -> is_Exception e = true.
Hypothesis close_errors :
  forall c w e w', close c w = (Raise e, w') -> is_Exception e = true.
Hypothesis fetch_errors :
  forall c q w e w', fetch c q w = (Raise e, w') -> is_Exception e = true.
Hypothesis fetchval_errors :
  forall c q w e w', fetchval c q w = (Raise e, w') -> is_Exception e = true.

Lemma run_queries_errors (c : connection) (s s' : state) (e : exn) :
  run_queries c s = (Raise e, s') -> is_Exception e = true.
Proof.
  unfold ConnectionTest.run_queries, Eff.bind. rewrite script_driver_run.
  destruct (fetchval c (Py.lit "SELECT 1") (db s)) as [[v1 | e1] w1] eqn:H1; cbn [fst snd].
  2:{ intros H. inversion H; subst. eapply fetchval_errors; exact H1. }
  rewrite script_print_run, script_driver_run. cbn [db later].
  destruct (fetchval c (Py.lit "SELECT version()") w1) as [[v2 | e2] w2] eqn:H2; cbn [fst snd].
  2:{ intros H. inversion H; subst. eapply fetchval_errors; exact H2. }
  rewrite script_print_run, script_driver_run. cbn [db later].
  destruct (fetch c TABLES_SQL w2) as [[tables | e3] w3] eqn:H3; cbn [fst snd].
  2:{ intros H. inversion H; subst. eapply fetch_errors; exact H3. }
  rewrite script_print_run.
  match goal with
  | |- print_tables tables ?s3 = _ -> _ =>
      destruct (print_tables_run tables s3) as [os [_ He]];
      destruct (print_tables tables s3) as [r3 s4]
  end.
  cbn [fst] in He. intros H. inversion H; subst. now rewrite (He e eq_refl).
Qed.

(** X17: when the driver raises errors only, the script raises nothing:
    it returns True or False, so its exit status is 0 or 1, and 0 exactly
    when it returned True.  Without an address it returns False after one
    line of output, with no call of the driver. *)
Theorem test_connection_exit_status (db_url : option Py.str) (s : state) :
  exists b s',
    test_connection db_url s = (Ok b, s')
    /\ (exit_status (fst (test_connection db_url s)) = 0%Z <-> b = true)
    /\ (exit_status (fst (test_connection db_url s)) = 0%Z
        \/ exit_status (fst (test_connection db_url s)) = 1%Z)
    /\ (Py.truthy_opt db_url = false ->
        b = false /\ calls s' = calls s /\ stdout s' = stdout s ++ [NoDatabaseUrl]).
Proof.
  assert (Hret : exists b s', test_connection db_url s = (Ok b, s')).
  { destruct (Py.truthy_opt db_url) eqn:Ht;
      [| rewrite test_connection_no_url by exact Ht; eexists _, _; reflexivity].
    destruct db_url as [url|]; [cbn in Ht | discriminate].
    rewrite (test_connection_run url s Ht). cbv zeta. unfold handled.
    destruct (asyncpg_connect url (db s)) as [[c | e] w1] eqn:Hc.
    - destruct (ConnectionTest.run_queries fetch fetchval c _) as [[u | e] s2] eqn:Hq.
      + destruct (close c (db s2)) as [[u0 | e] w3] eqn:Hcl; [eexists _, _; reflexivity|].
        rewrite (close_errors Hcl). eexists _, _; reflexivity.
      + pose proof Hq as He. apply run_queries_errors in He. rewrite He.
        eexists _, _; reflexivity.
    - rewrite (connect_errors Hc). eexists _, _; reflexivity. }
  destruct Hret as [b [s' Hrun]]. exists b, s'. rewrite Hrun. cbn [fst].
  split; [reflexivity|].
  split; [destruct b; cbn; split; intros; (reflexivity || discriminate)|].
  split; [destruct b; cbn; [now left | now right]|].
  intros Hno. rewrite test_connection_no_url in Hrun by exact Hno.
  inversion Hrun; subst. cbn. rewrite app_nil_r. repeat split.
Qed.

End ScriptErrors.

End ScriptFacts.

(** * The further facts on the concrete provider and driver *)

Lemma generate_embeddings_batch_sequential_witness :
  fst ToyProvider.abc_run
  = fst (Embeddings.embed_each ToyProvider.embed_content ToyProvider.abc ToyProvider.start).
Proof.
  assert (HB : (1 <= 2)%Z) by lia.
  exact (proj1 (@generate_embeddings_batch_sequential _ _ ToyProvider.embed_content
                  ToyProvider.abc 2 ToyProvider.start HB)).
Defined.

Lemma generate_embeddings_batch_below_one_witness :
  Embeddings.generate_embeddings_batch ToyProvider.embed_content ToyProvider.abc (-5)
    ToyProvider.start
  = (Ok [], {| Embeddings.provider := 0;
               Embeddings.log := [Embeddings.LogInfo (Embeddings.Total 0)] |}).
Proof.
  assert (HB : (-5 < 1)%Z) by lia.
  exact (@generate_embeddings_batch_below_one _ _ ToyProvider.embed_content
           ToyProvider.abc (-5) ToyProvider.start HB).
Defined.

Lemma generate_embeddings_batch_progress_witness :
  Embeddings.progress_signals (Embeddings.log (snd ToyProvider.abc_run))
  = [(2, 1, 2); (1, 2, 2)]%Z.
Proof.
  assert (HB : (1 <= 2)%Z) by lia.
  assert (E : Embeddings.generate_embeddings_batch ToyProvider.embed_content
                ToyProvider.abc 2 ToyProvider.start
              = (Ok ToyProvider.abc_vectors, snd ToyProvider.abc_run))
    by (vm_compute; reflexivity).
  destruct (@generate_embeddings_batch_progress _ _ ToyProvider.embed_content
              ToyProvider.abc 2 ToyProvider.start (snd ToyProvider.abc_run)
              ToyProvider.abc_vectors (Embeddings.log (snd ToyProvider.abc_run))
              HB E eq_refl) as [Hsignals _].
  rewrite Hsignals. vm_compute. reflexivity.
Defined.

Lemma generate_embeddings_batch_single_witness :
  fst (Embeddings.generate_embeddings_batch ToyProvider.embed_content ["a"%string] 100
         ToyProvider.start)
  = match fst (Embeddings.generate_embedding ToyProvider.embed_content "a"
                 ToyProvider.start) with
    | Ok v => Ok [v]
    | Raise e => Raise e
    end.
Proof.
  assert (HB : (1 <= 100)%Z) by lia.
  exact (proj1 (@generate_embeddings_batch_single _ _ ToyProvider.embed_content
                  "a"%string 100 ToyProvider.start HB)).
Defined.

Lemma connect_replaces_handle_witness :
  Session.conn (Session.self (snd (Session.connect ToyDriver.asyncpg_connect
                                     ToyDriver.connected))) = Some 1
  /\ exists cs,
       Session.calls (snd (Session.connect ToyDriver.asyncpg_connect ToyDriver.connected))
       = Session.calls ToyDriver.connected ++ cs
       /\ Session.close_calls cs = [].
Proof.
  assert (H : Session.connect ToyDriver.asyncpg_connect ToyDriver.connected
              = (Ok true, snd (Session.connect ToyDriver.asyncpg_connect ToyDriver.connected)))
    by reflexivity.
  destruct (@connect_replaces_handle _ _ _ ToyDriver.asyncpg_connect ToyDriver.connected
              _ _ H) as [[cs [Hcalls [Hclose _]]] _].
  split; [reflexivity|]. exists cs. split; [exact Hcalls | exact Hclose].
Defined.

Lemma execute_query_after_disconnect_witness :
  exists r s2 os,
    Session.execute_query ToyDriver.fetch ToyDriver.execute (Py.lit "SELECT 1")
      ToyDriver.disconnected
    = (r, s2)
    /\ Session.calls s2
       = Session.calls ToyDriver.disconnected
         ++ [if Session.is_select (Py.lit "SELECT 1")
             then Session.CallFetch 0 (Py.lit "SELECT 1")
             else Session.CallExecute 0 (Py.lit "SELECT 1")]
    /\ Session.stdout s2 = Session.stdout ToyDriver.disconnected ++ os
    /\ ~ In Session.NotConnected os.
Proof.
  exact (@execute_query_after_disconnect _ _ _ ToyDriver.close ToyDriver.fetch
           ToyDriver.execute (Py.lit "SELECT 1") 0 ToyDriver.connected ToyDriver.disconnected
           eq_refl eq_refl).
Defined.

Lemma loop_ignores_blank_lines_witness :
  Session.loop ToyDriver.fetch ToyDriver.execute
    (map Ok [[]; Py.lit "   "] ++ [Ok (Py.lit ".quit")]) ToyDriver.connected
  = Session.loop ToyDriver.fetch ToyDriver.execute [Ok (Py.lit ".quit")]
      (after ToyDriver.connected (Session.db ToyDriver.connected) []
         (repeat Session.Prompt (List.length [[]; Py.lit "   "]))).
Proof.
  apply (@loop_ignores_blank_lines _ _ _ ToyDriver.fetch ToyDriver.execute).
  repeat constructor.
Defined.

Lemma run_interactive_exit_at_once_witness :
  ToyDriver.run_interactive [Ok (Py.lit " .QUIT "); Ok (Py.lit "DROP oops")] ToyDriver.cli
  = Some (Ok tt,
          {| Session.self := {| Session.db_url := Some (Py.lit "postgresql://neon");
                                Session.conn := Some 0 |};
             Session.db := {| ToyDriver.opened := 1; ToyDriver.closed := [0] |};
             Session.stdout := [Session.Banner; Session.ConnectedMsg; Session.Prompt;
                                Session.DisconnectedMsg];
             Session.calls := [Session.CallConnect (Py.lit "postgresql://neon");
                               Session.CallClose 0] |}).
Proof.
  apply (@run_interactive_exit_at_once _ _ _ ToyDriver.asyncpg_connect ToyDriver.close
           ToyDriver.fetch ToyDriver.execute (Py.lit " .QUIT ") (Py.lit "postgresql://neon")
           [Ok (Py.lit "DROP oops")] ToyDriver.cli 0
           {| ToyDriver.opened := 1; ToyDriver.closed := [] |}
           {| ToyDriver.opened := 1; ToyDriver.closed := [0] |} tt);
    try reflexivity.
  right. reflexivity.
Defined.

Lemma loop_tables_command_witness :
  Session.loop ToyDriver.fetch ToyDriver.execute
    [Ok (Py.lit ".TABLES"); Ok (Py.lit ".exit")] ToyDriver.connected
  = Session.loop ToyDriver.fetch ToyDriver.execute [Ok (Py.lit ".exit")]
      (after ToyDriver.connected (Session.db ToyDriver.connected)
         [Session.CallFetch 0 Session.TABLES_SQL]
         [Session.Prompt; Session.TablesMsg ["users"; "orders"]%string]).
Proof.
  destruct (@loop_tables_command _ _ _ ToyDriver.fetch ToyDriver.execute
              (Py.lit ".TABLES") [Ok (Py.lit ".exit")] ToyDriver.connected 0
              [[("table_name", "users")]; [("table_name", "orders")]]%string
              (Session.db ToyDriver.connected) eq_refl eq_refl eq_refl) as [Hnames _].
  apply Hnames. repeat constructor.
Defined.

Lemma loop_input_errors_never_end_witness :
  Session.loop ToyDriver.fetch ToyDriver.execute
    [Raise (Exception "EOF when reading a line"); Raise (Exception "EOF when reading a line")]
    ToyDriver.connected
  = None.
Proof.
  apply (@loop_input_errors_never_end _ _ _ ToyDriver.fetch ToyDriver.execute).
  repeat constructor; eexists; reflexivity.
Defined.

Lemma one_shot_driver_calls_witness :
  exists s',
    ToyDriver.main (ToyDriver.one_shot (Py.lit "SELECT boom"))
      (Some (Py.lit "postgresql://neon")) []
    = Some (Ok tt, s')
    /\ Session.calls s'
       = [Session.CallConnect (Py.lit "postgresql://neon");
          Session.CallFetch 0 (Py.lit "SELECT boom"); Session.CallClose 0].
Proof.
  destruct (ToyDriver.main (ToyDriver.one_shot (Py.lit "SELECT boom"))
              (Some (Py.lit "postgresql://neon")) []) as [[r s']|] eqn:Hrun; [|discriminate].
  assert (Hr : r = Ok tt) by (vm_compute in Hrun; now inversion Hrun).
  subst r. exists s'. split; [reflexivity|].
  destruct (@one_shot_driver_calls _ _ _ ToyDriver.asyncpg_connect ToyDriver.close
              ToyDriver.fetch ToyDriver.execute (ToyDriver.one_shot (Py.lit "SELECT boom"))
              (Py.lit "SELECT boom") (Py.lit "postgresql://neon") [] ToyDriver.fresh
              {| ToyDriver.opened := 1; ToyDriver.closed := [] |} 0 (Ok tt) s'
              eq_refl eq_refl eq_refl eq_refl eq_refl Hrun) as [_ Hcalls].
  apply Hcalls. intros e w2 Hraise.
  change (ToyDriver.fetch 0 (Py.lit "SELECT boom")
            {| ToyDriver.opened := 1; ToyDriver.closed := [] |} = (Raise e, w2)) in Hraise.
  eapply toy_fetch_errors. exact Hraise.
Defined.

Lemma is_select_prefix_witness :
  Session.is_select (Py.lit "  " ++ Py.lit "Select" ++ Py.lit " 1; DROP TABLE t") = true.
Proof.
  exact (@is_select_prefix (Py.lit "  ") (Py.lit "Select") (Py.lit " 1; DROP TABLE t")
           eq_refl eq_refl).
Defined.

(** The script on the concrete driver, from a given state of the server. *)
Definition toy_test_connection (url : option Py.str) (w : ToyDriver.world)
    : result bool * ConnectionTest.state ToyDriver.connection ToyDriver.value ToyDriver.world :=
  ConnectionTest.test_connection ToyDriver.asyncpg_connect ToyDriver.close
    ToyDriver.fetch ToyDriver.fetchval url (ConnectionTest.start _ _ w).

Lemma toy_close_errors :
  forall c w e w', ToyDriver.close c w = (Raise e, w') -> is_Exception e = true.
Proof. intros c w e w' H. discriminate. Qed.

Lemma toy_fetchval_errors :
  forall c q w e w', ToyDriver.fetchval c q w = (Raise e, w') -> is_Exception e = true.
Proof.
  intros c q w e w' H. unfold ToyDriver.fetchval in H.
  repeat match type of H with
         | (if ?b then _ else _) = _ => destruct b
         end; inversion H; reflexivity.
Qed.

Lemma test_connection_true_witness :
  exists url c,
    Some (Py.lit "postgresql://neon") = Some url
    /\ ConnectionTest.calls (snd (toy_test_connection (Some (Py.lit "postgresql://neon"))
                                    ToyDriver.fresh))
       = [] ++ [ConnectionTest.CallConnect url;
                ConnectionTest.CallFetchval c (Py.lit "SELECT 1");
                ConnectionTest.CallFetchval c (Py.lit "SELECT version()");
                ConnectionTest.CallFetch c ConnectionTest.TABLES_SQL;
                ConnectionTest.CallClose c]
    /\ ConnectionTest.exit_status (Ok true) = 0%Z.
Proof.
  apply (@test_connection_true _ _ _ ToyDriver.asyncpg_connect ToyDriver.close
           ToyDriver.fetch ToyDriver.fetchval (Some (Py.lit "postgresql://neon"))
           (ConnectionTest.start _ _ ToyDriver.fresh)).
  reflexivity.
Defined.

Lemma test_connection_false_leaves_open_witness :
  fst (toy_test_connection (Some (Py.lit "postgresql://neon")) ToyDriver.busy) = Ok false
  /\ exists cs,
       ConnectionTest.calls (snd (toy_test_connection (Some (Py.lit "postgresql://neon"))
                                    ToyDriver.busy))
       = [] ++ cs
       /\ (ConnectionTest.close_calls cs = []
           \/ exists c cs0 w e w',
                cs = cs0 ++ [ConnectionTest.CallClose c]
                /\ ConnectionTest.close_calls cs0 = []
                /\ ToyDriver.close c w = (Raise e, w')).
Proof.
  split; [reflexivity|].
  apply (@test_connection_false_leaves_open _ _ _ ToyDriver.asyncpg_connect ToyDriver.close
           ToyDriver.fetch ToyDriver.fetchval (Some (Py.lit "postgresql://neon"))
           (ConnectionTest.start _ _ ToyDriver.busy)).
  reflexivity.
Defined.

Lemma test_connection_exit_status_witness :
  exists b s',
    toy_test_connection (Some (Py.lit "postgresql://down")) ToyDriver.fresh = (Ok b, s')
    /\ (ConnectionTest.exit_status
          (fst (toy_test_connection (Some (Py.lit "postgresql://down")) ToyDriver.fresh)) = 0%Z
        <-> b = true).
Proof.
  destruct (@test_connection_exit_status _ _ _ ToyDriver.asyncpg_connect ToyDriver.close
              ToyDriver.fetch ToyDriver.fetchval
              toy_connect_errors toy_close_errors toy_fetch_errors toy_fetchval_errors
              (Some (Py.lit "postgresql://down"))
              (ConnectionTest.start _ _ ToyDriver.fresh)) as [b [s' [Hrun [Hexit _]]]].
  exists b, s'. split; [exact Hrun | exact Hexit].
Defined.

